(** * VAPIOutboundService: phone normalisation, CSV lead intake, call dispatch

    A shallow embedding of [src/services/vapi-outbound-service.ts]:
    [formatPhoneNumber], the row handler and the upsert of
    [uploadLeadsFromCSV], and the loop of [processCampaignCalls].

    Strings.  A JavaScript string is a sequence of UTF-16 code units.  The
    embedding uses [string], one [ascii] per code unit, i.e. the code units
    0..255.  Every character the source tests for (the digits, ['+'], ['-'],
    the parentheses, the space) lies in that range; the white space class is
    the ECMAScript one cut down to it.  A value that may be [undefined] is an
    [option string].

    Effects.  The row handler of the upload mutates two arrays and a counter:
    it is a fold over the rows with that state.  The database and the calling
    API are outside the repository: the functions that talk to them take them
    as parameters, and [processCampaignCalls] returns the list of the effects
    it performs, in order.

    The first part holds the definitions, the second the properties. *)

From Stdlib Require Import Ascii String DecimalString.
From stdpp Require Import base option list strings gmap.

(** ** JavaScript string primitives used by the service *)

Module JS.

(** [!s] for a string: only the empty string is falsy. *)
Definition isEmpty (s : string) : bool :=
  match s with
  | EmptyString => true
  | String _ _ => false
  end.

(** [\d] *)
Definition isDigit (c : ascii) : bool :=
  (N.leb 48 (N_of_ascii c)) && (N.leb (N_of_ascii c) 57).

(** [[1-9]] *)
Definition isDigit19 (c : ascii) : bool :=
  (N.leb 49 (N_of_ascii c)) && (N.leb (N_of_ascii c) 57).

(** [\D] *)
Definition isNonDigit (c : ascii) : bool := negb (isDigit c).

(** [\s], and the characters [trim()] strips: TAB, LF, VT, FF, CR, SP, NBSP. *)
Definition isWhiteSpace (c : ascii) : bool :=
  match N_of_ascii c with
  | 9%N | 10%N | 11%N | 12%N | 13%N | 32%N | 160%N => true
  | _ => false
  end.

(** [s.replace(/[cls]/g, '')]: every code unit of the class is dropped. *)
Fixpoint removeAll (cls : ascii -> bool) (s : string) : string :=
  match s with
  | EmptyString => EmptyString
  | String c r => if cls c then removeAll cls r else String c (removeAll cls r)
  end.

(** [s.startsWith(p)] *)
Fixpoint startsWith (s p : string) : bool :=
  match p, s with
  | EmptyString, _ => true
  | String _ _, EmptyString => false
  | String a p', String b s' => if Ascii.eqb a b then startsWith s' p' else false
  end.

(** [s.substring(n)] *)
Fixpoint substring (s : string) (n : nat) : string :=
  match n, s with
  | O, _ => s
  | S _, EmptyString => EmptyString
  | S n', String _ r => substring r n'
  end.

(** [s.trimStart()], [s.trimEnd()], [s.trim()] *)
Fixpoint trimStart (s : string) : string :=
  match s with
  | EmptyString => EmptyString
  | String c r => if isWhiteSpace c then trimStart r else s
  end.

Fixpoint trimEnd (s : string) : string :=
  match s with
  | EmptyString => EmptyString
  | String c r =>
      let r' := trimEnd r in
      if isWhiteSpace c && isEmpty r' then EmptyString else String c r'
  end.

Definition trim (s : string) : string := trimEnd (trimStart s).

(** [s.split(sep)] for a separator of one code unit; the result is never
    the empty array (['']['.split(' ')] is [['']]). *)
Fixpoint split (sep : ascii) (s : string) : list string :=
  match s with
  | EmptyString => [EmptyString]
  | String c r =>
      if Ascii.eqb c sep then EmptyString :: split sep r
      else match split sep r with
           | h :: t => String c h :: t
           | [] => [String c EmptyString]
           end
  end.

(** [parts.join(sep)] *)
Fixpoint join (sep : string) (parts : list string) : string :=
  match parts with
  | [] => EmptyString
  | [x] => x
  | x :: rest => x +:+ sep +:+ join sep rest
  end.

(** [a || b] on strings: the empty string is the only falsy one. *)
Definition orString (a b : string) : string := if isEmpty a then b else a.

(** [s.toLowerCase()] on the code units 0..255: A-Z and the accented
    capitals U+00C0..U+00DE (U+00D7 apart) move up by 32. *)
Definition toLowerChar (c : ascii) : ascii :=
  let n := N_of_ascii c in
  if (N.leb 65 n && N.leb n 90)
     || (N.leb 192 n && N.leb n 222 && negb (N.eqb n 215))
  then ascii_of_N (n + 32) else c.

Fixpoint toLowerCase (s : string) : string :=
  match s with
  | EmptyString => EmptyString
  | String c r => String (toLowerChar c) (toLowerCase r)
  end.

(** [`${n}`] for a non-negative integer. *)
Definition numberToString (n : nat) : string :=
  NilZero.string_of_uint (Nat.to_uint n).

(** Every code unit of [s] is in the class [p] (the test [/^[p]*$/]). *)
Fixpoint allChars (p : ascii -> bool) (s : string) : bool :=
  match s with
  | EmptyString => true
  | String c r => p c && allChars p r
  end.

End JS.

(** ** formatPhoneNumber (lines 686-737) *)

Module Phone.

Import JS.

(** The block guarded by [cleaned.length >= 10] (lines 693-717); [None] when
    the block falls through without returning. *)
Definition countryCodeBlock (cleaned : string) : option string :=
  let len := String.length cleaned in
  if Nat.leb 10 len then
    if startsWith cleaned "1" && Nat.eqb len 11 then Some ("+" +:+ cleaned)
    else if startsWith cleaned "44" && Nat.leb 11 len then Some ("+" +:+ cleaned)
    else if startsWith cleaned "356" && Nat.eqb len 11 then Some ("+" +:+ cleaned)
    else if startsWith cleaned "39" && Nat.leb 10 len then Some ("+" +:+ cleaned)
    else if startsWith cleaned "33" && Nat.leb 10 len then Some ("+" +:+ cleaned)
    else if startsWith cleaned "49" && Nat.leb 11 len then Some ("+" +:+ cleaned)
    else if Nat.leb 10 len then Some ("+" +:+ cleaned)
    else None
  else None.

(** The Malta block (lines 719-725). *)
Definition maltaBlock (cleaned : string) : option string :=
  if Nat.eqb (String.length cleaned) 8 then
    if startsWith cleaned "9" || startsWith cleaned "7"
    then Some ("+356" +:+ cleaned)
    else None
  else None.

(** The United Kingdom block (lines 727-733). *)
Definition ukBlock (cleaned : string) : option string :=
  if Nat.eqb (String.length cleaned) 10 then Some ("+44" +:+ cleaned)
  else if Nat.eqb (String.length cleaned) 11 && startsWith cleaned "0"
  then Some ("+44" +:+ substring cleaned 1)
  else None.

(** The last line (736). *)
Definition fallback (cleaned : string) : string :=
  if startsWith cleaned "+" then cleaned else "+" +:+ cleaned.

(** [first_return [b1; b2; ...] d]: the value of the first block that
    returns, [d] when none does. *)
Fixpoint first_return (blocks : list (option string)) (d : string) : string :=
  match blocks with
  | [] => d
  | Some r :: _ => r
  | None :: rest => first_return rest d
  end.

(** [phone.replace(/\D/g, '')] (line 690) *)
Definition cleanedDigits (phone : string) : string := removeAll isNonDigit phone.

Definition formatPhoneNumber (phone : string) : string :=
  if isEmpty phone then ""
  else
    let cleaned := cleanedDigits phone in
    first_return
      [countryCodeBlock cleaned; maltaBlock cleaned; ukBlock cleaned]
      (fallback cleaned).

End Phone.

(** ** Regular expressions of the shape the service uses *)

Module RegExp.

Import JS.

Inductive regex : Type :=
| Class (cls : ascii -> bool)                     (* one code unit of a class *)
| Opt (r : regex)                                 (* r? *)
| Repeat (cls : ascii -> bool) (min max : nat)    (* [cls]{min,max} *)
| Seq (r1 r2 : regex).                            (* r1 r2 *)

(** [repeatClass cls min max s]: what is left of [s] after between [min] and
    [max] leading code units of the class, longest match first. *)
Fixpoint repeatClass (cls : ascii -> bool) (min max : nat) (s : string) : list string :=
  let stop := if Nat.eqb min 0 then [s] else [] in
  match max with
  | O => stop
  | S max' =>
      match s with
      | String c r => if cls c then repeatClass cls (Nat.pred min) max' r ++ stop else stop
      | EmptyString => stop
      end
  end.

(** [residues r s]: the suffixes of [s] left by every way [r] matches a
    prefix of [s], in the order a backtracking matcher tries them. *)
Fixpoint residues (r : regex) (s : string) : list string :=
  match r with
  | Class cls =>
      match s with
      | String c rest => if cls c then [rest] else []
      | EmptyString => []
      end
  | Opt r1 => residues r1 s ++ [s]
  | Repeat cls min max => repeatClass cls min max s
  | Seq r1 r2 => flat_map (residues r2) (residues r1 s)
  end.

(** [/^r$/.test(s)] *)
Definition test (r : regex) (s : string) : bool := existsb isEmpty (residues r s).

Definition isChar (a : ascii) : ascii -> bool := Ascii.eqb a.

End RegExp.

(** ** uploadLeadsFromCSV (lines 274-407) *)

Module VAPILead.
(** [Partial<VAPILead>] as the row handler builds it (lines 321-331). *)
Record t : Type := mk {
  firstName : string;
  lastName : string;
  phone : string;
  email : option string;
  company : option string;
  title : option string;
  status : string;
  callAttempts : nat;
  customFields : gmap string string
}.
End VAPILead.

Module LeadRecord.
(** The columns of table [leads] the service writes (lines 355-370). *)
Record t : Type := mk {
  organization_id : string;
  campaign_id : option string;
  first_name : string;
  last_name : string;
  phone : string;
  email : option string;
  company : option string;
  job_title : option string;
  status : string;
  call_status : string;
  call_attempts : nat;
  custom_fields : gmap string string;
  created_at : string;
  updated_at : string
}.

(** The value of a text column by name; [None] is SQL [NULL] (or a column
    that is not a text column of the table). *)
Definition column (name : string) (r : t) : option string :=
  if String.eqb name "organization_id" then Some (organization_id r)
  else if String.eqb name "campaign_id" then campaign_id r
  else if String.eqb name "first_name" then Some (first_name r)
  else if String.eqb name "last_name" then Some (last_name r)
  else if String.eqb name "phone" then Some (phone r)
  else if String.eqb name "email" then email r
  else if String.eqb name "company" then company r
  else if String.eqb name "job_title" then job_title r
  else if String.eqb name "status" then Some (status r)
  else if String.eqb name "call_status" then Some (call_status r)
  else if String.eqb name "created_at" then Some (created_at r)
  else if String.eqb name "updated_at" then Some (updated_at r)
  else None.
End LeadRecord.

(** ** The hosted database, as the service talks to it

    The database is not part of the repository.  [Db] fixes the shapes of the
    requests the service sends and of the answers it reads, and gives a
    reference semantics of the two requests the properties below depend on:
    what an [upsert] with a conflict target does with one proposed record
    and with a statement of records that do not collide with one another,
    and a [select] with equality filters and a row limit. *)

Module Db.

(** A stored row of table [leads]. *)
Record LeadRow : Type := mkLeadRow {
  id : string;
  cols : LeadRecord.t
}.

(** [.from('leads').upsert(values, { onConflict, ignoreDuplicates }).select()] *)
Record UpsertRequest : Type := mkUpsert {
  values : list LeadRecord.t;
  onConflict : string;
  ignoreDuplicates : bool
}.

(** [.from('leads').select('*').eq('campaign_id', c).eq('call_status', s).limit(n)] *)
Record LeadsQuery : Type := mkLeadsQuery {
  campaign_id_eq : string;
  call_status_eq : string;
  limit : nat
}.

(** [{ data, error }] *)
Record Response (A : Type) : Type := mkResponse {
  data : option A;
  error : option string
}.
Arguments mkResponse {A} _ _.
Arguments data {A} _.
Arguments error {A} _.

(** What an awaited request comes back with: the answer, or the error the
    client throws (a failed [fetch], say). *)
Inductive Awaited (A : Type) : Type :=
| Answered (a : A)
| Threw (message : string).
Arguments Answered {A} _.
Arguments Threw {A} _.

(** The two columns [processCampaignCalls] reads of a campaign. *)
Record CampaignConfig : Type := mkCampaignConfig {
  assistant_id : option string;
  phone_number_id : option string
}.

(** *** Reference semantics *)

(** The conflict target: the comma-separated column list. *)
Definition conflictColumns (onConflict : string) : list string := JS.split "," onConflict.

(** Two records collide on the target when every target column holds the
    same non-null value in both. *)
Definition conflicts (columns : list string) (a b : LeadRecord.t) : bool :=
  forallb
    (fun c =>
       match LeadRecord.column c a, LeadRecord.column c b with
       | Some x, Some y => String.eqb x y
       | _, _ => false
       end)
    columns.

(** One proposed record against the table: a colliding row is left alone
    ([DO NOTHING]) or takes the proposed columns and keeps its [id]
    ([DO UPDATE]); with no colliding row the record is appended under
    [newId].  The second component is the row the statement returns. *)
Fixpoint upsertRow (columns : list string) (ignore : bool) (newId : string)
    (r : LeadRecord.t) (tbl : list LeadRow) : list LeadRow * option LeadRow :=
  match tbl with
  | [] => let row := mkLeadRow newId r in ([row], Some row)
  | row :: rest =>
      if conflicts columns r (cols row) then
        if ignore then (row :: rest, None)
        else let row' := mkLeadRow (id row) r in (row' :: rest, Some row')
      else
        let '(rest', out) := upsertRow columns ignore newId r rest in
        (row :: rest', out)
  end.

(** The pair the conflict target [organization_id,phone] reads of a
    record. *)
Definition pairOf (r : LeadRecord.t) : string * string :=
  (LeadRecord.organization_id r, LeadRecord.phone r).

(** The proposed records of one statement collide with one another on the
    target nowhere. *)
Definition apart (columns : list string) (values : list LeadRecord.t) : Prop :=
  forall i j a b,
    i <> j -> values !! i = Some a -> values !! j = Some b -> conflicts columns a b = false.

(** A whole statement whose proposed records are [apart]: one record after
    the other, the [k]-th new row under the id [newId k].  The second
    component lists the rows the statement returns.  What the database does
    with a statement whose records are not [apart] is left open. *)
Fixpoint upsertAll (columns : list string) (ignore : bool) (newId : nat -> string)
    (k : nat) (values : list LeadRecord.t) (tbl : list LeadRow)
    : list LeadRow * list LeadRow :=
  match values with
  | [] => (tbl, [])
  | r :: rest =>
      let '(tbl1, out) := upsertRow columns ignore (newId k) r tbl in
      let '(tbl2, outs) := upsertAll columns ignore newId (S k) rest tbl1 in
      (tbl2, match out with Some row => row :: outs | None => outs end)
  end.

Definition matchesQuery (q : LeadsQuery) (row : LeadRow) : bool :=
  bool_decide (LeadRecord.campaign_id (cols row) = Some (campaign_id_eq q))
  && String.eqb (LeadRecord.call_status (cols row)) (call_status_eq q).

Definition select (q : LeadsQuery) (tbl : list LeadRow) : list LeadRow :=
  take (limit q) (List.filter (matchesQuery q) tbl).

End Db.

Module UploadResult.
(** [{ success, failed, errors }], the value of the promise (lines 388-392). *)
Record t : Type := mk {
  success : nat;
  failed : nat;
  errors : list string
}.
End UploadResult.

Module Csv.

Import JS Phone.

(** A row as csv-parser emits it: header name to cell text.  [row.k] is
    [row !! k]; a header the file does not have reads as [undefined]. *)
Abbreviation Row := (gmap string string).

(** Truthiness of a possibly undefined string. *)
Definition truthy (v : option string) : bool :=
  match v with
  | Some s => negb (isEmpty s)
  | None => false
  end.

(** [a || b] *)
Definition logicalOr (a b : option string) : option string := if truthy a then a else b.

Notation "a ||| b" := (logicalOr a b) (at level 50, left associativity).

(** Lines 291-294. *)
Definition phoneField (row : Row) : option string :=
  row !! "phone" ||| row !! "number" ||| row !! "telephone"
    ||| row !! "phoneNumber" ||| row !! "Phone" ||| row !! "Number".

Definition nameField (row : Row) : option string :=
  row !! "name" ||| row !! "Name".

Definition firstNameField (row : Row) : option string :=
  row !! "firstName" ||| row !! "first_name" ||| row !! "FirstName" ||| row !! "firstname".

Definition lastNameField (row : Row) : option string :=
  row !! "lastName" ||| row !! "last_name" ||| row !! "LastName" ||| row !! "lastname".

(** Lines 296-304: the values of the variables [firstName] and [lastName]
    when the required-field check is reached. *)
Definition resolveNames (row : Row) : option string * option string :=
  let firstName := firstNameField row in
  let lastName := lastNameField row in
  if negb (truthy firstName) && negb (truthy lastName) && truthy (nameField row) then
    match nameField row with
    | Some name =>
        let nameParts := split " " (trim name) in
        (nameParts !! 0, Some (orString (join " " (drop 1 nameParts)) ""))
    | None => (firstName, lastName)   (* not reached: a truthy value is a string *)
    end
  else (firstName, lastName).

(** [/[\s\-\(\)]/] *)
Definition isPhoneSeparator (c : ascii) : bool :=
  isWhiteSpace c || Ascii.eqb c "-" || Ascii.eqb c "(" || Ascii.eqb c ")".

(** [/^\+?[1-9]\d{1,14}$/] (line 313) *)
Definition phoneRegex : RegExp.regex :=
  RegExp.Seq (RegExp.Opt (RegExp.Class (RegExp.isChar "+")))
    (RegExp.Seq (RegExp.Class isDigit19) (RegExp.Repeat isDigit 1 14)).

(** The keys that are not copied to [customFields] (line 336). *)
Definition knownKeys : list string :=
  ["firstname"; "lastname"; "phone"; "number"; "name"; "email"; "company";
   "title"; "first_name"; "last_name"; "telephone"; "phonenumber"; "job_title"].

(** Lines 333-339. *)
Definition customFieldsOf (row : Row) : gmap string string :=
  filter (fun kv => toLowerCase kv.1 ∉ knownKeys) row.

(** [`Line ${lineNumber}: ${text}`] *)
Definition lineMessage (lineNumber : nat) (text : string) : string :=
  "Line " +:+ numberToString lineNumber +:+ ": " +:+ text.

(** What one ['data'] event does to the two arrays. *)
Inductive Handled : Type :=
| Pushed (lead : VAPILead.t)       (* leads.push(lead) *)
| Failed (message : string).       (* errors.push(message) *)

(** The lead a handled row pushed, and the message it pushed. *)
Definition pushedLead (h : Handled) : option VAPILead.t :=
  match h with
  | Pushed lead => Some lead
  | Failed _ => None
  end.

Definition failureMessage (h : Handled) : option string :=
  match h with
  | Pushed _ => None
  | Failed message => Some message
  end.

Section Upload.

(** [this.organizationId] *)
Variable organizationId : string.

(** The [message] of the [TypeError] the engine raises for
    [undefined.trim()]. *)
Variable undefinedTrimMessage : string.

(** The successive values of [new Date().toISOString()]. *)
Variable clock : nat -> string.

(** The body of the ['data'] handler (lines 289-345) for the row that
    makes [lineNumber] what it is. *)
Definition handleRow (lineNumber : nat) (row : Row) : Handled :=
  let '(firstName, lastName) := resolveNames row in
  match firstName, phoneField row with
  | Some firstName, Some phoneField =>
      if isEmpty firstName || isEmpty phoneField then
        Failed (lineMessage lineNumber "Missing required fields (name and phone)")
      else
        let cleanPhone := removeAll isPhoneSeparator phoneField in
        if negb (RegExp.test phoneRegex cleanPhone) then
          Failed (lineMessage lineNumber "Invalid phone number format")
        else
          match lastName with
          | None =>
              (* [lastName.trim()] throws; the [catch] of line 343 *)
              Failed (lineMessage lineNumber undefinedTrimMessage)
          | Some lastName =>
              Pushed
                {| VAPILead.firstName := trim firstName;
                   VAPILead.lastName := trim lastName;
                   VAPILead.phone := formatPhoneNumber cleanPhone;
                   VAPILead.email := trim <$> (row !! "email" ||| row !! "Email");
                   VAPILead.company := trim <$> (row !! "company" ||| row !! "Company");
                   VAPILead.title :=
                     trim <$> (row !! "title" ||| row !! "Title"
                                 ||| row !! "job_title" ||| row !! "JobTitle");
                   VAPILead.status := "pending";
                   VAPILead.callAttempts := 0;
                   VAPILead.customFields := customFieldsOf row |}
          end
  | _, _ => Failed (lineMessage lineNumber "Missing required fields (name and phone)")
  end.

(** The variables the handler closes over (lines 278-280). *)
Record Parsing : Type := mkParsing {
  leads : list VAPILead.t;
  errors : list string;
  lineNumber : nat
}.

Definition parsingStart : Parsing :=
  {| leads := []; errors := []; lineNumber := 0 |}.

(** One ['data'] event. *)
Definition onData (st : Parsing) (row : Row) : Parsing :=
  let n := S (lineNumber st) in
  match handleRow n row with
  | Pushed lead => {| leads := leads st ++ [lead]; errors := errors st; lineNumber := n |}
  | Failed msg => {| leads := leads st; errors := errors st ++ [msg]; lineNumber := n |}
  end.

(** The state when ['end'] fires. *)
Definition parseRows (rows : list Row) : Parsing := foldl onData parsingStart rows.

(** Lines 355-370; [i] is the index of the lead in the array. *)
Definition toRecord (campaignId : string) (i : nat) (lead : VAPILead.t) : LeadRecord.t :=
  {| LeadRecord.organization_id := organizationId;
     LeadRecord.campaign_id := Some campaignId;
     LeadRecord.first_name := VAPILead.firstName lead;
     LeadRecord.last_name := VAPILead.lastName lead;
     LeadRecord.phone := VAPILead.phone lead;
     LeadRecord.email := VAPILead.email lead;
     LeadRecord.company := VAPILead.company lead;
     LeadRecord.job_title := VAPILead.title lead;
     LeadRecord.status := "pending";
     LeadRecord.call_status := "pending";
     LeadRecord.call_attempts := 0;
     LeadRecord.custom_fields := VAPILead.customFields lead;
     LeadRecord.created_at := clock (2 * i);
     LeadRecord.updated_at := clock (2 * i + 1) |}.

(** The database behind [supabaseService], and what it does with the
    upsert request, which answers or throws, and with
    [updateCampaignMetrics] (lines 946-962, which write table [campaigns]
    only and swallow every error). *)
Variable Database : Type.
Variable supabaseUpsert :
  Db.UpsertRequest -> Database
  -> Database * Db.Awaited (Db.Response (list Db.LeadRow)).
Variable updateCampaignMetrics : string -> Database -> Database.

(** Lines 352-376. *)
Definition upsertRequest (campaignId : string) (parsed : list VAPILead.t)
    : Db.UpsertRequest :=
  {| Db.values := imap (toRecord campaignId) parsed;
     Db.onConflict := "organization_id,phone";
     Db.ignoreDuplicates := false |}.

(** How the returned promise settles. *)
Inductive Settled : Type :=
| Resolve (result : UploadResult.t)
| Reject (message : string).

(** How the stream of csv-parser finishes: with ['end'], or with ['error']
    and the error it carries. *)
Inductive StreamEnd : Type :=
| Ended
| Errored (message : string).

(** [rows] are the rows csv-parser emits for [csvData], in order, and
    [ending] the event that follows them.  The promise is rejected by the
    ['error'] handler (lines 398-400) and by the [catch] of the ['end']
    handler (lines 394-396), which takes what the upsert throws and the
    error of line 380. *)
Definition uploadLeadsFromCSV (campaignId : string) (rows : list Row)
    (ending : StreamEnd) (db : Database) : Database * Settled :=
  match ending with
  | Errored message => (db, Reject message)
  | Ended =>
      let st := parseRows rows in
      let '(db1, awaited) := supabaseUpsert (upsertRequest campaignId (leads st)) db in
      match awaited with
      | Db.Threw message => (db1, Reject message)
      | Db.Answered response =>
          match Db.error response with
          | Some message => (db1, Reject ("Failed to insert leads: " +:+ message))
          | None =>
              let db2 := updateCampaignMetrics campaignId db1 in
              (db2,
               Resolve
                 {| UploadResult.success :=
                      match Db.data response with
                      | Some inserted => length inserted
                      | None => 0
                      end;
                    UploadResult.failed := length (errors st);
                    UploadResult.errors := errors st |})
          end
      end
  end.

End Upload.

End Csv.

(** ** The column rules in the specification's words

    These follow the text of the specification, not the code; the properties
    below compare them with [Csv.resolveNames] and [Csv.phoneField]. *)

Module CsvSpec.

(** The text of [s] before its first [sep] (all of [s] when it has none). *)
Fixpoint beforeFirst (sep : ascii) (s : string) : string :=
  match s with
  | EmptyString => EmptyString
  | String c r => if Ascii.eqb c sep then EmptyString else String c (beforeFirst sep r)
  end.

(** Everything after the first [sep] of [s] (empty when it has none). *)
Fixpoint afterFirst (sep : ascii) (s : string) : string :=
  match s with
  | EmptyString => EmptyString
  | String c r => if Ascii.eqb c sep then r else afterFirst sep r
  end.

(** The accepted names of the phone column, in order of preference. *)
Definition phoneAliases : list string :=
  ["phone"; "number"; "telephone"; "phoneNumber"; "Phone"; "Number"].

(** The accepted names of the other columns the name rule looks at. *)
Definition nameAliases : list string := ["name"; "Name"].
Definition firstNameAliases : list string :=
  ["firstName"; "first_name"; "FirstName"; "firstname"].
Definition lastNameAliases : list string :=
  ["lastName"; "last_name"; "LastName"; "lastname"].

(** A column is present in a row when it holds a non-empty cell. *)
Definition present (row : gmap string string) (column : string) : Prop :=
  exists cell, row !! column = Some cell /\ cell <> "".

End CsvSpec.

(** ** processCampaignCalls (lines 629-681) *)

Module Campaign.

(** What an awaited call does. *)
Inductive Outcome (A : Type) : Type :=
| Returned (a : A)
| Thrown (message : string).
Arguments Returned {A} _.
Arguments Thrown {A} _.

(** The effects of one invocation, in the order they happen. *)
Inductive Event : Type :=
| MakeCall (lead : Db.LeadRow) (assistantId phoneNumberId : option string)
| SetTimeout (ms : nat)                              (* line 670 *)
| LeadFailureLogged (leadId : string) (message : string)   (* line 672 *)
| ProcessingErrorLogged (message : string).          (* line 679 *)

(** What follows [await this.makeCall(...)] inside the [try]: the wait of
    line 670 when the call returned, the [console.error] of line 672 when it
    threw. *)
Definition eventAfter {A : Type} (lead : Db.LeadRow) (outcome : Outcome A) : Event :=
  match outcome with
  | Returned _ => SetTimeout 2000
  | Thrown message => LeadFailureLogged (Db.id lead) message
  end.

(** The leads [makeCall] was invoked for, in order. *)
Definition callsOf (events : list Event) : list Db.LeadRow :=
  omap (fun e => match e with MakeCall lead _ _ => Some lead | _ => None end) events.

Section Process.

Variable Database : Type.
Variable CallResult : Type.

(** The two reads (lines 636-641 and 650-654), and [makeCall]
    (lines 742-842) as a step on the database. *)
Variable selectLeads : Db.LeadsQuery -> Database -> option (list Db.LeadRow).
Variable selectCampaign : string -> Database -> option Db.CampaignConfig.
Variable makeCall :
  string -> Db.LeadRow -> option string -> option string ->
  Database -> Database * Outcome CallResult.

(** Lines 636-641. *)
Definition pendingQuery (campaignId : string) : Db.LeadsQuery :=
  {| Db.campaign_id_eq := campaignId; Db.call_status_eq := "pending"; Db.limit := 5 |}.

(** The [for] loop (lines 664-674). *)
Fixpoint callLeads (campaignId : string) (campaign : Db.CampaignConfig)
    (leads : list Db.LeadRow) (db : Database) : Database * list Event :=
  match leads with
  | [] => (db, [])
  | lead :: rest =>
      let '(db1, outcome) :=
        makeCall campaignId lead
          (Db.assistant_id campaign) (Db.phone_number_id campaign) db in
      let '(db2, events) := callLeads campaignId campaign rest db1 in
      (db2,
       MakeCall lead (Db.assistant_id campaign) (Db.phone_number_id campaign)
         :: eventAfter lead outcome :: events)
  end.

(** The outcomes of the successive [makeCall]s of the loop.  Not in the
    source: it names what each call did, to say what follows it. *)
Fixpoint callOutcomes (campaignId : string) (campaign : Db.CampaignConfig)
    (leads : list Db.LeadRow) (db : Database) : list (Outcome CallResult) :=
  match leads with
  | [] => []
  | lead :: rest =>
      let '(db1, outcome) :=
        makeCall campaignId lead
          (Db.assistant_id campaign) (Db.phone_number_id campaign) db in
      outcome :: callOutcomes campaignId campaign rest db1
  end.

Definition processCampaignCalls (campaignId : string) (db : Database)
    : Database * list Event :=
  match selectLeads (pendingQuery campaignId) db with
  | None | Some [] => (db, [])
  | Some leads =>
      match selectCampaign campaignId db with
      | None => (db, [ProcessingErrorLogged "Campaign not found"])
      | Some campaign => callLeads campaignId campaign leads db
      end
  end.

End Process.

End Campaign.


(** ** Sample data *)

Module Samples.

(** A row that names the lead through the [name] column. *)
Definition sampleNameRow : gmap string string :=
  <["name" := "  Ada  Lovelace King "]> (<["Number" := "+356 9912-3456"]> ∅).

(** A row whose name has two spaces after the first word. *)
Definition doubleSpaceRow : gmap string string :=
  <["name" := "Ada  Lovelace"]> (<["phone" := "+35699123456"]> ∅).

(** A row with a first name and a phone, and no last name. *)
Definition johnRow : gmap string string :=
  <["firstName" := "John"]> (<["phone" := "+44 7700 900123"]> ∅).

Definition annRow : gmap string string :=
  <["name" := "Ann Lee"]> (<["phone" := "+44 7700 900124"]> ∅).

(** A database that keeps table [leads] as a list and does with every
    statement what the reference semantics says; it numbers its new rows. *)
Definition sampleUpsert (req : Db.UpsertRequest) (tbl : list Db.LeadRow)
    : list Db.LeadRow * Db.Awaited (Db.Response (list Db.LeadRow)) :=
  let run :=
    Db.upsertAll (Db.conflictColumns (Db.onConflict req)) (Db.ignoreDuplicates req)
      (fun k => "new-" +:+ JS.numberToString k) 0 (Db.values req) tbl in
  (run.1, Db.Answered (Db.mkResponse (Some run.2) None)).

Definition sampleClock (n : nat) : string := "2024-03-0" +:+ JS.numberToString (S n).

(** What [sampleNameRow] becomes for campaign [camp-1] of organization
    [org-1]. *)
Definition sampleRecord : LeadRecord.t :=
  {| LeadRecord.organization_id := "org-1";
     LeadRecord.campaign_id := Some "camp-1";
     LeadRecord.first_name := "Ada";
     LeadRecord.last_name := "Lovelace King";
     LeadRecord.phone := "+35699123456";
     LeadRecord.email := None;
     LeadRecord.company := None;
     LeadRecord.job_title := None;
     LeadRecord.status := "pending";
     LeadRecord.call_status := "pending";
     LeadRecord.call_attempts := 0;
     LeadRecord.custom_fields := ∅;
     LeadRecord.created_at := "2024-03-01";
     LeadRecord.updated_at := "2024-03-02" |}.

(** A stored lead of [org-1] with the phone [sampleNameRow] normalises to. *)
Definition storedLead : Db.LeadRow :=
  Db.mkLeadRow "lead-7"
    {| LeadRecord.organization_id := "org-1";
       LeadRecord.campaign_id := None;
       LeadRecord.first_name := "A.";
       LeadRecord.last_name := "Byron";
       LeadRecord.phone := "+35699123456";
       LeadRecord.email := None;
       LeadRecord.company := None;
       LeadRecord.job_title := None;
       LeadRecord.status := "pending";
       LeadRecord.call_status := "failed";
       LeadRecord.call_attempts := 2;
       LeadRecord.custom_fields := ∅;
       LeadRecord.created_at := "2024-01-01T00:00:00.000Z";
       LeadRecord.updated_at := "2024-01-02T00:00:00.000Z" |}.

(** A pending lead of campaign [camp-1]. *)
Definition pendingLead (leadId phone : string) : Db.LeadRow :=
  Db.mkLeadRow leadId
    {| LeadRecord.organization_id := "org-1";
       LeadRecord.campaign_id := Some "camp-1";
       LeadRecord.first_name := "Lead";
       LeadRecord.last_name := leadId;
       LeadRecord.phone := phone;
       LeadRecord.email := None;
       LeadRecord.company := None;
       LeadRecord.job_title := None;
       LeadRecord.status := "pending";
       LeadRecord.call_status := "pending";
       LeadRecord.call_attempts := 0;
       LeadRecord.custom_fields := ∅;
       LeadRecord.created_at := "2024-03-01";
       LeadRecord.updated_at := "2024-03-01" |}.

Definition leadA : Db.LeadRow := pendingLead "lead-a" "+35699123456".
Definition leadB : Db.LeadRow := pendingLead "lead-b" "+35679123456".

(** A table [leads] with seven pending leads of [camp-1] and one lead that
    is not pending. *)
Definition leadsTable : list Db.LeadRow :=
  [leadA; storedLead; leadB;
   pendingLead "lead-c" "+35699000003"; pendingLead "lead-d" "+35699000004";
   pendingLead "lead-e" "+35699000005"; pendingLead "lead-f" "+35699000006";
   pendingLead "lead-g" "+35699000007"].

(** A database that answers the leads query from a fixed table. *)
Definition selectFrom (tbl : list Db.LeadRow) (q : Db.LeadsQuery) (_ : unit)
    : option (list Db.LeadRow) :=
  Some (Db.select q tbl).

Definition campaignFound (_ : string) (_ : unit) : option Db.CampaignConfig :=
  Some (Db.mkCampaignConfig (Some "asst-1") (Some "pn-1")).

Definition campaignMissing (_ : string) (_ : unit) : option Db.CampaignConfig := None.

(** The calling API refuses the call to [lead-a] and accepts every other. *)
Definition failsForLeadA (_ : string) (lead : Db.LeadRow) (_ _ : option string) (db : unit)
    : unit * Campaign.Outcome unit :=
  if String.eqb (Db.id lead) "lead-a"
  then (db, Campaign.Thrown "Failed to create call")
  else (db, Campaign.Returned tt).

End Samples.

(** ** More definitions: the columns the row handler reads *)

Module CsvColumns.

(** Every property name the ['data'] handler reads of a row (lines 291-294
    and 325-327), in source order. *)
Definition readColumns : list string :=
  ["phone"; "number"; "telephone"; "phoneNumber"; "Phone"; "Number";
   "name"; "Name";
   "firstName"; "first_name"; "FirstName"; "firstname";
   "lastName"; "last_name"; "LastName"; "lastname";
   "email"; "Email"; "company"; "Company";
   "title"; "Title"; "job_title"; "JobTitle"].

(** More sample rows. *)
Definition blankFirstNameRow : gmap string string :=
  <["firstName" := "   "]> (<["lastname" := "Smith"]> (<["phone" := "+35699123456"]> ∅)).

Definition nationalFormatRow : gmap string string :=
  <["name" := "Ann Lee"]> (<["phone" := "07700 900123"]> ∅).

Definition customColumnsRow : gmap string string :=
  <["name" := "Ann Lee"]> (<["PHONE" := "+35699123456"]>
    (<["JobTitle" := "CTO"]> (<["city" := "Valletta"]> ∅))).

End CsvColumns.

(** ** More definitions: [async] bodies *)

Module Async.

Import Campaign.

Section Actions.

Context {World E : Type}.

(** An [async] body: a step on the world outside the service that logs what
    it exchanged with it and returns or throws. *)
Definition Action (A : Type) : Type := World -> World * list E * Outcome A.

Definition ret {A : Type} (a : A) : Action A := fun w => (w, [], Returned a).

(** [throw new Error(message)] *)
Definition throw {A : Type} (message : string) : Action A :=
  fun w => (w, [], Thrown message).

Definition bind {A B : Type} (m : Action A) (k : A -> Action B) : Action B :=
  fun w =>
    let '(w1, t1, r) := m w in
    match r with
    | Returned a => let '(w2, t2, r2) := k a w1 in (w2, t1 ++ t2, r2)
    | Thrown message => (w1, t1, Thrown message)
    end.

(** [try { body } catch (error) { handler }] *)
Definition tryCatch {A : Type} (body : Action A) (handler : string -> Action A) : Action A :=
  fun w =>
    let '(w1, t1, r) := body w in
    match r with
    | Returned a => (w1, t1, Returned a)
    | Thrown message => let '(w2, t2, r2) := handler message w1 in (w2, t1 ++ t2, r2)
    end.

(** [await request], logged together with what came back. *)
Definition exchange {A : Type} (e : Outcome A -> E) (request : World -> World * Outcome A)
    : Action A :=
  fun w => let '(w1, r) := request w in (w1, [e r], r).

(** [await request], logged as the request alone. *)
Definition await {A : Type} (e : E) (request : World -> World * Outcome A) : Action A :=
  exchange (fun _ => e) request.

(** A reading of the clock, or of anything else that answers at once. *)
Definition read {A : Type} (f : World -> A) : Action A := fun w => (w, [], Returned (f w)).

End Actions.

Arguments Action : clear implicits.

End Async.

(** ** More definitions: one call ([makeCall], lines 742-842) *)

Module CallRequest.
Record Customer : Type := mkCustomer {
  number : string;
  name : string;
  email : option string
}.

(** The request of lines 755-763. *)
Record t : Type := mk {
  assistantId : option string;
  phoneNumberId : option string;
  customer : Customer
}.
End CallRequest.

Module CallRecord.
(** The row of table [calls] of lines 784-794. *)
Record t : Type := mk {
  organization_id : string;
  campaign_id : string;
  lead_id : string;
  vapi_call_id : string;
  direction : string;
  phone_number : string;
  status : string;
  started_at : string;
  cost : nat
}.
End CallRecord.

Module VAPICallResult.
(** The fields [makeCall] fills (lines 821-826). *)
Record t : Type := mk {
  leadId : string;
  vapiCallId : string;
  status : string;
  startedAt : string
}.
End VAPICallResult.

Module Call.

Import JS Campaign Async.

(** The requests [makeCall] awaits, in the order it sends them.  The
    [console] lines are left out. *)
Inductive Effect : Type :=
| CreateCall (request : CallRequest.t)                              (* line 769 *)
| InsertCall (record : CallRecord.t)                                (* lines 782-796 *)
| UpdateLead (leadId call_status updated_at : string)    (* lines 804-810, 831-837 *)
| SimulateCallProgression (vapiCallId organizationId : string).     (* line 818 *)

(** The [call_status] writes of a trace: lead id and new status. *)
Definition statusWrites (trace : list Effect) : list (string * string) :=
  omap (fun e => match e with UpdateLead i s _ => Some (i, s) | _ => None end) trace.

Definition isCreateCall (e : Effect) : bool :=
  match e with CreateCall _ => true | _ => false end.

Definition isInsertCall (e : Effect) : bool :=
  match e with InsertCall _ => true | _ => false end.

Definition isSimulation (e : Effect) : bool :=
  match e with SimulateCallProgression _ _ => true | _ => false end.

Section Make.

(** Everything outside the service: the calling API, the database, the mock
    webhook service and the clock.  None of them is in the repository; each
    awaited request is a step on the world that returns or throws. *)
Variable World : Type.
Variable organizationId : string.
(** [this.vapiService]: [null], or an object whose [createCall] answers with
    a call, of which [id] is read. *)
Variable vapiService : option (CallRequest.t -> World -> World * Outcome string).
(** The insert answers [{ data, error }]; [error.message] is what is read. *)
Variable insertCall : CallRecord.t -> World -> World * Outcome (option string).
(** [.from('leads').update({ call_status, updated_at }).eq('id', id)]; the
    answer is not read. *)
Variable updateLead : string -> string -> string -> World -> World * Outcome unit.
Variable simulateCallProgression : string -> string -> World -> World * Outcome unit.
(** [new Date().toISOString()] and [Date.now()]. *)
Variable toISOString : World -> string.
Variable dateNow : World -> nat.

Local Abbreviation Action := (Async.Action World Effect).

Notation "x <- m ;; k" := (bind m (fun x => k))
  (at level 100, m at next level, right associativity).

(** Lines 747-751. *)
Definition vapiPhoneNumber (formattedPhone : string) : string :=
  if startsWith formattedPhone "+" then formattedPhone else "+" +:+ formattedPhone.

(** Lines 755-763. *)
Definition callRequest (lead : Db.LeadRow) (assistantId phoneNumberId : option string)
    : CallRequest.t :=
  let formattedPhone := Phone.formatPhoneNumber (LeadRecord.phone (Db.cols lead)) in
  {| CallRequest.assistantId := assistantId;
     CallRequest.phoneNumberId := phoneNumberId;
     CallRequest.customer :=
       {| CallRequest.number := vapiPhoneNumber formattedPhone;
          CallRequest.name :=
            trim (LeadRecord.first_name (Db.cols lead) +:+ " "
                    +:+ LeadRecord.last_name (Db.cols lead));
          CallRequest.email := Csv.logicalOr (LeadRecord.email (Db.cols lead)) None |} |}.

(** Lines 784-794. *)
Definition callRecord (campaignId : string) (lead : Db.LeadRow) (vapiCallId now : string)
    : CallRecord.t :=
  {| CallRecord.organization_id := organizationId;
     CallRecord.campaign_id := campaignId;
     CallRecord.lead_id := Db.id lead;
     CallRecord.vapi_call_id := vapiCallId;
     CallRecord.direction := "outbound";
     CallRecord.phone_number := Phone.formatPhoneNumber (LeadRecord.phone (Db.cols lead));
     CallRecord.status := "initiated";
     CallRecord.started_at := now;
     CallRecord.cost := 0 |}.

(** Lines 742-842. *)
Definition makeCall (campaignId : string) (lead : Db.LeadRow)
    (assistantId phoneNumberId : option string) : Action VAPICallResult.t :=
  tryCatch
    (vapiCallId <-
       match vapiService with
       | Some createCall =>
           await (CreateCall (callRequest lead assistantId phoneNumberId))
             (createCall (callRequest lead assistantId phoneNumberId))
       | None =>
           now <- read dateNow ;;
           ret ("mock-call-" +:+ numberToString now)
       end ;;
     started <- read toISOString ;;
     callError <-
       await (InsertCall (callRecord campaignId lead vapiCallId started))
         (insertCall (callRecord campaignId lead vapiCallId started)) ;;
     _ <- match callError with
          | Some message => throw ("Failed to record call: " +:+ message)
          | None => ret tt
          end ;;
     updated <- read toISOString ;;
     _ <- await (UpdateLead (Db.id lead) "calling" updated)
            (updateLead (Db.id lead) "calling" updated) ;;
     _ <- (if negb (bool_decide (is_Some vapiService)) && startsWith vapiCallId "mock-call-"
           then await (SimulateCallProgression vapiCallId organizationId)
                  (simulateCallProgression vapiCallId organizationId)
           else ret tt) ;;
     startedAt <- read toISOString ;;
     ret {| VAPICallResult.leadId := Db.id lead;
            VAPICallResult.vapiCallId := vapiCallId;
            VAPICallResult.status := "pending";
            VAPICallResult.startedAt := startedAt |})
    (fun error =>
       updated <- read toISOString ;;
       _ <- await (UpdateLead (Db.id lead) "failed" updated)
              (updateLead (Db.id lead) "failed" updated) ;;
       throw error).

(** [makeCall] as [processCampaignCalls] sees it: a step on the world
    together with the log of the requests sent so far. *)
Definition loggedCall (campaignId : string) (lead : Db.LeadRow)
    (assistantId phoneNumberId : option string) (state : World * list Effect)
    : (World * list Effect) * Outcome VAPICallResult.t :=
  let '(w1, trace, outcome) := makeCall campaignId lead assistantId phoneNumberId state.1 in
  ((w1, state.2 ++ trace), outcome).

End Make.

End Call.

(** Sample surroundings of a call: the world is the clock, in milliseconds;
    every request takes one. *)
Module CallSamples.

Import Campaign.

Definition sampleISO (w : nat) : string := "T+" +:+ JS.numberToString w.

Definition answeringService : option (CallRequest.t -> nat -> nat * Outcome string) :=
  Some (fun _ w => (S w, Returned "call-1")).

Definition acceptingInsert (_ : CallRecord.t) (w : nat) : nat * Outcome (option string) :=
  (S w, Returned None).

Definition refusingInsert (_ : CallRecord.t) (w : nat) : nat * Outcome (option string) :=
  (S w, Returned (Some "duplicate key")).

Definition quietUpdate (_ _ _ : string) (w : nat) : nat * Outcome unit := (S w, Returned tt).

Definition quietSimulation (_ _ : string) (w : nat) : nat * Outcome unit := (S w, Returned tt).

Definition sampleDateNow (w : nat) : nat := w.

(** A clock that shows the morning of 5 March 2024, one second per request. *)
Definition morningClock (w : nat) : string :=
  "2024-03-05T10:00:0" +:+ JS.numberToString w +:+ ".000Z".

(** The lead of [Samples.sampleRecord] once its call is under way. *)
Definition callingLead : Db.LeadRow :=
  Db.mkLeadRow "lead-1"
    {| LeadRecord.organization_id := "org-1";
       LeadRecord.campaign_id := Some "camp-1";
       LeadRecord.first_name := "Ada";
       LeadRecord.last_name := "Lovelace King";
       LeadRecord.phone := "+35699123456";
       LeadRecord.email := None;
       LeadRecord.company := None;
       LeadRecord.job_title := None;
       LeadRecord.status := "pending";
       LeadRecord.call_status := "calling";
       LeadRecord.call_attempts := 0;
       LeadRecord.custom_fields := ∅;
       LeadRecord.created_at := "2024-03-01";
       LeadRecord.updated_at := "T+2" |}.

End CallSamples.

(** ** More definitions: campaign metrics ([calculateCampaignMetrics],
    lines 968-1012) *)

Module CallRow.
(** The columns of a row of [calls] that the counts read; [None] is [null]. *)
Record t : Type := mk {
  status : option string;
  outcome : option string;
  started_at : option string
}.
End CallRow.

Module Metrics.

Import JS.

(** [values.includes(v)] for a column that may be [null]. *)
Definition includes (values : list string) (v : option string) : bool :=
  match v with
  | Some s => existsb (String.eqb s) values
  | None => false
  end.

(** The fields of the result that are counts.  The rates, the average
    duration and the total cost are floating-point numbers and are left
    out. *)
Record Counts : Type := mkCounts {
  totalLeads : nat;
  callsAttempted : nat;
  callsConnected : nat;
  callsCompleted : nat;
  positiveOutcomes : nat;
  activeCalls : nat;
  callsToday : nat;
  leadsRemaining : nat
}.

(** Line 990: [new Date().toISOString().split('T')[0]]. *)
Definition today (now : string) : string := default "" (head (split "T" now)).

Definition isConnected (call : CallRow.t) : bool :=
  includes ["completed"; "connected"] (CallRow.status call).

Definition isCompleted (call : CallRow.t) : bool :=
  match CallRow.status call with
  | Some s => String.eqb s "completed"
  | None => false
  end.

Definition isPositive (call : CallRow.t) : bool :=
  includes ["interested"; "converted"; "callback"] (CallRow.outcome call).

Definition isActive (call : CallRow.t) : bool :=
  includes ["queued"; "ringing"; "in-progress"] (CallRow.status call).

(** [call.started_at?.startsWith(today)] *)
Definition startedOn (day : string) (call : CallRow.t) : bool :=
  match CallRow.started_at call with
  | Some s => startsWith s day
  | None => false
  end.

Definition isRemaining (lead : Db.LeadRow) : bool :=
  includes ["pending"; "no_answer"; "busy"] (Some (LeadRecord.call_status (Db.cols lead))).

Definition calculateCampaignMetrics (now : string)
    (leads : list Db.LeadRow) (calls : list CallRow.t) : Counts :=
  {| totalLeads := length leads;
     callsAttempted := length calls;
     callsConnected := length (List.filter isConnected calls);
     callsCompleted := length (List.filter isCompleted calls);
     positiveOutcomes := length (List.filter isPositive calls);
     activeCalls := length (List.filter isActive calls);
     callsToday := length (List.filter (startedOn (today now)) calls);
     leadsRemaining := length (List.filter isRemaining leads) |}.

End Metrics.

(** ** More definitions: starting a campaign ([startCampaign],
    lines 414-624) *)

Module Start.

Import JS Campaign Async.

(** The reads of table [leads], by their filters. *)
Inductive LeadsSelect : Type :=
| PendingOf (campaignId : string)                     (* lines 431-436, 476-481 *)
| AllOf (campaignId : string)                         (* lines 446-450 *)
| UnassignedPending (organizationId : string) (limit : nat)          (* lines 511-517 *)
| InOtherCampaigns (organizationId : string) (call_statuses : list string)
    (limit : nat).                                    (* lines 557-563 *)

(** The writes of table [leads], each on the rows with the given ids. *)
Inductive LeadsUpdate : Type :=
| ResetToPending (ids : list string) (updated_at : string)                (* lines 467-470 *)
| AssignTo (campaignId : string) (ids : list string) (updated_at : string)   (* lines 525-531 *)
| ReassignTo (campaignId : string) (ids : list string) (updated_at : string).
                                                      (* lines 571-578 *)

(** What [startCampaign] exchanges with the outside, request and answer. *)
Inductive Exchange : Type :=
| CampaignRead (campaignId organizationId : string)
    (answer : Outcome (Db.Response Db.CampaignConfig))
| LeadsRead (q : LeadsSelect) (answer : Outcome (Db.Response (list Db.LeadRow)))
| LeadsWritten (u : LeadsUpdate) (answer : Outcome (option string))
| CampaignActivated (campaignId updated_at : string) (answer : Outcome unit)
| ProcessingStarted (campaignId : string).

Definition isProcessing (e : Exchange) : bool :=
  match e with ProcessingStarted _ => true | _ => false end.

Definition isActivation (e : Exchange) : bool :=
  match e with CampaignActivated _ _ _ => true | _ => false end.

Definition isWrite (e : Exchange) : bool :=
  match e with LeadsWritten _ _ => true | _ => false end.

(** The message of the exchange that threw, if it did. *)
Definition thrownBy (e : Exchange) : option string :=
  match e with
  | CampaignRead _ _ (Thrown m) | LeadsRead _ (Thrown m)
  | LeadsWritten _ (Thrown m) | CampaignActivated _ _ (Thrown m) => Some m
  | _ => None
  end.

(** Line 461. *)
Definition resetableStatuses : list string := ["failed"; "no_answer"; "busy"].

Definition isResetable (l : Db.LeadRow) : bool :=
  Metrics.includes resetableStatuses (Some (LeadRecord.call_status (Db.cols l))).

Section Run.

Variable World : Type.
Variable organizationId : string.
(** The database, one variable per kind of request; each answers
    [{ data, error }] (or [{ error }]) or throws. *)
Variable selectCampaign :
  string -> string -> World -> World * Outcome (Db.Response Db.CampaignConfig).
Variable selectLeads :
  LeadsSelect -> World -> World * Outcome (Db.Response (list Db.LeadRow)).
Variable updateLeads : LeadsUpdate -> World -> World * Outcome (option string).
Variable activateCampaign : string -> string -> World -> World * Outcome unit.
(** [this.processCampaignCalls(campaignId)], not awaited: what it does to
    the world before [startCampaign] goes on. *)
Variable processCampaignCalls : string -> World -> World.
Variable toISOString : World -> string.

Local Abbreviation Action := (Async.Action World Exchange).

Notation "x <- m ;; k" := (bind m (fun x => k))
  (at level 100, m at next level, right associativity).

Definition readLeads (q : LeadsSelect) : Action (Db.Response (list Db.LeadRow)) :=
  exchange (LeadsRead q) (selectLeads q).

Definition writeLeads (u : LeadsUpdate) : Action (option string) :=
  exchange (LeadsWritten u) (updateLeads u).

(** The block the source repeats four times (lines 489-500, 539-550,
    586-597 and 607-618): mark the campaign active, start the calls. *)
Definition activateAndProcess (campaignId : string) : Action unit :=
  now <- read toISOString ;;
  _ <- exchange (CampaignActivated campaignId now) (activateCampaign campaignId now) ;;
  (fun w => (processCampaignCalls campaignId w, [ProcessingStarted campaignId], Returned tt)).

(** Lines 446-505.  [true]: the function has returned. *)
Definition resetBlock (campaignId : string) : Action bool :=
  allCampaignLeads <- readLeads (AllOf campaignId) ;;
  match Db.error allCampaignLeads with
  | Some message => throw ("Failed to fetch campaign leads: " +:+ message)
  | None =>
      match Db.data allCampaignLeads with
      | Some (l :: ls) =>
          match List.filter isResetable (l :: ls) with
          | [] => ret false
          | leadsToReset =>
              now <- read toISOString ;;
              resetError <- writeLeads (ResetToPending (map Db.id leadsToReset) now) ;;
              match resetError with
              | Some _ => ret false
              | None =>
                  resetLeads <- readLeads (PendingOf campaignId) ;;
                  match Db.data resetLeads with
                  | Some (_ :: _) => _ <- activateAndProcess campaignId ;; ret true
                  | _ => ret false
                  end
              end
          end
      | _ => ret false
      end
  end.

(** Lines 507-601.  [true]: the function has returned. *)
Definition reassignBlock (campaignId : string) : Action bool :=
  orgLeads <- readLeads (UnassignedPending organizationId 10) ;;
  match Db.error orgLeads, Db.data orgLeads with
  | Some _, _ => ret false
  | None, Some (l :: ls) =>
      now <- read toISOString ;;
      assignError <- writeLeads (AssignTo campaignId (map Db.id (l :: ls)) now) ;;
      match assignError with
      | Some _ => ret false
      | None => _ <- activateAndProcess campaignId ;; ret true
      end
  | None, _ =>
      otherCampaignLeads <-
        readLeads
          (InOtherCampaigns organizationId ["pending"; "failed"; "no_answer"; "busy"] 5) ;;
      match Db.error otherCampaignLeads, Db.data otherCampaignLeads with
      | Some _, _ => ret false
      | None, Some (l :: ls) =>
          now <- read toISOString ;;
          reassignError <- writeLeads (ReassignTo campaignId (map Db.id (l :: ls)) now) ;;
          match reassignError with
          | Some _ => ret false
          | None => _ <- activateAndProcess campaignId ;; ret true
          end
      | None, _ => ret false
      end
  end.

(** Lines 414-624. *)
Definition startCampaign (campaignId : string) : Action unit :=
  tryCatch
    (campaign <-
       exchange (CampaignRead campaignId organizationId)
         (selectCampaign campaignId organizationId) ;;
     match Db.error campaign, Db.data campaign with
     | None, Some _ =>
         leads <- readLeads (PendingOf campaignId) ;;
         match Db.error leads with
         | Some message => throw ("Failed to fetch leads: " +:+ message)
         | None =>
             match Db.data leads with
             | Some (_ :: _) => activateAndProcess campaignId
             | _ =>
                 returned <- resetBlock campaignId ;;
                 if (returned : bool) then ret tt
                 else
                   returned <- reassignBlock campaignId ;;
                   if (returned : bool) then ret tt
                   else throw "No leads found for campaign. Please upload leads first."
             end
         end
     | _, _ => throw "Campaign not found"
     end)
    (fun error => throw error).

End Run.

End Start.

(** Sample surroundings of [startCampaign]: a database that knows the
    campaign and has no lead at all, and one that does not know the
    campaign. *)
Module StartSamples.

Import Campaign Start.

Definition knownCampaign (_ _ : string) (w : nat)
    : nat * Outcome (Db.Response Db.CampaignConfig) :=
  (S w, Returned (Db.mkResponse (Some (Db.mkCampaignConfig (Some "assistant-1") None)) None)).

Definition unknownCampaign (_ _ : string) (w : nat)
    : nat * Outcome (Db.Response Db.CampaignConfig) :=
  (S w, Returned (Db.mkResponse None (Some "no rows"))).

Definition noLeads (_ : LeadsSelect) (w : nat)
    : nat * Outcome (Db.Response (list Db.LeadRow)) :=
  (S w, Returned (Db.mkResponse (Some []) None)).

Definition onePendingLead (_ : LeadsSelect) (w : nat)
    : nat * Outcome (Db.Response (list Db.LeadRow)) :=
  (S w, Returned (Db.mkResponse (Some [Samples.pendingLead "lead-1" "+35699123456"]) None)).

(** No lead in the campaign, one pending lead of the organisation that no
    campaign holds. *)
Definition oneUnassignedLead (q : LeadsSelect) (w : nat)
    : nat * Outcome (Db.Response (list Db.LeadRow)) :=
  match q with
  | UnassignedPending _ _ =>
      (S w, Returned (Db.mkResponse (Some [Samples.storedLead]) None))
  | _ => (S w, Returned (Db.mkResponse (Some []) None))
  end.

Definition quietWrite (_ : LeadsUpdate) (w : nat) : nat * Outcome (option string) :=
  (S w, Returned None).

Definition quietActivation (_ _ : string) (w : nat) : nat * Outcome unit :=
  (S w, Returned tt).

Definition laterProcessing (_ : string) (w : nat) : nat := w.

End StartSamples.

(** ** More definitions: creating a campaign ([createCampaign],
    lines 129-269) *)

Module CampaignData.
(** The fields of the argument that decide what [createCampaign] does or
    that go into the columns of the new row.  The fields that only go into
    the [settings] column ([schedule], [scheduleDate], [scheduleTime],
    [assignedTeam], [maxRetries], [retryDelay]) are left out, with that
    column. *)
Record t : Type := mk {
  name : option string;
  description : option string;
  status : option string;
  assistantId : option string;
  phoneNumberId : option string;
  phoneNumber : option string;
  csvData : option string;
  sendTiming : option string;
  createdBy : option string
}.
End CampaignData.

Module CampaignInsert.
(** The row of lines 178-203, its [settings] column apart. *)
Record t : Type := mk {
  organization_id : string;
  name : string;
  description : option string;
  type : string;
  status : string;
  assistant_id : string;
  phone_number_id : string;
  created_by : string;
  total_calls : nat;
  successful_calls : nat;
  total_duration : nat;
  created_at : string;
  updated_at : string
}.
End CampaignInsert.

Module CampaignRow.
(** The columns read of the row the insert returns (lines 251-257), the
    [settings] column apart. *)
Record t : Type := mk {
  id : string;
  name : string;
  description : option string;
  status : string;
  assistant_id : string;
  phone_number_id : string
}.
End CampaignRow.

Module CreatedCampaign.
(** The result of lines 250-263, without the three fields read of
    [settings] and without the floating-point fields of [metrics], which are
    all the literal [0]. *)
Record t : Type := mk {
  id : string;
  organizationId : string;
  name : string;
  description : option string;
  status : string;
  assistantId : string;
  phoneNumberId : string;
  leads : list VAPILead.t;
  metrics : Metrics.Counts
}.
End CreatedCampaign.

Module Create.

Import JS Campaign Async.

Inductive Exchange : Type :=
| AssistantsListed (answer : Outcome unit)                              (* line 156 *)
| CampaignInserted (row : CampaignInsert.t)
    (answer : Outcome (Db.Response CampaignRow.t))                      (* lines 176-205 *)
| LeadsUploaded (campaignId csvData : string)
    (answer : Outcome UploadResult.t)                                   (* line 216 *)
| CampaignStarted (campaignId : string) (answer : Outcome unit).        (* line 227 *)

Definition isUpload (e : Exchange) : bool :=
  match e with LeadsUploaded _ _ _ => true | _ => false end.

Definition isStart (e : Exchange) : bool :=
  match e with CampaignStarted _ _ => true | _ => false end.

(** [v || fallback] for a string that may be undefined. *)
Definition orElse (v : option string) (fallback : string) : string :=
  match v with
  | Some s => orString s fallback
  | None => fallback
  end.

(** Lines 234-248. *)
Definition zeroMetrics : Metrics.Counts :=
  {| Metrics.totalLeads := 0;
     Metrics.callsAttempted := 0;
     Metrics.callsConnected := 0;
     Metrics.callsCompleted := 0;
     Metrics.positiveOutcomes := 0;
     Metrics.activeCalls := 0;
     Metrics.callsToday := 0;
     Metrics.leadsRemaining := 0 |}.

Section Run.

Variable World : Type.
Variable organizationId : string.
(** [this.vapiService]: [null], or a service, of which [listAssistants] is
    called. *)
Variable vapiService : option (World -> World * Outcome unit).
Variable insertCampaign :
  CampaignInsert.t -> World -> World * Outcome (Db.Response CampaignRow.t).
(** The two methods of the service that [createCampaign] awaits. *)
Variable uploadLeadsFromCSV : string -> string -> World -> World * Outcome UploadResult.t.
Variable startCampaign : string -> World -> World * Outcome unit.
(** [new Date().toISOString()]; the row takes two readings in a row. *)
Variable clock : World -> World * string.
(** The message of the [TypeError] of [campaign.id] on [null]. *)
Variable nullIdMessage : string.

Local Abbreviation Action := (Async.Action World Exchange).

Notation "x <- m ;; k" := (bind m (fun x => k))
  (at level 100, m at next level, right associativity).

Definition now : Action string :=
  fun w => let '(w1, time) := clock w in (w1, [], Returned time).

(** Line 147. *)
Definition hasVAPICredentials : bool := bool_decide (is_Some vapiService).

(** Line 148. *)
Definition hasRealVAPIData (data : CampaignData.t) : bool :=
  Csv.truthy (CampaignData.assistantId data)
  && (Csv.truthy (CampaignData.phoneNumberId data)
      || Csv.truthy (CampaignData.phoneNumber data)).

(** Lines 178-203.  The name is not empty when the row is built. *)
Definition newRow (data : CampaignData.t) (createdAt updatedAt : string)
    : CampaignInsert.t :=
  {| CampaignInsert.organization_id := organizationId;
     CampaignInsert.name := orElse (CampaignData.name data) "";
     CampaignInsert.description := CampaignData.description data;
     CampaignInsert.type := "outbound";
     CampaignInsert.status := orElse (CampaignData.status data) "draft";
     CampaignInsert.assistant_id := orElse (CampaignData.assistantId data) "dev-assistant-001";
     CampaignInsert.phone_number_id :=
       orElse (CampaignData.phoneNumberId data) "dev-phone-001";
     CampaignInsert.created_by :=
       orElse (CampaignData.createdBy data) "919004cd-19a8-4d10-a501-2bf59a581823";
     CampaignInsert.total_calls := 0;
     CampaignInsert.successful_calls := 0;
     CampaignInsert.total_duration := 0;
     CampaignInsert.created_at := createdAt;
     CampaignInsert.updated_at := updatedAt |}.

(** Lines 250-263. *)
Definition created (campaign : CampaignRow.t) : CreatedCampaign.t :=
  {| CreatedCampaign.id := CampaignRow.id campaign;
     CreatedCampaign.organizationId := organizationId;
     CreatedCampaign.name := CampaignRow.name campaign;
     CreatedCampaign.description := CampaignRow.description campaign;
     CreatedCampaign.status := CampaignRow.status campaign;
     CreatedCampaign.assistantId := CampaignRow.assistant_id campaign;
     CreatedCampaign.phoneNumberId := CampaignRow.phone_number_id campaign;
     CreatedCampaign.leads := [];
     CreatedCampaign.metrics := zeroMetrics |}.

(** Lines 129-269. *)
Definition createCampaign (data : CampaignData.t) : Action CreatedCampaign.t :=
  tryCatch
    (if negb (Csv.truthy (CampaignData.name data)) then throw "Campaign name is required"
     else
       _ <- (if hasVAPICredentials && hasRealVAPIData data then
               tryCatch
                 (match vapiService with
                  | Some listAssistants =>
                      if Csv.truthy (CampaignData.assistantId data)
                      then exchange AssistantsListed listAssistants
                      else ret tt
                  | None => ret tt
                  end)
                 (fun _ => ret tt)
             else ret tt) ;;
       createdAt <- now ;;
       updatedAt <- now ;;
       answer <- exchange (CampaignInserted (newRow data createdAt updatedAt))
                   (insertCampaign (newRow data createdAt updatedAt)) ;;
       match Db.error answer with
       | Some message => throw ("Failed to create campaign: " +:+ message)
       | None =>
           match Db.data answer with
           | None => throw nullIdMessage
           | Some campaign =>
               _ <- (if Csv.truthy (CampaignData.csvData data) then
                       tryCatch
                         (_ <- exchange
                                 (LeadsUploaded (CampaignRow.id campaign)
                                    (orElse (CampaignData.csvData data) ""))
                                 (uploadLeadsFromCSV (CampaignRow.id campaign)
                                    (orElse (CampaignData.csvData data) "")) ;;
                          ret tt)
                         (fun _ => ret tt)
                     else ret tt) ;;
               _ <- (if bool_decide (CampaignData.sendTiming data = Some "now")
                        && hasVAPICredentials && hasRealVAPIData data
                     then
                       tryCatch
                         (exchange (CampaignStarted (CampaignRow.id campaign))
                            (startCampaign (CampaignRow.id campaign)))
                         (fun _ => ret tt)
                     else ret tt) ;;
               ret (created campaign)
           end
       end)
    (fun error => throw error).

End Run.

End Create.

(** Sample surroundings of [createCampaign]. *)
Module CreateSamples.

Import Campaign Create.

Definition readyData : CampaignData.t :=
  {| CampaignData.name := Some "Spring";
     CampaignData.description := None;
     CampaignData.status := None;
     CampaignData.assistantId := Some "assistant-1";
     CampaignData.phoneNumberId := Some "phone-1";
     CampaignData.phoneNumber := None;
     CampaignData.csvData := None;
     CampaignData.sendTiming := Some "now";
     CampaignData.createdBy := None |}.

Definition listingService : option (nat -> nat * Outcome unit) :=
  Some (fun w => (S w, Returned tt)).

Definition storingInsert (row : CampaignInsert.t) (w : nat)
    : nat * Outcome (Db.Response CampaignRow.t) :=
  (S w,
   Returned
     (Db.mkResponse
        (Some {| CampaignRow.id := "camp-1";
                 CampaignRow.name := CampaignInsert.name row;
                 CampaignRow.description := CampaignInsert.description row;
                 CampaignRow.status := CampaignInsert.status row;
                 CampaignRow.assistant_id := CampaignInsert.assistant_id row;
                 CampaignRow.phone_number_id := CampaignInsert.phone_number_id row |})
        None)).

Definition quietUpload (_ _ : string) (w : nat) : nat * Outcome UploadResult.t :=
  (S w, Returned (UploadResult.mk 0 0 [])).

Definition failingStart (_ : string) (w : nat) : nat * Outcome unit :=
  (S w, Thrown "No leads found for campaign. Please upload leads first.").

Definition tickingClock (w : nat) : nat * string := (S w, CallSamples.sampleISO w).

End CreateSamples.

(** ** More definitions: the dashboard of a campaign
    ([getCampaignDashboard], lines 847-919) *)

Module DashboardCampaign.
(** The result of lines 900-913, without the three fields read of
    [settings] and the floating-point fields of [metrics].  A lead is shown
    with its [id]; [lastCallAt] and [nextCallAt], columns the service never
    writes, are left out. *)
Record t : Type := mk {
  id : string;
  organizationId : string;
  name : string;
  description : option string;
  status : string;
  assistantId : string;
  phoneNumberId : string;
  leads : list (string * VAPILead.t);
  metrics : Metrics.Counts
}.
End DashboardCampaign.

Module Dashboard.

Import JS Campaign Async.

Inductive Exchange : Type :=
| CampaignRead (campaignId organizationId : string)
    (answer : Outcome (Db.Response CampaignRow.t))                   (* lines 850-855 *)
| LeadsRead (campaignId : string)
    (answer : Outcome (Db.Response (list Db.LeadRow)))               (* lines 862-865 *)
| CallsRead (campaignId : string)
    (answer : Outcome (Db.Response (list CallRow.t))).               (* lines 872-875 *)

Definition thrownBy (e : Exchange) : option string :=
  match e with
  | CampaignRead _ _ (Thrown m) | LeadsRead _ (Thrown m) | CallsRead _ (Thrown m) => Some m
  | _ => None
  end.

(** Lines 885-898. *)
Definition transformLead (lead : Db.LeadRow) : string * VAPILead.t :=
  (Db.id lead,
   {| VAPILead.firstName := LeadRecord.first_name (Db.cols lead);
      VAPILead.lastName := LeadRecord.last_name (Db.cols lead);
      VAPILead.phone := LeadRecord.phone (Db.cols lead);
      VAPILead.email := LeadRecord.email (Db.cols lead);
      VAPILead.company := LeadRecord.company (Db.cols lead);
      VAPILead.title := LeadRecord.job_title (Db.cols lead);
      VAPILead.status := LeadRecord.call_status (Db.cols lead);
      VAPILead.callAttempts := LeadRecord.call_attempts (Db.cols lead);
      VAPILead.customFields := LeadRecord.custom_fields (Db.cols lead) |}).

(** Whether a lead as shown counts as remaining. *)
Definition shownRemaining (shown : string * VAPILead.t) : bool :=
  Metrics.includes ["pending"; "no_answer"; "busy"] (Some (VAPILead.status shown.2)).

Section Run.

Variable World : Type.
Variable organizationId : string.
Variable selectCampaign :
  string -> string -> World -> World * Outcome (Db.Response CampaignRow.t).
Variable selectLeads : string -> World -> World * Outcome (Db.Response (list Db.LeadRow)).
Variable selectCalls : string -> World -> World * Outcome (Db.Response (list CallRow.t)).
Variable toISOString : World -> string.

Local Abbreviation Action := (Async.Action World Exchange).

Notation "x <- m ;; k" := (bind m (fun x => k))
  (at level 100, m at next level, right associativity).

Definition getCampaignDashboard (campaignId : string) : Action DashboardCampaign.t :=
  tryCatch
    (campaign <-
       exchange (CampaignRead campaignId organizationId)
         (selectCampaign campaignId organizationId) ;;
     match Db.error campaign, Db.data campaign with
     | None, Some campaign =>
         leads <- exchange (LeadsRead campaignId) (selectLeads campaignId) ;;
         match Db.error leads with
         | Some message => throw ("Failed to fetch leads: " +:+ message)
         | None =>
             calls <- exchange (CallsRead campaignId) (selectCalls campaignId) ;;
             match Db.error calls with
             | Some message => throw ("Failed to fetch calls: " +:+ message)
             | None =>
                 now <- read toISOString ;;
                 ret {| DashboardCampaign.id := CampaignRow.id campaign;
                        DashboardCampaign.organizationId := organizationId;
                        DashboardCampaign.name := CampaignRow.name campaign;
                        DashboardCampaign.description := CampaignRow.description campaign;
                        DashboardCampaign.status := CampaignRow.status campaign;
                        DashboardCampaign.assistantId := CampaignRow.assistant_id campaign;
                        DashboardCampaign.phoneNumberId :=
                          CampaignRow.phone_number_id campaign;
                        DashboardCampaign.leads :=
                          map transformLead (default [] (Db.data leads));
                        DashboardCampaign.metrics :=
                          Metrics.calculateCampaignMetrics now
                            (default [] (Db.data leads)) (default [] (Db.data calls)) |}
             end
         end
     | _, _ => throw "Campaign not found"
     end)
    (fun error => throw error).

End Run.

End Dashboard.

(** * Properties *)

(** ** Strings *)

Module JSFacts.

Import JS.

Lemma app_cons (c : ascii) (s t : string) : String c s +:+ t = String c (s +:+ t).
Proof. reflexivity. Qed.

Lemma app_empty_l (s : string) : "" +:+ s = s.
Proof. reflexivity. Qed.

Lemma length_app (s t : string) :
  String.length (s +:+ t) = String.length s + String.length t.
Proof. induction s as [|c s IH]; [reflexivity|]. rewrite app_cons. simpl. by rewrite IH. Qed.

Lemma isEmpty_true (s : string) : isEmpty s = true <-> s = "".
Proof. destruct s; simpl; split; congruence. Qed.

Lemma isEmpty_false (s : string) : isEmpty s = false <-> s <> "".
Proof. destruct s; simpl; split; congruence. Qed.

Lemma allChars_app p s t : allChars p (s +:+ t) = allChars p s && allChars p t.
Proof.
  induction s as [|c s IH]; [reflexivity|].
  rewrite app_cons. simpl. by rewrite IH, andb_assoc.
Qed.

Lemma allChars_ext p q s : (forall c, p c = q c) -> allChars p s = allChars q s.
Proof. intros E. induction s as [|c s IH]; [reflexivity|]. simpl. by rewrite E, IH. Qed.

Lemma removeAll_keeps cls s : allChars (fun c => negb (cls c)) (removeAll cls s) = true.
Proof.
  induction s as [|c s IH]; [reflexivity|]. simpl.
  destruct (cls c) eqn:E; [exact IH|]. simpl. by rewrite E, IH.
Qed.

Lemma removeAll_id cls s : allChars (fun c => negb (cls c)) s = true -> removeAll cls s = s.
Proof.
  induction s as [|c s IH]; [reflexivity|]. simpl.
  intros [Hc Hs]%andb_true_iff. apply negb_true_iff in Hc. rewrite Hc.
  by rewrite IH.
Qed.

Lemma startsWith_cons c p s :
  startsWith s (String c p) = true -> exists r, s = String c r /\ startsWith r p = true.
Proof.
  destruct s as [|b s]; simpl; [discriminate|].
  destruct (Ascii.eqb_spec c b) as [<-|_]; [|discriminate]. intros H. by exists s.
Qed.

Lemma startsWith_char p c s :
  startsWith s (String c "") = true -> allChars p s = true -> p c = true.
Proof.
  destruct s as [|b s]; simpl; [discriminate|].
  destruct (Ascii.eqb c b) eqn:E; [|discriminate].
  apply Ascii.eqb_eq in E as ->. by intros _ [? _]%andb_true_iff.
Qed.

Lemma split_not_nil sep s : split sep s <> [].
Proof.
  destruct s as [|c r]; simpl; [discriminate|].
  destruct (Ascii.eqb c sep); [discriminate|].
  destruct (split sep r); discriminate.
Qed.

(** Joining the parts with the separator gives the string back. *)
Lemma join_split sep s : join (String sep "") (split sep s) = s.
Proof.
  induction s as [|c r IH]; [reflexivity|]. simpl.
  pose proof (split_not_nil sep r) as Hne.
  destruct (Ascii.eqb_spec c sep) as [->|_].
  - destruct (split sep r) as [|h t] eqn:E; [done|].
    change (join (String sep "") ("" :: h :: t))
      with ("" +:+ String sep "" +:+ join (String sep "") (h :: t)).
    by rewrite IH.
  - destruct (split sep r) as [|h t] eqn:E; [done|].
    destruct t as [|h' t'].
    + simpl in *. by rewrite IH.
    + change (join (String sep "") (String c h :: h' :: t'))
        with (String c (h +:+ String sep "" +:+ join (String sep "") (h' :: t'))).
      by rewrite <- IH.
Qed.

End JSFacts.

(** ** formatPhoneNumber *)

Module PhoneFacts.

Import JS Phone JSFacts.

Lemma cleanedDigits_digits phone : allChars isDigit (cleanedDigits phone) = true.
Proof.
  unfold cleanedDigits.
  rewrite <- (removeAll_keeps isNonDigit phone).
  apply allChars_ext. intros c. unfold isNonDigit. by rewrite negb_involutive.
Qed.

Lemma cleanedDigits_fixed s : allChars isDigit s = true -> cleanedDigits s = s.
Proof.
  intros H. apply removeAll_id. rewrite <- H.
  apply allChars_ext. intros c. unfold isNonDigit. by rewrite negb_involutive.
Qed.

(** Every arm of the country-code block returns the same value, so the block
    is decided by its guard alone. *)
Lemma countryCodeBlock_guard cleaned :
  countryCodeBlock cleaned =
    if Nat.leb 10 (String.length cleaned) then Some ("+" +:+ cleaned) else None.
Proof.
  unfold countryCodeBlock. cbv zeta.
  destruct (Nat.leb 10 (String.length cleaned)) eqn:E; [|reflexivity].
  repeat match goal with |- context [if ?b then _ else _] => destruct b end;
    reflexivity.
Qed.

Lemma digits_no_plus cleaned :
  allChars isDigit cleaned = true -> startsWith cleaned "+" = false.
Proof.
  intros H. destruct (startsWith cleaned "+") eqn:E; [|reflexivity].
  by pose proof (startsWith_char isDigit _ _ E H).
Qed.

Lemma fallback_digits cleaned :
  allChars isDigit cleaned = true -> fallback cleaned = "+" +:+ cleaned.
Proof. intros H. unfold fallback. by rewrite digits_no_plus. Qed.

(** The United Kingdom block never returns once the country-code block has
    fallen through: both of its guards need at least ten digits. *)
Lemma ukBlock_unreachable cleaned :
  countryCodeBlock cleaned = None -> ukBlock cleaned = None.
Proof.
  rewrite countryCodeBlock_guard. unfold ukBlock.
  destruct (Nat.leb 10 (String.length cleaned)) eqn:E; [discriminate|].
  apply Nat.leb_gt in E. intros _.
  destruct (Nat.eqb_spec (String.length cleaned) 10) as [?|_]; [lia|].
  destruct (Nat.eqb_spec (String.length cleaned) 11) as [?|_]; [lia|].
  reflexivity.
Qed.

(** The three results [formatPhoneNumber] can produce on a non-empty input. *)
Lemma formatPhoneNumber_cases phone :
  phone <> "" ->
  formatPhoneNumber phone =
    let cleaned := cleanedDigits phone in
    if Nat.leb 10 (String.length cleaned) then "+" +:+ cleaned
    else if Nat.eqb (String.length cleaned) 8
            && (startsWith cleaned "9" || startsWith cleaned "7")
         then "+356" +:+ cleaned
         else "+" +:+ cleaned.
Proof.
  intros Hne. unfold formatPhoneNumber.
  apply isEmpty_false in Hne. rewrite Hne. cbv zeta.
  pose proof (cleanedDigits_digits phone) as Hd.
  pose proof (ukBlock_unreachable (cleanedDigits phone)) as Huk.
  rewrite countryCodeBlock_guard in *.
  destruct (Nat.leb 10 (String.length (cleanedDigits phone))); [reflexivity|].
  simpl. rewrite Huk by reflexivity. unfold maltaBlock.
  destruct (Nat.eqb (String.length (cleanedDigits phone)) 8); simpl.
  - destruct (startsWith (cleanedDigits phone) "9" || startsWith (cleanedDigits phone) "7");
      [reflexivity|]. simpl. by apply fallback_digits.
  - by apply fallback_digits.
Qed.

Lemma plus_nonempty s : "+" +:+ s <> "".
Proof. discriminate. Qed.

Lemma cleanedDigits_plus p s :
  allChars isDigit p = true -> allChars isDigit s = true ->
  cleanedDigits ("+" +:+ p +:+ s) = p +:+ s.
Proof.
  intros Hp Hs. change ("+" +:+ p +:+ s) with (String "+" (p +:+ s)).
  unfold cleanedDigits. simpl. apply cleanedDigits_fixed.
  by rewrite allChars_app, Hp, Hs.
Qed.

(** C3.  When the cleaned digit string has at least ten digits, whatever its
    leading digits are, the result is ['+'] followed by the cleaned digit
    string unchanged. *)
Theorem C3_ten_or_more_digits_plus_prefix phone :
  10 <= String.length (cleanedDigits phone) ->
  formatPhoneNumber phone = "+" +:+ cleanedDigits phone.
Proof.
  intros Hlen.
  assert (phone <> "") as Hne by (intros ->; simpl in Hlen; lia).
  rewrite formatPhoneNumber_cases by exact Hne. cbv zeta.
  apply Nat.leb_le in Hlen. by rewrite Hlen.
Qed.

Lemma C3_witness :
  formatPhoneNumber "+1 (415) 555-0100" = "+14155550100"
  /\ formatPhoneNumber "0039 06 1234567" = "+0039061234567".
Proof.
  split.
  - apply (C3_ten_or_more_digits_plus_prefix "+1 (415) 555-0100"). vm_compute. lia.
  - apply (C3_ten_or_more_digits_plus_prefix "0039 06 1234567"). vm_compute. lia.
Defined.

(** C4.  When the cleaned digit string has exactly eight digits and starts
    with ['9'] or ['7'], the result is ['+356'] followed by those eight
    digits. *)
Theorem C4_malta_mobile phone :
  String.length (cleanedDigits phone) = 8 ->
  startsWith (cleanedDigits phone) "9" = true
    \/ startsWith (cleanedDigits phone) "7" = true ->
  formatPhoneNumber phone = "+356" +:+ cleanedDigits phone.
Proof.
  intros Hlen Hstart.
  assert (phone <> "") as Hne by (intros ->; discriminate).
  rewrite formatPhoneNumber_cases by exact Hne. cbv zeta.
  rewrite Hlen. simpl.
  by destruct Hstart as [-> | ->]; rewrite ?orb_true_r.
Qed.

Lemma C4_witness :
  formatPhoneNumber "9912 3456" = "+35699123456"
  /\ formatPhoneNumber "79-123-456" = "+35679123456".
Proof.
  split.
  - apply (C4_malta_mobile "9912 3456"); [reflexivity | left; reflexivity].
  - apply (C4_malta_mobile "79-123-456"); [reflexivity | right; reflexivity].
Defined.

(** C5.  A non-empty input always yields a string that begins with ['+'];
    in the residual case (fewer than ten digits, and not eight digits led by
    ['9'] or ['7']) the result is ['+'] prefixed to the cleaned digit string;
    the empty input yields the empty string. *)
Theorem C5_plus_prefix_or_empty :
  (forall phone, phone <> "" ->
     exists rest, formatPhoneNumber phone = String "+" rest)
  /\ (forall phone, phone <> "" ->
        String.length (cleanedDigits phone) < 10 ->
        ~ (String.length (cleanedDigits phone) = 8
           /\ (startsWith (cleanedDigits phone) "9" = true
               \/ startsWith (cleanedDigits phone) "7" = true)) ->
        formatPhoneNumber phone = "+" +:+ cleanedDigits phone)
  /\ formatPhoneNumber "" = "".
Proof.
  split; [|split]; [| |reflexivity].
  - intros phone Hne. rewrite formatPhoneNumber_cases by exact Hne. cbv zeta.
    repeat match goal with |- context [if ?b then _ else _] => destruct b end;
      eexists; reflexivity.
  - intros phone Hne Hlen Hmalta.
    rewrite formatPhoneNumber_cases by exact Hne. cbv zeta.
    destruct (Nat.leb_spec 10 (String.length (cleanedDigits phone))) as [?|_]; [lia|].
    destruct (Nat.eqb_spec (String.length (cleanedDigits phone)) 8) as [E|_];
      [|reflexivity].
    destruct (startsWith (cleanedDigits phone) "9") eqn:E9;
      [exfalso; apply Hmalta; auto|].
    destruct (startsWith (cleanedDigits phone) "7") eqn:E7;
      [exfalso; apply Hmalta; auto|].
    reflexivity.
Qed.

Lemma C5_witness :
  (exists rest, formatPhoneNumber "call me" = String "+" rest)
  /\ formatPhoneNumber "555-0100" = "+5550100".
Proof.
  destruct C5_plus_prefix_or_empty as (Hplus & Hresidual & _).
  split.
  - apply (Hplus "call me"). discriminate.
  - apply (Hresidual "555-0100"); [discriminate | vm_compute; lia |].
    intros [H _]. vm_compute in H. discriminate.
Defined.

(** C10.  [formatPhoneNumber] is idempotent. *)
Theorem C10_formatPhoneNumber_idempotent x :
  formatPhoneNumber (formatPhoneNumber x) = formatPhoneNumber x.
Proof.
  destruct (decide (x = "")) as [->|Hne]; [reflexivity|].
  rewrite (formatPhoneNumber_cases x Hne). cbv zeta.
  pose proof (cleanedDigits_digits x) as Hd.
  set (c := cleanedDigits x) in *.
  assert (forall p, allChars isDigit p = true ->
            formatPhoneNumber ("+" +:+ p +:+ c) =
            if Nat.leb 10 (String.length (p +:+ c)) then "+" +:+ p +:+ c
            else if Nat.eqb (String.length (p +:+ c)) 8
                    && (startsWith (p +:+ c) "9" || startsWith (p +:+ c) "7")
                 then "+356" +:+ p +:+ c
                 else "+" +:+ p +:+ c) as Hstep.
  { intros p Hp. rewrite formatPhoneNumber_cases by apply plus_nonempty.
    cbv zeta. by rewrite cleanedDigits_plus. }
  pose proof (Hstep "" eq_refl) as Hsame. rewrite !app_empty_l in Hsame.
  pose proof (Hstep "356" eq_refl) as Hmalta. rewrite length_app in Hmalta.
  clear Hstep.
  destruct (Nat.leb 10 (String.length c)) eqn:E10; [exact Hsame|].
  destruct (Nat.eqb_spec (String.length c) 8) as [E8|N8]; simpl in *.
  - destruct (startsWith c "9" || startsWith c "7") eqn:Es; [|exact Hsame].
    rewrite E8 in Hmalta. exact Hmalta.
  - exact Hsame.
Qed.

(** What the catch-all arm does to the two inputs the United Kingdom block
    is written for. *)
Lemma uk_national_not_rewritten phone :
  String.length (cleanedDigits phone) = 11 ->
  startsWith (cleanedDigits phone) "0" = true ->
  formatPhoneNumber phone = "+" +:+ cleanedDigits phone
  /\ formatPhoneNumber phone <> "+44" +:+ substring (cleanedDigits phone) 1.
Proof.
  intros Hlen Hzero.
  assert (phone <> "") as Hne by (intros ->; vm_compute in Hlen; discriminate).
  rewrite formatPhoneNumber_cases by exact Hne. cbv zeta. rewrite Hlen. simpl.
  split; [reflexivity|].
  apply startsWith_cons in Hzero as (r & -> & _). discriminate.
Qed.

Lemma ten_digits_not_prefixed phone :
  String.length (cleanedDigits phone) = 10 ->
  formatPhoneNumber phone = "+" +:+ cleanedDigits phone
  /\ formatPhoneNumber phone <> "+44" +:+ cleanedDigits phone.
Proof.
  intros Hlen.
  assert (phone <> "") as Hne by (intros ->; vm_compute in Hlen; discriminate).
  rewrite formatPhoneNumber_cases by exact Hne. cbv zeta. rewrite Hlen. simpl.
  split; [reflexivity|].
  intros H. apply (f_equal String.length) in H. rewrite !length_app, Hlen in H.
  discriminate.
Qed.

(** C1 (the code at the failing input).  Eleven digits led by ['0'] are
    returned with a bare ['+']: the leading ['0'] is kept and no ['+44'] is
    put in front, although the branch of lines 730-733 is written to do so. *)
Theorem C1_uk_national_keeps_zero :
  formatPhoneNumber "07700900123" = "+07700900123"
  /\ ukBlock (cleanedDigits "07700900123") = Some "+447700900123"
  /\ formatPhoneNumber "07700900123" <> "+447700900123".
Proof. repeat split. discriminate. Qed.

(** C2 (the code at the failing input).  Ten digits that carry none of the
    listed country codes are returned with a bare ['+'], not with ['+44'],
    although the branch of lines 727-729 is written to add it. *)
Theorem C2_ten_digits_no_uk_prefix :
  formatPhoneNumber "7700900123" = "+7700900123"
  /\ ukBlock (cleanedDigits "7700900123") = Some "+447700900123"
  /\ formatPhoneNumber "7700900123" <> "+447700900123".
Proof. repeat split. discriminate. Qed.

End PhoneFacts.

(** ** The phone pattern *)

Module RegExpFacts.

Import JS RegExp JSFacts.

Lemma app_eq_cons (p t : string) c r :
  p +:+ t = String c r <->
  (p = "" /\ t = String c r) \/ (exists p', p = String c p' /\ r = p' +:+ t).
Proof.
  destruct p as [|a p]; [rewrite app_empty_l|rewrite app_cons]; split.
  - auto.
  - intros [[_ H]|(p' & H & _)]; [exact H | discriminate].
  - intros [= -> <-]. right. by exists p.
  - intros [[H _]|(p' & H & Hr)]; [discriminate|].
    injection H as -> ->. by rewrite Hr.
Qed.

(** What [[cls]{min,max}] can leave of a string: the string less a prefix of
    between [min] and [max] code units of the class. *)
Lemma repeatClass_spec cls min max s t :
  t ∈ repeatClass cls min max s
  <-> exists p, s = p +:+ t /\ allChars cls p = true
                /\ min <= String.length p <= max.
Proof.
  assert (forall min s, t ∈ (if Nat.eqb min 0 then [s] else []) <-> min = 0 /\ t = s)
    as Hstop.
  { intros m u. destruct (Nat.eqb_spec m 0) as [->|Hm].
    - rewrite list_elem_of_singleton. tauto.
    - split; [by intros ?%not_elem_of_nil | tauto]. }
  revert min s. induction max as [|max IH]; intros min s.
  - simpl. rewrite Hstop. split.
    + intros [-> ->]. exists "". by repeat split.
    + intros (p & -> & _ & Hmin & Hmax).
      destruct p; simpl in Hmin, Hmax; [|lia]. split; [lia | reflexivity].
  - simpl. destruct s as [|c r].
    + rewrite Hstop. split.
      * intros [-> ->]. exists "". repeat split; simpl; lia.
      * intros (p & Hs & _ & Hmin & _). symmetry in Hs.
        destruct p; [|discriminate]. rewrite app_empty_l in Hs.
        simpl in Hmin. split; [lia | done].
    + assert ((exists p, String c r = p +:+ t /\ allChars cls p = true
                         /\ min <= String.length p <= S max)
              <-> (min = 0 /\ t = String c r)
                  \/ (cls c = true
                      /\ exists p', r = p' +:+ t /\ allChars cls p' = true
                                    /\ Nat.pred min <= String.length p' <= max)) as ->.
      { split.
        - intros (p & Hs & Hall & Hmin & Hmax). symmetry in Hs.
          apply app_eq_cons in Hs as [[-> ->]|(p' & -> & ->)].
          + left. simpl in Hmin. split; [lia | done].
          + right. simpl in *. apply andb_true_iff in Hall as [Hc Hall].
            split; [exact Hc|]. exists p'. repeat split; [done|lia|lia].
        - intros [[-> ->]|(Hc & p' & -> & Hall & Hmin & Hmax)].
          + exists "". repeat split; simpl; lia.
          + exists (String c p'). simpl. rewrite Hc, Hall.
            repeat split; lia. }
      destruct (cls c) eqn:Hc.
      * rewrite elem_of_app, Hstop, IH. split; [intros [?|?]|intros [?|[_ ?]]]; auto.
      * rewrite Hstop. split; [auto|]. by intros [?|[[=] _]].
Qed.

Lemma test_spec r s : test r s = true <-> "" ∈ residues r s.
Proof.
  unfold test. rewrite existsb_exists. split.
  - intros (t & Hin & Ht). apply isEmpty_true in Ht as ->. by apply list_elem_of_In.
  - intros Hin. exists "". split; [by apply list_elem_of_In | reflexivity].
Qed.

Lemma residues_Class cls s t :
  t ∈ residues (Class cls) s <-> exists c, s = String c t /\ cls c = true.
Proof.
  destruct s as [|c r]; cbn [residues].
  - split; [by intros ?%not_elem_of_nil | by intros (? & [=] & _)].
  - destruct (cls c) eqn:Hc.
    + rewrite list_elem_of_singleton. split.
      * intros ->. by exists c.
      * by intros (c' & [= <- <-] & _).
    + split; [by intros ?%not_elem_of_nil|].
      intros (c' & [= <- <-] & Hc'). congruence.
Qed.

Lemma residues_Opt r s t : t ∈ residues (Opt r) s <-> t ∈ residues r s \/ t = s.
Proof. cbn [residues]. by rewrite elem_of_app, list_elem_of_singleton. Qed.

Lemma residues_Seq r1 r2 s t :
  t ∈ residues (Seq r1 r2) s <-> exists u, u ∈ residues r1 s /\ t ∈ residues r2 u.
Proof.
  cbn [residues]. rewrite list_elem_of_In, in_flat_map.
  by setoid_rewrite list_elem_of_In.
Qed.

Lemma app_empty_r (s : string) : s +:+ "" = s.
Proof. induction s as [|c s IH]; [reflexivity|]. by rewrite app_cons, IH. Qed.

(** [/^\+?[1-9]\d{1,14}$/] accepts exactly: an optional ['+'], one digit from
    1 to 9, then between one and fourteen digits. *)
Lemma phoneRegex_spec s :
  test Csv.phoneRegex s = true
  <-> exists sign d ds,
        s = sign +:+ String d ds /\ (sign = "" \/ sign = "+")
        /\ isDigit19 d = true /\ allChars isDigit ds = true
        /\ 1 <= String.length ds <= 14.
Proof.
  rewrite test_spec. unfold Csv.phoneRegex. rewrite residues_Seq.
  setoid_rewrite residues_Seq. setoid_rewrite residues_Opt.
  setoid_rewrite residues_Class.
  change (residues (Repeat isDigit 1 14)) with (repeatClass isDigit 1 14).
  setoid_rewrite repeatClass_spec. setoid_rewrite app_empty_r.
  split.
  - intros (u & Hu & v & (d & Hu' & Hd) & ds & Hv & Hall & Hlen).
    subst u v.
    destruct Hu as [(c & Hs & Hc)|Hs]; subst s.
    + unfold isChar in Hc. apply Ascii.eqb_eq in Hc as <-.
      exists "+", d, ds. split; [reflexivity|]. split; [by right|]. tauto.
    + exists "", d, ds. split; [reflexivity|]. split; [by left|]. tauto.
  - intros (sign & d & ds & -> & Hsign & Hd & Hall & Hlen).
    exists (String d ds). split.
    + destruct Hsign as [-> | ->]; [by right|].
      left. exists "+"%char. split; [reflexivity|]. apply Ascii.eqb_refl.
    + exists ds. split; [by exists d|]. by exists ds.
Qed.

End RegExpFacts.

(** ** The row handler of uploadLeadsFromCSV *)

Module CsvFacts.

Import JS Phone Csv CsvSpec JSFacts Samples.

Lemma logicalOr_truthy_l a b : truthy a = true -> a ||| b = a.
Proof. unfold logicalOr. by intros ->. Qed.

Lemma logicalOr_falsy_l a b : truthy a = false -> a ||| b = b.
Proof. unfold logicalOr. by intros ->. Qed.

Lemma truthy_Some v : truthy v = true <-> exists s, v = Some s /\ s <> "".
Proof.
  destruct v as [s|]; simpl.
  - rewrite negb_true_iff, isEmpty_false. split.
    + intros H. by exists s.
    + by intros (s' & [= <-] & H).
  - split; [discriminate|]. by intros (s' & [=] & _).
Qed.

Lemma truthy_present (row : gmap string string) column :
  truthy (row !! column) = true <-> present row column.
Proof. apply truthy_Some. Qed.

(** [nameParts[0]] is the text before the first separator. *)
Lemma split_first sep s : split sep s !! 0 = Some (beforeFirst sep s).
Proof.
  induction s as [|c r IH]; [reflexivity|]. simpl.
  destruct (Ascii.eqb c sep); [reflexivity|].
  destruct (split sep r) as [|h t]; [discriminate|].
  simpl in *. congruence.
Qed.

(** [nameParts.slice(1).join(sep)] is everything after the first separator. *)
Lemma join_rest_split sep s :
  join (String sep "") (drop 1 (split sep s)) = afterFirst sep s.
Proof.
  induction s as [|c r IH]; [reflexivity|]. simpl.
  destruct (Ascii.eqb c sep).
  - simpl. rewrite drop_0. apply join_split.
  - pose proof (split_not_nil sep r) as Hne.
    destruct (split sep r) as [|h t]; [done|]. exact IH.
Qed.

Lemma afterFirst_none sep s :
  allChars (fun c => negb (Ascii.eqb c sep)) s = true -> afterFirst sep s = "".
Proof.
  induction s as [|c r IH]; [reflexivity|]. simpl.
  intros [Hc Hr]%andb_true_iff. apply negb_true_iff in Hc. rewrite Hc. auto.
Qed.

Lemma orString_empty s : orString s "" = s.
Proof. by destruct s. Qed.

(** The name split of lines 300-304. *)
Lemma resolveNames_split row name :
  truthy (firstNameField row) = false ->
  truthy (lastNameField row) = false ->
  nameField row = Some name -> name <> "" ->
  resolveNames row
  = (Some (beforeFirst " " (trim name)), Some (afterFirst " " (trim name))).
Proof.
  intros Hf Hl Hn Hne. unfold resolveNames. cbv zeta.
  rewrite Hn, Hf, Hl. apply isEmpty_false in Hne. simpl. rewrite Hne. simpl.
  by rewrite split_first, join_rest_split, orString_empty.
Qed.

Lemma truthy_logicalOr a b : truthy (a ||| b) = truthy a || truthy b.
Proof. unfold logicalOr. by destruct (truthy a) eqn:E; rewrite ?E. Qed.

Lemma absent_falsy (row : gmap string string) (aliases : list string) column :
  (forall a, a ∈ aliases -> ~ present row a) -> column ∈ aliases ->
  truthy (row !! column) = false.
Proof.
  intros Hnone Hin. apply not_true_is_false. rewrite truthy_present. by apply Hnone.
Qed.

Lemma firstNameField_absent row :
  (forall a, a ∈ firstNameAliases -> ~ present row a) ->
  truthy (firstNameField row) = false.
Proof.
  intros H. unfold firstNameField. rewrite !truthy_logicalOr.
  rewrite !(absent_falsy row firstNameAliases) by (done || set_solver).
  reflexivity.
Qed.

Lemma lastNameField_absent row :
  (forall a, a ∈ lastNameAliases -> ~ present row a) ->
  truthy (lastNameField row) = false.
Proof.
  intros H. unfold lastNameField. rewrite !truthy_logicalOr.
  rewrite !(absent_falsy row lastNameAliases) by (done || set_solver).
  reflexivity.
Qed.

Lemma nameField_present row :
  (exists a, a ∈ nameAliases /\ present row a) ->
  exists name, nameField row = Some name /\ name <> "".
Proof.
  intros (a & Hin & Ha). apply truthy_Some.
  unfold nameField. rewrite truthy_logicalOr.
  apply truthy_present in Ha.
  apply list_elem_of_In in Hin. simpl in Hin.
  destruct Hin as [<-|[<-|[]]]; rewrite Ha; by rewrite ?orb_true_r.
Qed.

(** Closes the case where alias number [n], named [k], is the first truthy
    operand of the chain in [Hp]. *)
Local Ltac take_alias E Hp n k :=
  repeat (rewrite (logicalOr_truthy_l _ _ E) in Hp);
  exists n, k; split; [reflexivity|]; split; [exact Hp|];
  let j := fresh "j" in let a := fresh "a" in
  intros j a Hj Ha;
  do 6 (try destruct j as [|j]); simpl in Ha; try lia;
  injection Ha as <-; rewrite <- truthy_present; congruence.

(** The phone field is the cell of the first alias that is present. *)
Lemma phoneField_first_present row p :
  phoneField row = Some p -> p <> "" ->
  exists i alias,
    phoneAliases !! i = Some alias /\ row !! alias = Some p
    /\ forall j a, j < i -> phoneAliases !! j = Some a -> ~ present row a.
Proof.
  intros Hp Hne. unfold phoneField in Hp.
  destruct (truthy (row !! "phone")) eqn:E1; [take_alias E1 Hp 0 "phone"|].
  rewrite (logicalOr_falsy_l _ _ E1) in Hp.
  destruct (truthy (row !! "number")) eqn:E2; [take_alias E2 Hp 1 "number"|].
  rewrite (logicalOr_falsy_l _ _ E2) in Hp.
  destruct (truthy (row !! "telephone")) eqn:E3; [take_alias E3 Hp 2 "telephone"|].
  rewrite (logicalOr_falsy_l _ _ E3) in Hp.
  destruct (truthy (row !! "phoneNumber")) eqn:E4; [take_alias E4 Hp 3 "phoneNumber"|].
  rewrite (logicalOr_falsy_l _ _ E4) in Hp.
  destruct (truthy (row !! "Phone")) eqn:E5; [take_alias E5 Hp 4 "Phone"|].
  rewrite (logicalOr_falsy_l _ _ E5) in Hp.
  exists 5, "Number". split; [reflexivity|]. split; [exact Hp|].
  intros j a Hj Ha.
  do 6 (try destruct j as [|j]); simpl in Ha; try lia;
    injection Ha as <-; rewrite <- truthy_present; congruence.
Qed.

(** What the handler stores when it pushes a lead (lines 322-323). *)
Lemma handleRow_pushed_names message n row lead :
  handleRow message n row = Pushed lead ->
  exists first last,
    resolveNames row = (Some first, Some last)
    /\ VAPILead.firstName lead = trim first
    /\ VAPILead.lastName lead = trim last.
Proof.
  unfold handleRow. destruct (resolveNames row) as [firstName lastName].
  destruct firstName as [first|]; [|discriminate].
  destruct (phoneField row) as [cell|]; [|discriminate].
  destruct (isEmpty first || isEmpty cell); [discriminate|].
  destruct (negb _); [discriminate|].
  destruct lastName as [last|]; [|discriminate].
  intros [= <-]. by exists first, last.
Qed.

(** C6 (amended).  A row with no first-name and no last-name column under
    any alias, and with a [name] (or [Name]) column, gets as first name the
    text of the trimmed name before its first space and as last name
    everything after that space, the empty string when the trimmed name has
    no space; the lead built from the row holds these two values with the
    white space at their ends removed.  A phone field that resolves is the
    cell of the first phone alias present in the row. *)
Theorem C6_name_split_and_phone_alias :
  (forall row,
     (forall a, a ∈ firstNameAliases -> ~ present row a) ->
     (forall a, a ∈ lastNameAliases -> ~ present row a) ->
     (exists a, a ∈ nameAliases /\ present row a) ->
     exists name,
       nameField row = Some name /\ name <> ""
       /\ resolveNames row
          = (Some (beforeFirst " " (trim name)), Some (afterFirst " " (trim name)))
       /\ (allChars (fun c => negb (Ascii.eqb c " ")) (trim name) = true ->
           resolveNames row = (Some (trim name), Some ""))
       /\ (forall message n lead,
             handleRow message n row = Pushed lead ->
             VAPILead.firstName lead = trim (beforeFirst " " (trim name))
             /\ VAPILead.lastName lead = trim (afterFirst " " (trim name))))
  /\ (forall row p,
        phoneField row = Some p -> p <> "" ->
        exists i alias,
          phoneAliases !! i = Some alias /\ row !! alias = Some p
          /\ forall j a, j < i -> phoneAliases !! j = Some a -> ~ present row a).
Proof.
  split; [|exact phoneField_first_present].
  intros row Hfirst Hlast Hname.
  destruct (nameField_present row Hname) as (name & Hn & Hne).
  exists name. split; [exact Hn|]. split; [exact Hne|].
  pose proof (resolveNames_split row name
                (firstNameField_absent row Hfirst)
                (lastNameField_absent row Hlast) Hn Hne) as Hsplit.
  split; [exact Hsplit|]. split.
  - intros Hnospace. rewrite Hsplit.
    rewrite (afterFirst_none " " (trim name) Hnospace).
    do 2 f_equal. clear -Hnospace.
    induction (trim name) as [|c r IH]; [reflexivity|]. simpl in *.
    apply andb_true_iff in Hnospace as [Hc Hr]. apply negb_true_iff in Hc.
    rewrite Hc. by rewrite IH.
  - intros message n lead Hpushed.
    destruct (handleRow_pushed_names message n row lead Hpushed)
      as (first & last & Hnames & -> & ->).
    rewrite Hsplit in Hnames. by injection Hnames as <- <-.
Qed.

Lemma C6_witness :
  (exists name,
     nameField sampleNameRow = Some name /\ name <> ""
     /\ resolveNames sampleNameRow
        = (Some (beforeFirst " " (trim name)), Some (afterFirst " " (trim name)))
     /\ (allChars (fun c => negb (Ascii.eqb c " ")) (trim name) = true ->
         resolveNames sampleNameRow = (Some (trim name), Some ""))
     /\ (forall message n lead,
           handleRow message n sampleNameRow = Pushed lead ->
           VAPILead.firstName lead = trim (beforeFirst " " (trim name))
           /\ VAPILead.lastName lead = trim (afterFirst " " (trim name))))
  /\ (exists i alias,
        phoneAliases !! i = Some alias
        /\ sampleNameRow !! alias = Some "+356 9912-3456"
        /\ forall j a, j < i -> phoneAliases !! j = Some a -> ~ present sampleNameRow a).
Proof.
  destruct C6_name_split_and_phone_alias as [Hname Hphone].
  split.
  - apply (Hname sampleNameRow).
    + intros a Ha (cell & Hcell & _).
      repeat (apply elem_of_cons in Ha as [->|Ha]; [vm_compute in Hcell; discriminate|]).
      by apply not_elem_of_nil in Ha.
    + intros a Ha (cell & Hcell & _).
      repeat (apply elem_of_cons in Ha as [->|Ha]; [vm_compute in Hcell; discriminate|]).
      by apply not_elem_of_nil in Ha.
    + exists "name". split; [apply list_elem_of_here|].
      exists "  Ada  Lovelace King ". split; [reflexivity | discriminate].
  - apply (Hphone sampleNameRow "+356 9912-3456"); [reflexivity | discriminate].
Defined.

(** C6 (counterexample).  The name [Ada  Lovelace] has two spaces after the
    first word: everything after the first space is [ Lovelace], with the
    second space in front, and the lead built from the row holds [Lovelace]. *)
Lemma C6_counterexample :
  nameField doubleSpaceRow = Some "Ada  Lovelace"
  /\ firstNameField doubleSpaceRow = None
  /\ lastNameField doubleSpaceRow = None
  /\ afterFirst " " (trim "Ada  Lovelace") = " Lovelace"
  /\ VAPILead.lastName <$> pushedLead (handleRow "" 1 doubleSpaceRow) = Some "Lovelace".
Proof. repeat split. Qed.

(** The whole lead the handler builds for the sample row. *)
Example sampleNameRow_lead message :
  resolveNames sampleNameRow = (Some "Ada", Some " Lovelace King")
  /\ pushedLead (handleRow message 1 sampleNameRow)
     = Some {| VAPILead.firstName := "Ada";
               VAPILead.lastName := "Lovelace King";
               VAPILead.phone := "+35699123456";
               VAPILead.email := None;
               VAPILead.company := None;
               VAPILead.title := None;
               VAPILead.status := "pending";
               VAPILead.callAttempts := 0;
               VAPILead.customFields := ∅ |}.
Proof. split; reflexivity. Qed.

(** *** The batch *)

(** The handler's outcome for each row of a batch that starts at line
    [start + 1]. *)
Lemma foldl_onData message rows st :
  let handled := imap (fun i row => handleRow message (S (lineNumber st + i)) row) rows in
  leads (foldl (onData message) st rows) = leads st ++ omap pushedLead handled
  /\ errors (foldl (onData message) st rows) = errors st ++ omap failureMessage handled
  /\ lineNumber (foldl (onData message) st rows) = lineNumber st + length rows.
Proof.
  revert st. induction rows as [|row rows IH]; intros st; cbv zeta.
  - simpl. by rewrite !app_nil_r, Nat.add_0_r.
  - simpl foldl. destruct (IH (onData message st row)) as (Hl & He & Hn).
    rewrite Hl, He, Hn. clear IH Hl He Hn.
    rewrite imap_cons. rewrite Nat.add_0_r.
    assert (lineNumber (onData message st row) = S (lineNumber st)) as Hline
      by (unfold onData; by destruct (handleRow message (S (lineNumber st)) row)).
    rewrite Hline.
    rewrite (imap_ext
               (fun i r => handleRow message (S (S (lineNumber st) + i)) r)
               ((fun i r => handleRow message (S (lineNumber st + i)) r) ∘ S))
      by (intros i r _; simpl; by rewrite Nat.add_succ_r).
    unfold onData.
    destruct (handleRow message (S (lineNumber st)) row) as [lead|text]; simpl;
      rewrite <- ?app_assoc; simpl; repeat split; lia.
Qed.

(** Every row of a batch is handled on its own: the leads sent to the
    database are those of the rows the handler pushed, the messages those of
    the rows it failed, both in row order, and no row is lost. *)
Lemma parseRows_by_row message rows :
  let handled := imap (fun i row => handleRow message (S i) row) rows in
  leads (parseRows message rows) = omap pushedLead handled
  /\ errors (parseRows message rows) = omap failureMessage handled
  /\ length (leads (parseRows message rows)) + length (errors (parseRows message rows))
     = length rows.
Proof.
  cbv zeta. unfold parseRows.
  destruct (foldl_onData message rows parsingStart) as (Hl & He & _).
  simpl in Hl, He. rewrite Hl, He. split; [reflexivity|]. split; [reflexivity|].
  clear Hl He. generalize (fun i row => handleRow message (S i) row).
  induction rows as [|row rows IH]; intros f; [reflexivity|].
  rewrite imap_cons. specialize (IH (f ∘ S)).
  unfold omap in *. destruct (f 0 row); simpl; lia.
Qed.

(** A row with no first name or no phone, or whose phone does not match the
    pattern, pushes one message that begins with its line number and pushes
    no lead. *)
Lemma invalid_row_fails message n row :
  truthy (resolveNames row).1 = false
  \/ truthy (phoneField row) = false
  \/ (exists p, phoneField row = Some p
                /\ RegExp.test phoneRegex (removeAll isPhoneSeparator p) = false) ->
  exists text, handleRow message n row = Failed (lineMessage n text).
Proof.
  unfold handleRow. destruct (resolveNames row) as [firstName lastName]. simpl.
  intros Hbad.
  destruct firstName as [f|]; [|eauto].
  destruct (phoneField row) as [p|]; [|eauto]. simpl in Hbad.
  destruct (isEmpty f) eqn:Ef; [eauto|].
  destruct (isEmpty p) eqn:Ep; [eauto|]. simpl.
  destruct Hbad as [[=]|[[=]|(p' & [= <-] & Hre)]].
  rewrite Hre. simpl. eauto.
Qed.

(** A resolved promise means the stream ended and the database answered
    without an error, and it counts the collected messages. *)
Lemma uploadLeadsFromCSV_settles organizationId message clock
    (Database : Type) supabaseUpsert updateCampaignMetrics campaignId rows ending
    (db : Database) result :
  (uploadLeadsFromCSV organizationId message clock Database
     supabaseUpsert updateCampaignMetrics campaignId rows ending db).2 = Resolve result ->
  ending = Ended
  /\ (exists answer,
        (supabaseUpsert
           (upsertRequest organizationId clock campaignId (leads (parseRows message rows)))
           db).2 = Db.Answered answer
        /\ Db.error answer = None)
  /\ UploadResult.failed result = length (UploadResult.errors result)
  /\ UploadResult.errors result = errors (parseRows message rows).
Proof.
  unfold uploadLeadsFromCSV. destruct ending as [|text]; [|discriminate].
  destruct (supabaseUpsert _ db) as [db1 [answer|text]]; [|discriminate]. simpl.
  destruct (Db.error answer) as [text|] eqn:Herror; [discriminate|].
  intros [= <-]. split; [reflexivity|]. split; [by exists answer|]. by split.
Qed.

(** When the handler pushes a lead: the first name and the phone resolve,
    the cleaned phone matches the pattern, and the last name is defined. *)
Lemma handleRow_pushes message n row :
  is_Some (pushedLead (handleRow message n row))
  <-> exists first last cell,
        resolveNames row = (Some first, Some last) /\ first <> ""
        /\ phoneField row = Some cell /\ cell <> ""
        /\ RegExp.test phoneRegex (removeAll isPhoneSeparator cell) = true.
Proof.
  unfold handleRow. destruct (resolveNames row) as [firstName lastName].
  split.
  - destruct firstName as [first|]; [|by intros [? [=]]].
    destruct (phoneField row) as [cell|]; [|by intros [? [=]]].
    destruct (isEmpty first) eqn:Ef; [by intros [? [=]]|].
    destruct (isEmpty cell) eqn:Ec; [by intros [? [=]]|]. simpl.
    destruct (RegExp.test phoneRegex _) eqn:Hre; [|by intros [? [=]]]. simpl.
    destruct lastName as [last|]; [|by intros [? [=]]].
    intros _. exists first, last, cell.
    by rewrite <- !isEmpty_false.
  - intros (first & last & cell & [= -> ->] & Hf & -> & Hc & Hre).
    apply isEmpty_false in Hf, Hc. rewrite Hf, Hc, Hre. simpl. eauto.
Qed.

(** A row that passes both checks and has no last name is turned into a
    message. *)
Lemma valid_row_without_last_name_fails message n row first cell :
  resolveNames row = (Some first, None) -> first <> "" ->
  phoneField row = Some cell -> cell <> "" ->
  RegExp.test phoneRegex (removeAll isPhoneSeparator cell) = true ->
  handleRow message n row = Failed (lineMessage n message).
Proof.
  intros Hnames Hf Hphone Hc Hre. unfold handleRow. rewrite Hnames, Hphone.
  apply isEmpty_false in Hf, Hc. by rewrite Hf, Hc, Hre.
Qed.

(** C7 (the code at the failing input).  A row that gives a first name and a
    well-formed phone but no last name passes both checks of the handler, and
    is still not pushed: reading [lastName.trim()] fails, and the row ends up
    as one more message.  A row that gives the same kind of data through the
    [name] column is pushed. *)
Theorem C7_row_without_last_name_dropped message :
  resolveNames johnRow = (Some "John", None)
  /\ phoneField johnRow = Some "+44 7700 900123"
  /\ RegExp.test phoneRegex (removeAll isPhoneSeparator "+44 7700 900123") = true
  /\ handleRow message 2 johnRow = Failed (lineMessage 2 message)
  /\ VAPILead.phone <$> leads (parseRows message [annRow; johnRow]) = ["+447700900124"]
  /\ errors (parseRows message [annRow; johnRow]) = [lineMessage 2 message].
Proof. repeat split. Qed.

End CsvFacts.

(** ** The upsert of uploadLeadsFromCSV *)

Module UpsertFacts.

Import JS Phone Csv JSFacts CsvFacts Samples.

(** The conflict target of the request names the two columns. *)
Lemma conflictColumns_org_phone :
  Db.conflictColumns "organization_id,phone" = ["organization_id"; "phone"].
Proof. reflexivity. Qed.

(** Two records collide on that target exactly when they agree on the pair
    (organization, phone). *)
Lemma conflicts_org_phone a b :
  Db.conflicts ["organization_id"; "phone"] a b = true
  <-> LeadRecord.organization_id a = LeadRecord.organization_id b
      /\ LeadRecord.phone a = LeadRecord.phone b.
Proof.
  unfold Db.conflicts, LeadRecord.column. simpl.
  rewrite andb_true_r, andb_true_iff, !String.eqb_eq. reflexivity.
Qed.

(** [DO UPDATE]: the first colliding row takes the proposed columns, keeps
    its place and its [id], and is the row returned. *)
Lemma upsertRow_updates columns newId r before row after :
  (forall x, x ∈ before -> Db.conflicts columns r (Db.cols x) = false) ->
  Db.conflicts columns r (Db.cols row) = true ->
  Db.upsertRow columns false newId r (before ++ row :: after)
  = (before ++ Db.mkLeadRow (Db.id row) r :: after,
     Some (Db.mkLeadRow (Db.id row) r)).
Proof.
  intros Hbefore Hrow. induction before as [|x before IH]; simpl.
  - by rewrite Hrow.
  - rewrite (Hbefore x) by apply list_elem_of_here.
    rewrite IH; [reflexivity|]. intros y Hy. apply Hbefore. by apply list_elem_of_further.
Qed.

(** [DO NOTHING]: the table is left as it is and no row is returned. *)
Lemma upsertRow_ignores columns newId r before row after :
  (forall x, x ∈ before -> Db.conflicts columns r (Db.cols x) = false) ->
  Db.conflicts columns r (Db.cols row) = true ->
  Db.upsertRow columns true newId r (before ++ row :: after)
  = (before ++ row :: after, None).
Proof.
  intros Hbefore Hrow. induction before as [|x before IH]; simpl.
  - by rewrite Hrow.
  - rewrite (Hbefore x) by apply list_elem_of_here.
    rewrite IH; [reflexivity|]. intros y Hy. apply Hbefore. by apply list_elem_of_further.
Qed.

(** No colliding row: the record is appended as a new row. *)
Lemma upsertRow_inserts columns ignore newId r tbl :
  (forall x, x ∈ tbl -> Db.conflicts columns r (Db.cols x) = false) ->
  Db.upsertRow columns ignore newId r tbl
  = (tbl ++ [Db.mkLeadRow newId r], Some (Db.mkLeadRow newId r)).
Proof.
  intros Hnone. induction tbl as [|x tbl IH]; simpl; [reflexivity|].
  rewrite (Hnone x) by apply list_elem_of_here.
  rewrite IH; [reflexivity|]. intros y Hy. apply Hnone. by apply list_elem_of_further.
Qed.

(** Every lead of the parsed batch comes from a row the handler pushed, so
    its phone is a normalised one. *)
Lemma parsed_lead_normalised message rows lead :
  lead ∈ leads (parseRows message rows) ->
  exists row cell,
    row ∈ rows /\ phoneField row = Some cell
    /\ VAPILead.phone lead = formatPhoneNumber (removeAll isPhoneSeparator cell).
Proof.
  destruct (parseRows_by_row message rows) as (-> & _ & _).
  intros (h & Hin & Hpushed)%list_elem_of_omap.
  apply elem_of_lookup_imap in Hin as (i & row & -> & Hrow).
  exists row. unfold handleRow in Hpushed.
  destruct (resolveNames row) as [firstName lastName].
  destruct firstName as [f|]; [|discriminate].
  destruct (phoneField row) as [cell|]; [|discriminate].
  exists cell. split; [by eapply list_elem_of_lookup_2|]. split; [reflexivity|].
  destruct (isEmpty f || isEmpty cell); [discriminate|].
  destruct (negb _); [discriminate|].
  destruct lastName as [l|]; [|discriminate].
  by injection Hpushed as <-.
Qed.

Lemma upsertRequest_values organizationId clock campaignId parsed i lead :
  parsed !! i = Some lead ->
  Db.values (upsertRequest organizationId clock campaignId parsed) !! i
  = Some (toRecord organizationId clock campaignId i lead).
Proof. intros H. unfold upsertRequest. simpl. by rewrite list_lookup_imap, H. Qed.

Lemma conflicts_pair a b :
  Db.conflicts ["organization_id"; "phone"] a b = true <-> Db.pairOf a = Db.pairOf b.
Proof.
  rewrite conflicts_org_phone. unfold Db.pairOf. split; [by intros [-> ->]|].
  by intros [= -> ->].
Qed.

(** The pairs stored in a table, row by row. *)
Local Abbreviation pairs tbl := ((fun row => Db.pairOf (Db.cols row)) <$> tbl).

(** One record, [DO UPDATE]: the pairs of the table stay, and the pair of
    the record joins them if it is new. *)
Lemma upsertRow_pairs (newId : string) (r : LeadRecord.t) (tbl : list Db.LeadRow) :
  pairs (Db.upsertRow ["organization_id"; "phone"] false newId r tbl).1
  = pairs tbl ++ (if decide (Db.pairOf r ∈ pairs tbl) then [] else [Db.pairOf r]).
Proof.
  induction tbl as [|row rest IH].
  - rewrite decide_False by apply not_elem_of_nil. reflexivity.
  - cbn [Db.upsertRow].
    destruct (Db.conflicts _ r (Db.cols row)) eqn:Hc.
    + apply conflicts_pair in Hc. cbn [fst]. rewrite !fmap_cons. cbn [Db.cols].
      rewrite Hc. rewrite decide_True by apply list_elem_of_here.
      by rewrite app_nil_r.
    + destruct (Db.upsertRow _ false newId r rest) as [rest' out]. cbn [fst] in *.
      rewrite !fmap_cons, IH.
      assert (Db.pairOf r <> Db.pairOf (Db.cols row)) as Hne
        by (intros Heq; apply conflicts_pair in Heq; congruence).
      destruct (decide (Db.pairOf r ∈ pairs rest)) as [Hin|Hout].
      * rewrite decide_True by (by apply list_elem_of_further). reflexivity.
      * rewrite decide_False; [reflexivity|].
        intros [Heq|Hin]%elem_of_cons; auto.
Qed.

(** One record, [DO UPDATE], on a table that holds every pair once: the
    row of its pair takes the proposed columns in place and keeps its id,
    every other row stays as it is, and a record of a new pair is appended;
    the statement returns the row. *)
Lemma upsertRow_rows (newId : string) (r : LeadRecord.t) (tbl : list Db.LeadRow) :
  NoDup (pairs tbl) ->
  (forall p row, tbl !! p = Some row ->
     (Db.upsertRow ["organization_id"; "phone"] false newId r tbl).1 !! p
     = Some (if decide (Db.pairOf (Db.cols row) = Db.pairOf r)
             then Db.mkLeadRow (Db.id row) r else row))
  /\ (Db.pairOf r ∉ pairs tbl ->
      (Db.upsertRow ["organization_id"; "phone"] false newId r tbl).1
      = tbl ++ [Db.mkLeadRow newId r])
  /\ is_Some (Db.upsertRow ["organization_id"; "phone"] false newId r tbl).2
  /\ length tbl <= length (Db.upsertRow ["organization_id"; "phone"] false newId r tbl).1.
Proof.
  induction tbl as [|row rest IH]; intros Hunique.
  { split; [by intros p row [=]|]. split; [reflexivity|]. split; [by eexists | simpl; lia]. }
  apply NoDup_cons in Hunique as [Hfirst Hrest].
  destruct (IH Hrest) as (Hlookup & Hnew & Hout & Hlen). clear IH.
  cbn [Db.upsertRow].
  destruct (Db.conflicts _ r (Db.cols row)) eqn:Hc.
  - apply conflicts_pair in Hc. cbn [fst snd].
    split; [|split; [|split; [by eexists | simpl; lia]]].
    + intros [|p] row' Hp; cbn in Hp |- *.
      * injection Hp as <-. by rewrite decide_True.
      * rewrite Hp. rewrite decide_False; [reflexivity|].
        intros Heq. apply Hfirst. rewrite <- Hc, <- Heq.
        apply list_elem_of_fmap. exists row'. split; [reflexivity|].
        by eapply list_elem_of_lookup_2.
    + intros Hout'. exfalso. apply Hout'. rewrite Hc. apply list_elem_of_here.
  - destruct (Db.upsertRow _ false newId r rest) as [rest' out]. cbn [fst snd] in *.
    assert (Db.pairOf (Db.cols row) <> Db.pairOf r) as Hne
      by (intros Heq; symmetry in Heq; apply conflicts_pair in Heq; congruence).
    split; [|split; [|split; [exact Hout | simpl; lia]]].
    + intros [|p] row' Hp; cbn in Hp |- *.
      * injection Hp as <-. by rewrite decide_False.
      * by apply Hlookup.
    + intros Hout'. rewrite Hnew; [reflexivity|].
      intros Hin. apply Hout'. by apply list_elem_of_further.
Qed.

(** A whole statement, [DO UPDATE], whose records have different pairs, on a
    table that holds every pair once. *)
Lemma upsertAll_rows (newId : nat -> string) (values : list LeadRecord.t) :
  NoDup (Db.pairOf <$> values) ->
  forall (k : nat) (tbl : list Db.LeadRow),
    NoDup (pairs tbl) ->
    let run := Db.upsertAll ["organization_id"; "phone"] false newId k values tbl in
    (forall p row r, tbl !! p = Some row -> r ∈ values ->
       Db.pairOf (Db.cols row) = Db.pairOf r ->
       run.1 !! p = Some (Db.mkLeadRow (Db.id row) r))
    /\ (forall p row, tbl !! p = Some row ->
          Db.pairOf (Db.cols row) ∉ (Db.pairOf <$> values) -> run.1 !! p = Some row)
    /\ (forall r, r ∈ values -> Db.pairOf r ∉ pairs tbl ->
          exists p id, length tbl <= p /\ run.1 !! p = Some (Db.mkLeadRow id r))
    /\ NoDup (pairs run.1)
    /\ length run.2 = length values.
Proof.
  induction values as [|r rest IH]; intros Hvalues k tbl Htbl; cbv zeta.
  { cbn [Db.upsertAll fst snd]. split; [by intros p row r _ Hin%elem_of_nil|].
    split; [auto|]. split; [by intros r Hin%elem_of_nil|]. auto. }
  rewrite fmap_cons in Hvalues. apply NoDup_cons in Hvalues as [Hr Hrest].
  cbn [Db.upsertAll].
  destruct (upsertRow_rows (newId k) r tbl Htbl) as (Hlookup & Hnew & [row0 Hout] & Hlen).
  pose proof (upsertRow_pairs (newId k) r tbl) as Hpairs.
  destruct (Db.upsertRow _ false (newId k) r tbl) as [tbl1 out]. cbn [fst snd] in *.
  subst out.
  assert (NoDup (pairs tbl1)) as Htbl1.
  { rewrite Hpairs. destruct (decide (Db.pairOf r ∈ pairs tbl)) as [Hin|Hout];
      [by rewrite app_nil_r|].
    apply NoDup_app. split; [exact Htbl|]. split; [|apply NoDup_singleton].
    intros x Hx ->%list_elem_of_singleton. contradiction. }
  destruct (IH Hrest (S k) tbl1 Htbl1) as (Hsame & Hother & Hadded & Hunique & Hcount).
  clear IH.
  destruct (Db.upsertAll _ false newId (S k) rest tbl1) as [tbl2 outs]. cbn [fst snd] in *.
  split; [|split; [|split; [|split; [exact Hunique | simpl; by rewrite Hcount]]]].
  - intros p row r' Hp [->|Hin]%elem_of_cons Hpair.
    + apply Hother; [|exact Hr].
      rewrite (Hlookup p row Hp). by rewrite decide_True.
    + assert (Db.pairOf (Db.cols row) <> Db.pairOf r) as Hne.
      { intros Heq. apply Hr. rewrite <- Heq, Hpair.
        apply list_elem_of_fmap. by exists r'. }
      apply Hsame; [|exact Hin|exact Hpair].
      rewrite (Hlookup p row Hp). by rewrite decide_False.
  - intros p row Hp Hout.
    apply Hother.
    + rewrite (Hlookup p row Hp). rewrite decide_False; [reflexivity|].
      intros Heq. apply Hout. rewrite Heq, fmap_cons. apply list_elem_of_here.
    + intros Hin. apply Hout. rewrite fmap_cons. by apply list_elem_of_further.
  - intros r' [->|Hin]%elem_of_cons Hfresh.
    + exists (length tbl), (newId k). split; [lia|].
      apply Hother; [|exact Hr].
      rewrite (Hnew Hfresh). by rewrite lookup_app_r, Nat.sub_diag by lia.
    + assert (Db.pairOf r' <> Db.pairOf r) as Hne.
      { intros Heq. apply Hr. rewrite <- Heq. apply list_elem_of_fmap. by exists r'. }
      destruct (Hadded r' Hin) as (p & id & Hp & Hrow).
      { rewrite Hpairs. intros [Hold|Hlast]%elem_of_app; [contradiction|].
        destruct (decide (Db.pairOf r ∈ pairs tbl)); [by apply elem_of_nil in Hlast|].
        by apply list_elem_of_singleton in Hlast. }
      exists p, id. split; [lia | exact Hrow].
Qed.

(** The records of parsed leads with different phones have different pairs,
    and collide with one another nowhere. *)
Lemma toRecord_pair organizationId clock campaignId i lead :
  Db.pairOf (toRecord organizationId clock campaignId i lead)
  = (organizationId, VAPILead.phone lead).
Proof. reflexivity. Qed.

Lemma upsertRequest_pairs organizationId clock campaignId parsed :
  Db.pairOf <$> Db.values (upsertRequest organizationId clock campaignId parsed)
  = (fun lead => (organizationId, VAPILead.phone lead)) <$> parsed.
Proof.
  unfold upsertRequest. cbn [Db.values].
  apply list_eq. intros i. rewrite !list_lookup_fmap, list_lookup_imap.
  by destruct (parsed !! i).
Qed.

Lemma different_pairs_apart (values : list LeadRecord.t) :
  NoDup (Db.pairOf <$> values) -> Db.apart ["organization_id"; "phone"] values.
Proof.
  intros Hunique i j a b Hij Ha Hb. apply not_true_is_false. intros Hc%conflicts_pair.
  apply Hij. eapply NoDup_lookup; [exact Hunique| |];
    rewrite list_lookup_fmap; [by rewrite Ha | by rewrite Hb, Hc].
Qed.

Section Stored.

Variable organizationId : string.
Variable message : string.
Variable clock : nat -> string.

(** Table [leads] and the database that keeps it. *)
Variable supabaseUpsert :
  Db.UpsertRequest -> list Db.LeadRow
  -> list Db.LeadRow * Db.Awaited (Db.Response (list Db.LeadRow)).
Variable updateCampaignMetrics : string -> list Db.LeadRow -> list Db.LeadRow.

(** What the database promises: a statement whose proposed records collide
    with one another nowhere is carried out record by record, as its
    conflict target and its [ignoreDuplicates] say, and answers with the rows
    it wrote; and [updateCampaignMetrics] leaves table [leads] alone. *)
Hypothesis upsert_apart :
  forall req tbl,
    Db.apart (Db.conflictColumns (Db.onConflict req)) (Db.values req) ->
    exists newId k,
      supabaseUpsert req tbl
      = ((Db.upsertAll (Db.conflictColumns (Db.onConflict req)) (Db.ignoreDuplicates req)
            newId k (Db.values req) tbl).1,
         Db.Answered
           (Db.mkResponse
              (Some (Db.upsertAll (Db.conflictColumns (Db.onConflict req))
                       (Db.ignoreDuplicates req) newId k (Db.values req) tbl).2)
              None)).
Hypothesis metrics_keep_leads : forall campaignId tbl, updateCampaignMetrics campaignId tbl = tbl.


End Stored.


End UpsertFacts.

(** ** processCampaignCalls *)

Module CampaignFacts.

Import Campaign Samples.

(** The reference [select] honours its limit and its filters. *)
Lemma select_length q tbl : length (Db.select q tbl) <= Db.limit q.
Proof. unfold Db.select. rewrite length_take. lia. Qed.

Lemma select_matches q tbl row : row ∈ Db.select q tbl -> Db.matchesQuery q row = true.
Proof.
  unfold Db.select. intros Hin%subseteq_take%list_elem_of_In.
  by apply List.filter_In in Hin as [_ Hm].
Qed.

Lemma matchesQuery_spec q row :
  Db.matchesQuery q row = true
  <-> LeadRecord.campaign_id (Db.cols row) = Some (Db.campaign_id_eq q)
      /\ LeadRecord.call_status (Db.cols row) = Db.call_status_eq q.
Proof.
  unfold Db.matchesQuery.
  by rewrite andb_true_iff, bool_decide_eq_true, String.eqb_eq.
Qed.

Section Loop.

Context {Database CallResult : Type}.
Variable selectLeads : Db.LeadsQuery -> Database -> option (list Db.LeadRow).
Variable selectCampaign : string -> Database -> option Db.CampaignConfig.
Variable makeCall :
  string -> Db.LeadRow -> option string -> option string ->
  Database -> Database * Outcome CallResult.

(** What the database promises about a [select] with a limit and equality
    filters. *)
Hypothesis select_limit :
  forall q db rows, selectLeads q db = Some rows -> length rows <= Db.limit q.
Hypothesis select_filter :
  forall q db rows row,
    selectLeads q db = Some rows -> row ∈ rows -> Db.matchesQuery q row = true.

Local Abbreviation callLeads := (callLeads Database CallResult makeCall).
Local Abbreviation callOutcomes := (callOutcomes Database CallResult makeCall).
Local Abbreviation processCampaignCalls :=
  (processCampaignCalls Database CallResult selectLeads selectCampaign makeCall).

(** One turn of the loop: the call, the event its outcome brings, and the
    turns for the leads that remain. *)
Lemma callLeads_cons campaignId campaign lead rest db :
  (callLeads campaignId campaign (lead :: rest) db).2
  = MakeCall lead (Db.assistant_id campaign) (Db.phone_number_id campaign)
      :: eventAfter lead (makeCall campaignId lead (Db.assistant_id campaign)
                            (Db.phone_number_id campaign) db).2
      :: (callLeads campaignId campaign rest
            (makeCall campaignId lead (Db.assistant_id campaign)
               (Db.phone_number_id campaign) db).1).2.
Proof.
  simpl. destruct (makeCall _ lead _ _ db) as [db1 outcome]. simpl.
  by destruct (callLeads campaignId campaign rest db1) as [db2 events].
Qed.

Lemma callOutcomes_cons campaignId campaign lead rest db :
  callOutcomes campaignId campaign (lead :: rest) db
  = (makeCall campaignId lead (Db.assistant_id campaign)
       (Db.phone_number_id campaign) db).2
      :: callOutcomes campaignId campaign rest
           (makeCall campaignId lead (Db.assistant_id campaign)
              (Db.phone_number_id campaign) db).1.
Proof. simpl. by destruct (makeCall _ lead _ _ db). Qed.

Lemma callsOf_turn lead a p (outcome : Outcome CallResult) events :
  callsOf (MakeCall lead a p :: eventAfter lead outcome :: events)
  = lead :: callsOf events.
Proof. by destruct outcome. Qed.

(** The loop calls every lead of its list, in order, whatever the earlier
    calls did. *)
Lemma callLeads_calls campaignId campaign leads db :
  callsOf (callLeads campaignId campaign leads db).2 = leads.
Proof.
  revert db. induction leads as [|lead rest IH]; intros db; [reflexivity|].
  by rewrite callLeads_cons, callsOf_turn, IH.
Qed.

(** The call to the [k]-th lead, the calls before it, and the event right
    after it. *)
Lemma callLeads_kth campaignId campaign leads db k lead :
  leads !! k = Some lead ->
  exists i outcome,
    callOutcomes campaignId campaign leads db !! k = Some outcome
    /\ (callLeads campaignId campaign leads db).2 !! i
       = Some (MakeCall lead (Db.assistant_id campaign) (Db.phone_number_id campaign))
    /\ callsOf (take i (callLeads campaignId campaign leads db).2) = take k leads
    /\ (callLeads campaignId campaign leads db).2 !! S i = Some (eventAfter lead outcome).
Proof.
  revert db k. induction leads as [|lead0 rest IH]; intros db k Hk; [done|].
  rewrite callLeads_cons, callOutcomes_cons.
  destruct k as [|k].
  - injection Hk as ->. eexists 0, _. by repeat split.
  - destruct (IH (makeCall campaignId lead0 (Db.assistant_id campaign)
                    (Db.phone_number_id campaign) db).1 k Hk)
      as (i & outcome & Ho & Hcall & Hbefore & Hafter).
    exists (S (S i)), outcome.
    split; [exact Ho|]. split; [exact Hcall|]. split; [|exact Hafter].
    cbn [take firstn]. by rewrite callsOf_turn, Hbefore.
Qed.

(** C9 (amended).  One invocation fetches at most five leads, all pending
    and all of the campaign.  When the campaign's configuration is found, it
    calls each fetched lead once, in fetch order, with the campaign's
    assistant and phone number; a call that returns is followed at once by
    the wait of 2000 ms, a call that throws by the log entry for that lead,
    and in both cases the remaining leads are still called.  When the
    configuration is not found, no lead is called. *)
Theorem C9_calls_each_fetched_lead_once campaignId db :
  let fetched := default [] (selectLeads (pendingQuery campaignId) db) in
  let events := (processCampaignCalls campaignId db).2 in
  length fetched <= 5
  /\ (forall row, row ∈ fetched ->
        LeadRecord.campaign_id (Db.cols row) = Some campaignId
        /\ LeadRecord.call_status (Db.cols row) = "pending")
  /\ (forall campaign, selectCampaign campaignId db = Some campaign ->
        callsOf events = fetched
        /\ forall k lead, fetched !! k = Some lead ->
             exists i outcome,
               callOutcomes campaignId campaign fetched db !! k = Some outcome
               /\ events !! i
                  = Some (MakeCall lead (Db.assistant_id campaign)
                            (Db.phone_number_id campaign))
               /\ callsOf (take i events) = take k fetched
               /\ match outcome with
                  | Returned _ => events !! S i = Some (SetTimeout 2000)
                  | Thrown message =>
                      events !! S i = Some (LeadFailureLogged (Db.id lead) message)
                  end)
  /\ (selectCampaign campaignId db = None -> callsOf events = []).
Proof.
  cbv zeta. unfold Campaign.processCampaignCalls.
  destruct (selectLeads (pendingQuery campaignId) db) as [leads|] eqn:Hsel; simpl.
  - split; [exact (select_limit _ _ _ Hsel)|].
    split.
    { intros row Hrow. by apply (matchesQuery_spec (pendingQuery campaignId)),
        (select_filter _ _ _ _ Hsel). }
    split.
    + intros campaign Hc. rewrite Hc.
      destruct leads as [|lead0 rest]; [by split|].
      split; [apply callLeads_calls|].
      intros k lead Hk.
      destruct (callLeads_kth campaignId campaign (lead0 :: rest) db k lead Hk)
        as (i & outcome & Ho & Hcall & Hbefore & Hafter).
      exists i, outcome. by destruct outcome.
    + intros ->. by destruct leads.
  - split; [lia|]. split; [by intros row Hrow%not_elem_of_nil|].
    split; [|reflexivity]. intros campaign Hc. by split.
Qed.

End Loop.

Lemma C9_witness :
  let events :=
    (processCampaignCalls unit unit (selectFrom leadsTable) campaignFound failsForLeadA
       "camp-1" tt).2 in
  length (Db.select (pendingQuery "camp-1") leadsTable) <= 5
  /\ callsOf events = Db.select (pendingQuery "camp-1") leadsTable.
Proof.
  destruct (C9_calls_each_fetched_lead_once
              (selectFrom leadsTable) campaignFound failsForLeadA
              (fun q db rows H =>
                 eq_ind _ (fun l => length l <= Db.limit q) (select_length q leadsTable) _
                   (Some_inj _ _ H))
              (fun q db rows row H =>
                 eq_ind _ (fun l => row ∈ l -> Db.matchesQuery q row = true)
                   (select_matches q leadsTable row) _ (Some_inj _ _ H))
              "camp-1" tt)
    as (Hlen & _ & Hfound & _).
  split; [exact Hlen|].
  exact (proj1 (Hfound _ eq_refl)).
Defined.

(** C9 (counterexample).  With two pending leads fetched: when the call to
    the first lead throws, the call to the second follows the log entry with
    no wait in between; and when the campaign's configuration is not found,
    no lead is called at all. *)
Lemma C9_counterexample :
  selectFrom [leadA; leadB] (pendingQuery "camp-1") tt = Some [leadA; leadB]
  /\ (processCampaignCalls unit unit (selectFrom [leadA; leadB]) campaignFound
        failsForLeadA "camp-1" tt).2
     = [MakeCall leadA (Some "asst-1") (Some "pn-1");
        LeadFailureLogged "lead-a" "Failed to create call";
        MakeCall leadB (Some "asst-1") (Some "pn-1");
        SetTimeout 2000]
  /\ (processCampaignCalls unit unit (selectFrom [leadA; leadB]) campaignMissing
        failsForLeadA "camp-1" tt).2
     = [ProcessingErrorLogged "Campaign not found"].
Proof. repeat split. Qed.

End CampaignFacts.

(** * Further properties *)

(** ** formatPhoneNumber: what it does to the digits *)

Module PhoneMoreFacts.

Import JS Phone JSFacts PhoneFacts.

(** X1.  The result depends on the digits of the input only: two non-empty
    inputs with the same digits, whatever separates them, are formatted
    alike. *)
Theorem format_depends_on_digits_only x y :
  x <> "" -> y <> "" -> cleanedDigits x = cleanedDigits y ->
  formatPhoneNumber x = formatPhoneNumber y.
Proof.
  intros Hx Hy Hsame.
  rewrite (formatPhoneNumber_cases x Hx), (formatPhoneNumber_cases y Hy).
  cbv zeta. by rewrite Hsame.
Qed.

Lemma format_depends_on_digits_only_witness :
  formatPhoneNumber "+356 9912-3456" = formatPhoneNumber "(356) 99 12 34 56"
  /\ formatPhoneNumber "+356 9912-3456" = "+35699123456".
Proof.
  split; [|reflexivity].
  apply (format_depends_on_digits_only "+356 9912-3456" "(356) 99 12 34 56");
    [discriminate | discriminate | reflexivity].
Defined.

(** The three results of a non-empty input, by the country code put in
    front of the digits. *)
Lemma format_code_and_digits x :
  x <> "" ->
  exists code,
    formatPhoneNumber x = "+" +:+ code +:+ cleanedDigits x
    /\ allChars isDigit (code +:+ cleanedDigits x) = true
    /\ (code = ""
        \/ (code = "356" /\ String.length (cleanedDigits x) = 8
            /\ (startsWith (cleanedDigits x) "9" = true
                \/ startsWith (cleanedDigits x) "7" = true))).
Proof.
  intros Hx. rewrite (formatPhoneNumber_cases x Hx). cbv zeta.
  pose proof (cleanedDigits_digits x) as Hd.
  destruct (Nat.leb 10 (String.length (cleanedDigits x))).
  { exists "". rewrite app_empty_l. auto. }
  destruct (Nat.eqb_spec (String.length (cleanedDigits x)) 8) as [H8|_]; simpl.
  - destruct (startsWith (cleanedDigits x) "9") eqn:H9; simpl.
    { exists "356". rewrite allChars_app, Hd. repeat split; auto. }
    destruct (startsWith (cleanedDigits x) "7") eqn:H7.
    { exists "356". rewrite allChars_app, Hd. repeat split; auto. }
    exists "". rewrite app_empty_l. auto.
  - exists "". rewrite app_empty_l. auto.
Qed.

(** X2.  On a non-empty input the result is ['+'], then at most the country
    code [356], then the digits of the input, all of them and in their order;
    the code is there only for eight digits led by ['9'] or ['7'].  No other
    digit is ever added, dropped or changed. *)
Theorem format_keeps_every_digit x :
  x <> "" ->
  exists code,
    formatPhoneNumber x = "+" +:+ code +:+ cleanedDigits x
    /\ allChars isDigit (code +:+ cleanedDigits x) = true
    /\ (code = ""
        \/ (code = "356" /\ String.length (cleanedDigits x) = 8
            /\ (startsWith (cleanedDigits x) "9" = true
                \/ startsWith (cleanedDigits x) "7" = true))).
Proof.
  intros Hx. destruct (format_code_and_digits x Hx) as (code & Hfmt & Hdigits & Hcode).
  exists code. rewrite Hfmt. auto.
Qed.

Lemma format_keeps_every_digit_witness :
  (exists code,
     formatPhoneNumber "tel: 79-123-456" = "+" +:+ code +:+ "79123456"
     /\ allChars isDigit (code +:+ "79123456") = true
     /\ (code = ""
         \/ (code = "356" /\ String.length "79123456" = 8
             /\ (startsWith "79123456" "9" = true \/ startsWith "79123456" "7" = true)))).
Proof. apply (format_keeps_every_digit "tel: 79-123-456"). discriminate. Defined.

(** Formatting a result again gives the same result. *)
Lemma format_again x : formatPhoneNumber (formatPhoneNumber x) = formatPhoneNumber x.
Proof.
  destruct (decide (x = "")) as [->|Hx]; [reflexivity|].
  destruct (format_code_and_digits x Hx) as (code & Hfmt & Hdigits & Hcode).
  rewrite Hfmt.
  rewrite formatPhoneNumber_cases by apply plus_nonempty. cbv zeta.
  change ("+" +:+ code +:+ cleanedDigits x) with (String "+" (code +:+ cleanedDigits x)).
  assert (cleanedDigits (String "+" (code +:+ cleanedDigits x)) = code +:+ cleanedDigits x)
    as -> by (unfold cleanedDigits at 1; simpl; by apply cleanedDigits_fixed).
  destruct Hcode as [->|(-> & H8 & Hlead)].
  - rewrite !app_empty_l in *.
    rewrite (formatPhoneNumber_cases x Hx) in Hfmt. cbv zeta in Hfmt.
    destruct (Nat.leb 10 (String.length (cleanedDigits x))); [reflexivity|].
    destruct (Nat.eqb (String.length (cleanedDigits x)) 8
              && (startsWith (cleanedDigits x) "9" || startsWith (cleanedDigits x) "7"));
      [|reflexivity].
    apply (f_equal String.length) in Hfmt. rewrite !length_app in Hfmt.
    simpl in Hfmt. lia.
  - rewrite length_app, H8. reflexivity.
Qed.

End PhoneMoreFacts.

(** ** The row handler: which rows it accepts, and what it stores *)

Module CsvMoreFacts.

Import JS Phone Csv CsvSpec CsvColumns JSFacts PhoneFacts RegExpFacts CsvFacts
  PhoneMoreFacts Samples.

(** The pattern leaves the digits of a phone it accepts untouched. *)
Lemma accepted_phone_digits sign d ds :
  sign = "" \/ sign = "+" -> isDigit19 d = true -> allChars isDigit ds = true ->
  cleanedDigits (sign +:+ String d ds) = String d ds.
Proof.
  intros Hsign Hd Hds.
  assert (isDigit d = true) as Hd'.
  { unfold isDigit19, isDigit in *. apply andb_true_iff in Hd as [H1 H2].
    apply andb_true_iff. split; [|exact H2].
    apply N.leb_le in H1. apply N.leb_le. lia. }
  assert (cleanedDigits (String d ds) = String d ds) as Hfix
    by (apply cleanedDigits_fixed; simpl; by rewrite Hd', Hds).
  destruct Hsign as [-> | ->]; [by rewrite app_empty_l|].
  change ("+" +:+ String d ds) with (String "+" (String d ds)).
  unfold cleanedDigits at 1. cbn [removeAll]. exact Hfix.
Qed.

(** What the handler went through when it pushed a lead. *)
Lemma pushed_inversion message n row lead :
  handleRow message n row = Pushed lead ->
  exists first last cell,
    resolveNames row = (Some first, Some last) /\ first <> ""
    /\ phoneField row = Some cell /\ cell <> ""
    /\ RegExp.test phoneRegex (removeAll isPhoneSeparator cell) = true
    /\ VAPILead.firstName lead = trim first
    /\ VAPILead.lastName lead = trim last
    /\ VAPILead.phone lead = formatPhoneNumber (removeAll isPhoneSeparator cell)
    /\ VAPILead.customFields lead = customFieldsOf row.
Proof.
  unfold handleRow. destruct (resolveNames row) as [firstName lastName].
  destruct firstName as [first|]; [|discriminate].
  destruct (phoneField row) as [cell|]; [|discriminate].
  destruct (isEmpty first) eqn:Ef; [discriminate|].
  destruct (isEmpty cell) eqn:Ec; [discriminate|]. simpl.
  destruct (RegExp.test phoneRegex _) eqn:Hre; [|discriminate]. simpl.
  destruct lastName as [last|]; [|discriminate].
  intros [= <-]. exists first, last, cell.
  apply isEmpty_false in Ef, Ec. by repeat split.
Qed.

(** X3.  Every phone the handler stores is in international form: a ['+'],
    a digit from 1 to 9, then one to fourteen digits.  It passes the
    handler's own pattern, and formatting it again leaves it as it is. *)
Theorem stored_phone_is_international message n row lead :
  handleRow message n row = Pushed lead ->
  (exists d ds,
     VAPILead.phone lead = "+" +:+ String d ds
     /\ isDigit19 d = true /\ allChars isDigit ds = true
     /\ 1 <= String.length ds <= 14)
  /\ RegExp.test phoneRegex (VAPILead.phone lead) = true
  /\ formatPhoneNumber (VAPILead.phone lead) = VAPILead.phone lead.
Proof.
  intros Hpushed.
  destruct (pushed_inversion _ _ _ _ Hpushed)
    as (first & last & cell & _ & _ & _ & _ & Hre & _ & _ & Hphone & _).
  assert (exists d ds,
            VAPILead.phone lead = "+" +:+ String d ds
            /\ isDigit19 d = true /\ allChars isDigit ds = true
            /\ 1 <= String.length ds <= 14) as Hshape.
  { rewrite Hphone.
    apply phoneRegex_spec in Hre as (sign & d & ds & Hclean & Hsign & Hd & Hds & Hlen).
    rewrite Hclean.
    assert (sign +:+ String d ds <> "") as Hne by (destruct Hsign as [-> | ->]; discriminate).
    rewrite (formatPhoneNumber_cases _ Hne). cbv zeta.
    rewrite (accepted_phone_digits sign d ds Hsign Hd Hds).
    destruct (Nat.leb 10 (String.length (String d ds))); [by exists d, ds|].
    destruct (Nat.eqb_spec (String.length (String d ds)) 8) as [H8|_];
      [rewrite andb_true_l | rewrite andb_false_l; by exists d, ds].
    destruct (startsWith (String d ds) "9" || startsWith (String d ds) "7");
      [|by exists d, ds].
    exists "3"%char, ("56" +:+ String d ds).
    split; [reflexivity|]. split; [reflexivity|].
    assert (isDigit d = true) as Hd'.
    { unfold isDigit19, isDigit in *. apply andb_true_iff in Hd as [H1 H2].
      apply andb_true_iff. split; [|exact H2].
      apply N.leb_le in H1. apply N.leb_le. lia. }
    rewrite allChars_app, length_app. simpl. rewrite Hd', Hds.
    simpl in H8. split; [reflexivity | lia]. }
  split; [exact Hshape|]. split.
  - destruct Hshape as (d & ds & -> & Hd & Hds & Hlen).
    apply phoneRegex_spec. exists "+", d, ds. auto.
  - rewrite Hphone. apply format_again.
Qed.

Lemma stored_phone_is_international_witness :
  (exists d ds,
     "+35699123456" = "+" +:+ String d ds
     /\ isDigit19 d = true /\ allChars isDigit ds = true
     /\ 1 <= String.length ds <= 14)
  /\ RegExp.test phoneRegex "+35699123456" = true
  /\ formatPhoneNumber "+35699123456" = "+35699123456".
Proof.
  exact (stored_phone_is_international "" 1 sampleNameRow
           {| VAPILead.firstName := "Ada";
              VAPILead.lastName := "Lovelace King";
              VAPILead.phone := "+35699123456";
              VAPILead.email := None;
              VAPILead.company := None;
              VAPILead.title := None;
              VAPILead.status := "pending";
              VAPILead.callAttempts := 0;
              VAPILead.customFields := ∅ |} eq_refl).
Defined.

(** X4.  The rows the handler accepts are exactly those whose first name
    resolves to a non-empty string, whose last name is defined, and whose
    phone, once white space, dashes and parentheses are removed, is an
    optional ['+'], a digit from 1 to 9 and one to fourteen more digits. *)
Theorem row_accepted_iff message n row :
  is_Some (pushedLead (handleRow message n row))
  <-> exists first last cell sign d ds,
        resolveNames row = (Some first, Some last) /\ first <> ""
        /\ phoneField row = Some cell
        /\ removeAll isPhoneSeparator cell = sign +:+ String d ds
        /\ (sign = "" \/ sign = "+")
        /\ isDigit19 d = true /\ allChars isDigit ds = true
        /\ 1 <= String.length ds <= 14.
Proof.
  rewrite handleRow_pushes. split.
  - intros (first & last & cell & Hnames & Hfirst & Hcell & _ & Hre).
    apply phoneRegex_spec in Hre as (sign & d & ds & Hclean & Hrest).
    exists first, last, cell, sign, d, ds. auto.
  - intros (first & last & cell & sign & d & ds & Hnames & Hfirst & Hcell & Hclean & Hrest).
    exists first, last, cell. split; [exact Hnames|]. split; [exact Hfirst|].
    split; [exact Hcell|]. split.
    + intros ->. simpl in Hclean. destruct Hrest as [[-> | ->] _]; discriminate.
    + apply phoneRegex_spec. by exists sign, d, ds.
Qed.

(** X5.  A phone in national format, with a ['0'] in front (also after a
    ['+']), is never accepted: the row pushes no lead. *)
Theorem leading_zero_rejected message n row cell rest :
  phoneField row = Some cell ->
  removeAll isPhoneSeparator cell = String "0" rest
    \/ removeAll isPhoneSeparator cell = String "+" (String "0" rest) ->
  exists text, handleRow message n row = Failed (lineMessage n text).
Proof.
  intros Hcell Hzero.
  assert (pushedLead (handleRow message n row) = None) as Hnone.
  { destruct (pushedLead (handleRow message n row)) as [lead|] eqn:Hp; [|reflexivity].
    exfalso.
    assert (is_Some (pushedLead (handleRow message n row))) as Hsome by (rewrite Hp; eauto).
    apply handleRow_pushes in Hsome as (first & last & cell' & _ & _ & Hcell' & _ & Hre).
    apply phoneRegex_spec in Hre as (sign & d & ds & Hclean & Hsign & Hd & _).
    rewrite Hcell in Hcell'. injection Hcell' as <-.
    rewrite Hclean in Hzero.
    destruct Hsign as [-> | ->], Hzero as [Hz|Hz];
      rewrite ?app_empty_l in Hz;
      try change ("+" +:+ String d ds) with (String "+" (String d ds)) in Hz;
      first [ discriminate Hz
            | injection Hz as Hz _; subst d; discriminate Hd
            | injection Hz as _ Hz; injection Hz as Hz _; subst d; discriminate Hd ]. }
  unfold handleRow in *. destruct (resolveNames row) as [firstName lastName].
  destruct firstName as [first|]; [|eauto].
  rewrite Hcell in *.
  destruct (isEmpty first || isEmpty cell); [eauto|].
  destruct (negb _); [eauto|].
  destruct lastName; [discriminate | eauto].
Qed.

Lemma leading_zero_rejected_witness :
  exists text, handleRow "" 3 nationalFormatRow = Failed (lineMessage 3 text).
Proof.
  apply (leading_zero_rejected "" 3 nationalFormatRow "07700 900123" "7700900123");
    [reflexivity | left; reflexivity].
Defined.

(** Every message the handler pushes starts with the line number. *)
Lemma failed_has_line message n row msg :
  handleRow message n row = Failed msg -> exists text, msg = lineMessage n text.
Proof.
  unfold handleRow. destruct (resolveNames row) as [firstName lastName].
  destruct firstName as [first|]; [|intros [= <-]; eauto].
  destruct (phoneField row) as [cell|]; [|intros [= <-]; eauto].
  destruct (isEmpty first || isEmpty cell); [intros [= <-]; eauto|].
  destruct (negb _); [intros [= <-]; eauto|].
  destruct lastName; [discriminate | intros [= <-]; eauto].
Qed.

(** X6.  Every row of a batch is accounted for once: it either contributes
    one lead or one message carrying its own position (counted from 1) as
    line number, so leads and messages together are as many as the rows; and
    no lead or message comes from anywhere else. *)
Theorem every_row_accounted_once message rows :
  let st := parseRows message rows in
  length (leads st) + length (errors st) = length rows
  /\ (forall i row, rows !! i = Some row ->
        match handleRow message (S i) row with
        | Pushed lead => lead ∈ leads st
        | Failed msg => msg ∈ errors st /\ exists text, msg = lineMessage (S i) text
        end)
  /\ (forall lead, lead ∈ leads st ->
        exists i row, rows !! i = Some row /\ handleRow message (S i) row = Pushed lead)
  /\ (forall msg, msg ∈ errors st ->
        exists i row, rows !! i = Some row /\ handleRow message (S i) row = Failed msg).
Proof.
  cbv zeta. destruct (parseRows_by_row message rows) as (Hl & He & Hcount).
  split; [exact Hcount|]. rewrite Hl, He. clear Hl He Hcount. split; [|split].
  - intros i row Hi.
    pose proof (elem_of_lookup_imap_2 (fun i row => handleRow message (S i) row) rows row i Hi)
      as Hin. simpl in Hin.
    destruct (handleRow message (S i) row) as [lead|msg] eqn:Hh.
    + apply list_elem_of_omap. by exists (Pushed lead).
    + split; [|by eapply failed_has_line].
      apply list_elem_of_omap. by exists (Failed msg).
  - intros lead (h & Hin & Hp)%list_elem_of_omap.
    apply elem_of_lookup_imap in Hin as (i & row & -> & Hrow).
    exists i, row. split; [exact Hrow|].
    destruct (handleRow message (S i) row); [by injection Hp as -> | discriminate].
  - intros msg (h & Hin & Hp)%list_elem_of_omap.
    apply elem_of_lookup_imap in Hin as (i & row & -> & Hrow).
    exists i, row. split; [exact Hrow|].
    destruct (handleRow message (S i) row); [discriminate | by injection Hp as ->].
Qed.

(** X7.  The promise of the upload is rejected in three cases and no other:
    the stream reports an error, and then nothing is sent to the database;
    the upsert throws; or the upsert answers with an error, which is thrown
    on under the prefix ['Failed to insert leads: '].  The first two errors
    pass as they are.  In none of the three are the campaign metrics
    touched.  Otherwise the promise resolves, with [failed] plus the number
    of records sent equal to the number of rows, and [success] the number of
    rows the database returned. *)
Theorem upload_settles_by_stream_and_database organizationId message clock
    (Database : Type) supabaseUpsert updateCampaignMetrics campaignId rows ending
    (db : Database) :
  let st := parseRows message rows in
  let sent := upsertRequest organizationId clock campaignId (leads st) in
  let answered := supabaseUpsert sent db in
  let settled :=
    uploadLeadsFromCSV organizationId message clock Database
      supabaseUpsert updateCampaignMetrics campaignId rows ending db in
  match ending with
  | Errored text => settled = (db, Reject text)
  | Ended =>
      match answered.2 with
      | Db.Threw text => settled = (answered.1, Reject text)
      | Db.Answered answer =>
          match Db.error answer with
          | Some text =>
              settled = (answered.1, Reject ("Failed to insert leads: " +:+ text))
          | None =>
              exists result,
                settled = (updateCampaignMetrics campaignId answered.1, Resolve result)
                /\ UploadResult.failed result + length (Db.values sent) = length rows
                /\ UploadResult.errors result = errors st
                /\ UploadResult.success result = default 0 (length <$> Db.data answer)
          end
      end
  end.
Proof.
  cbv zeta. unfold uploadLeadsFromCSV. destruct ending as [|text]; [|reflexivity].
  destruct (supabaseUpsert _ db) as [db1 [answer|text]]; [|reflexivity].
  cbn [fst snd]. destruct (Db.error answer) as [text|]; [reflexivity|].
  eexists. split; [reflexivity|]. cbn [UploadResult.failed UploadResult.errors
    UploadResult.success upsertRequest Db.values].
  destruct (parseRows_by_row message rows) as (_ & _ & Hcount).
  rewrite length_imap. split; [lia|]. split; [reflexivity|].
  by destruct (Db.data answer).
Qed.

(** X8.  No column the handler reads ends up among the custom fields, in any
    capitalisation of the known names; the one exception is [JobTitle], which
    is read as the title and copied as well, its lower-case form not being in
    the list.  Every other column is copied as it is. *)
Theorem known_columns_stay_out_of_custom_fields (row : gmap string string) :
  (forall column, column ∈ readColumns -> column <> "JobTitle" ->
     customFieldsOf row !! column = None)
  /\ customFieldsOf row !! "JobTitle" = row !! "JobTitle"
  /\ (forall column, toLowerCase column ∈ knownKeys -> customFieldsOf row !! column = None)
  /\ (forall column, toLowerCase column ∉ knownKeys ->
        customFieldsOf row !! column = row !! column).
Proof.
  assert (forall column, toLowerCase column ∈ knownKeys -> customFieldsOf row !! column = None)
    as Hknown.
  { intros column Hin. unfold customFieldsOf.
    apply map_lookup_filter_None. right. intros cell _. simpl. tauto. }
  assert (forall column, toLowerCase column ∉ knownKeys ->
            customFieldsOf row !! column = row !! column) as Hother.
  { intros column Hout. unfold customFieldsOf.
    destruct (row !! column) as [cell|] eqn:Hcell.
    - apply map_lookup_filter_Some. by split.
    - apply map_lookup_filter_None. by left. }
  split; [|split; [|split]]; [| |exact Hknown|exact Hother].
  - intros column Hin Hnot. apply Hknown.
    unfold readColumns in Hin.
    repeat (apply elem_of_cons in Hin as [->|Hin];
            [first [ done | vm_compute; apply list_elem_of_In; simpl; tauto ]|]).
    by apply not_elem_of_nil in Hin.
  - apply Hother. vm_compute. intros Hin. apply list_elem_of_In in Hin. simpl in Hin.
    repeat (destruct Hin as [Hin|Hin]; [discriminate|]). exact Hin.
Qed.

Lemma trim_white_space s : allChars isWhiteSpace s = true -> trim s = "".
Proof.
  unfold trim. induction s as [|c s IH]; [reflexivity|]. simpl.
  intros [Hc Hs]%andb_true_iff. rewrite Hc. auto.
Qed.

(** X9.  The required-field check looks at the first name before it is
    trimmed: a first-name cell of white space only passes it, and the lead is
    stored with an empty first name. *)
Theorem blank_first_name_stored_empty message n row first :
  firstNameField row = Some first -> first <> "" ->
  allChars isWhiteSpace first = true ->
  is_Some (lastNameField row) ->
  (exists cell, phoneField row = Some cell
                /\ RegExp.test phoneRegex (removeAll isPhoneSeparator cell) = true) ->
  exists lead,
    handleRow message n row = Pushed lead /\ VAPILead.firstName lead = "".
Proof.
  intros Hfirst Hne Hblank [last Hlast] (cell & Hcell & Hre).
  assert (resolveNames row = (Some first, Some last)) as Hnames.
  { unfold resolveNames. cbv zeta. rewrite Hfirst, Hlast.
    assert (truthy (Some first) = true) as -> by (simpl; by apply negb_true_iff, isEmpty_false).
    reflexivity. }
  assert (cell <> "") as Hcne.
  { intros ->. apply phoneRegex_spec in Hre as (sign & d & ds & Hclean & [-> | ->] & _);
      discriminate. }
  unfold handleRow. rewrite Hnames, Hcell.
  apply isEmpty_false in Hne, Hcne. rewrite Hne, Hcne, Hre. simpl.
  eexists. split; [reflexivity|]. simpl. by apply trim_white_space.
Qed.

Lemma blank_first_name_stored_empty_witness :
  exists lead,
    handleRow "" 1 blankFirstNameRow = Pushed lead /\ VAPILead.firstName lead = "".
Proof.
  apply (blank_first_name_stored_empty "" 1 blankFirstNameRow "   ");
    [reflexivity | discriminate | reflexivity | by exists "Smith" |].
  exists "+35699123456". split; reflexivity.
Defined.

End CsvMoreFacts.

(** ** One call *)

Module CallFacts.

Import JS Phone Campaign Async Call JSFacts PhoneFacts PhoneMoreFacts CallSamples.

Lemma startsWith_app p s : startsWith (p +:+ s) p = true.
Proof.
  induction p as [|c p IH]; [by destruct s|].
  rewrite app_cons. simpl. by rewrite Ascii.eqb_refl.
Qed.

Lemma format_plus phone : phone <> "" -> startsWith (formatPhoneNumber phone) "+" = true.
Proof.
  intros Hne. destruct (format_code_and_digits phone Hne) as (code & -> & _).
  apply (startsWith_app "+").
Qed.

Section OneCall.

Context {World : Type}.
Variable organizationId : string.
Variable vapiService : option (CallRequest.t -> World -> World * Outcome string).
Variable insertCall : CallRecord.t -> World -> World * Outcome (option string).
Variable updateLead : string -> string -> string -> World -> World * Outcome unit.
Variable simulateCallProgression : string -> string -> World -> World * Outcome unit.
Variable toISOString : World -> string.
Variable dateNow : World -> nat.

Local Abbreviation makeCall :=
  (makeCall World organizationId vapiService insertCall updateLead
     simulateCallProgression toISOString dateNow).
Local Abbreviation callRecord := (callRecord organizationId).

(** The requests of a call that went all the way. *)
Local Abbreviation requests campaignId lead assistantId phoneNumberId callId started updated :=
  (match vapiService with
   | Some _ => [CreateCall (callRequest lead assistantId phoneNumberId)]
   | None => []
   end
     ++ [InsertCall (callRecord campaignId lead callId started);
         UpdateLead (Db.id lead) "calling" updated]
     ++ match vapiService with
        | Some _ => []
        | None => [SimulateCallProgression callId organizationId]
        end).

Local Ltac run_request :=
  match goal with
  | |- context [insertCall ?r ?w] =>
      destruct (insertCall r w) as [? [[?|]|?]]
  | |- context [updateLead ?a ?b ?c ?w] =>
      destruct (updateLead a b c w) as [? [[]|?]]
  | |- context [simulateCallProgression ?a ?b ?w] =>
      destruct (simulateCallProgression a b w) as [? [[]|?]]
  end; cbn [fst snd app negb andb].

Local Ltac close_leaf :=
  eexists _, _; split; [first [discriminate | intros _; apply startsWith_app] |];
  first [ by repeat split
        | solve [exists 1; eexists; split; [lia | reflexivity]]
        | solve [exists 2; eexists; split; [lia | reflexivity]]
        | solve [exists 3; eexists; split; [lia | reflexivity]]
        | solve [exists 4; eexists; split; [lia | reflexivity]] ].

(** What one call sends, in order: the requests up to the first that fails,
    and then the write of ['failed']. *)
Lemma makeCall_requests campaignId lead assistantId phoneNumberId w :
  exists callId started updated,
    (vapiService = None -> startsWith callId "mock-call-" = true)
    /\ match (makeCall campaignId lead assistantId phoneNumberId w).2 with
       | Returned result =>
           (makeCall campaignId lead assistantId phoneNumberId w).1.2
           = requests campaignId lead assistantId phoneNumberId callId started updated
           /\ VAPICallResult.leadId result = Db.id lead
           /\ VAPICallResult.vapiCallId result = callId
           /\ VAPICallResult.status result = "pending"
       | Thrown _ =>
           exists n at_,
             1 <= n
             /\ (makeCall campaignId lead assistantId phoneNumberId w).1.2
                = take n (requests campaignId lead assistantId phoneNumberId
                            callId started updated)
                    ++ [UpdateLead (Db.id lead) "failed" at_]
       end.
Proof.
  unfold Call.makeCall, tryCatch, bind, await, exchange, read, ret, throw.
  destruct vapiService as [createCall|]; cbn [fst snd app negb andb].
  - rewrite bool_decide_eq_true_2 by eauto. cbn [fst snd app negb andb].
    destruct (createCall _ w) as [w1 [callId|message]]; cbn [fst snd app negb andb].
    + repeat run_request; exists callId; close_leaf.
    + repeat run_request; exists ""; close_leaf.
  - rewrite bool_decide_eq_false_2 by (intros [? ?]; discriminate).
    rewrite startsWith_app. cbn [fst snd app negb andb].
    repeat run_request; exists ("mock-call-" +:+ numberToString (dateNow w)); close_leaf.
    Unshelve. all: exact "".
Qed.

Local Ltac open_call campaignId lead assistantId phoneNumberId w :=
  let n := fresh "n" in
  destruct (makeCall_requests campaignId lead assistantId phoneNumberId w)
    as (callId & started & updated & Hmock & Hshape);
  destruct (makeCall campaignId lead assistantId phoneNumberId w) as [[w' trace] outcome];
  cbn [fst snd] in *;
  destruct outcome as [result|message];
  [ destruct Hshape as (-> & HleadId & HcallId & Hstatus)
  | destruct Hshape as (n & at_ & Hn & ->) ];
  destruct vapiService as [createCall|];
  try (destruct n as [|[|[|[|n]]]]; [lia| | | |]);
  cbn [take firstn app] in *;
  try (specialize (Hmock eq_refl)).

Local Ltac members H :=
  repeat (apply elem_of_cons in H as [H|H]); try (by apply elem_of_nil in H).

(** Whatever a call sends to the calling API or inserts into [calls] is
    built from its own lead. *)
Lemma sent_request campaignId lead assistantId phoneNumberId w request :
  CreateCall request ∈ (makeCall campaignId lead assistantId phoneNumberId w).1.2 ->
  request = callRequest lead assistantId phoneNumberId.
Proof.
  intros Hin.
  open_call campaignId lead assistantId phoneNumberId w; members Hin; congruence.
Qed.

Lemma sent_record campaignId lead assistantId phoneNumberId w record :
  InsertCall record ∈ (makeCall campaignId lead assistantId phoneNumberId w).1.2 ->
  exists callId started, record = callRecord campaignId lead callId started.
Proof.
  intros Hin.
  open_call campaignId lead assistantId phoneNumberId w;
    members Hin; try discriminate Hin; injection Hin as ->; eauto.
Qed.

(** The status writes and the requests of one call, counted. *)
Lemma call_summary campaignId lead assistantId phoneNumberId w :
  let trace := (makeCall campaignId lead assistantId phoneNumberId w).1.2 in
  (exists s, (Db.id lead, s) ∈ statusWrites trace /\ (s = "calling" \/ s = "failed"))
  /\ (forall i s, (i, s) ∈ statusWrites trace ->
        i = Db.id lead /\ (s = "calling" \/ s = "failed"))
  /\ length (List.filter isInsertCall trace) <= 1
  /\ length (List.filter isCreateCall trace) <= 1.
Proof.
  cbv zeta.
  open_call campaignId lead assistantId phoneNumberId w;
    (split; [|split; [|split]];
     [ first [ by exists "calling"; split; [apply list_elem_of_here | left]
             | by exists "failed"; split; [apply list_elem_of_here | right]
             | by exists "calling"; split;
                 [apply list_elem_of_here | left] ]
     | intros i s Hin; cbn in Hin; members Hin; injection Hin as -> ->; auto
     | cbn; lia
     | cbn; lia ]).
Qed.

(** X10.  The number sent to the calling API always starts with ['+']: it
    is the formatted phone of the lead, and ['+'] alone for a lead without a
    phone, whose call record keeps the empty string. *)
Theorem dialled_number_starts_with_plus campaignId lead assistantId phoneNumberId w request :
  CreateCall request ∈ (makeCall campaignId lead assistantId phoneNumberId w).1.2 ->
  let phone := LeadRecord.phone (Db.cols lead) in
  let dialled := CallRequest.number (CallRequest.customer request) in
  startsWith dialled "+" = true
  /\ (phone <> "" -> dialled = formatPhoneNumber phone)
  /\ (phone = "" -> dialled = "+")
  /\ (forall record,
        InsertCall record ∈ (makeCall campaignId lead assistantId phoneNumberId w).1.2 ->
        CallRecord.phone_number record = formatPhoneNumber phone).
Proof.
  intros Hin phone dialled.
  apply sent_request in Hin as ->.
  subst dialled. cbn [callRequest CallRequest.customer CallRequest.number].
  fold phone. unfold vapiPhoneNumber.
  split; [|split; [|split]].
  - destruct (startsWith (formatPhoneNumber phone) "+") eqn:Hplus; [exact Hplus|].
    apply (startsWith_app "+").
  - intros Hne. by rewrite (format_plus phone Hne).
  - by intros ->.
  - by intros record (callId & started & ->)%sent_record.
Qed.

(** X11.  A call writes the status of its own lead and of no other, and the
    last write tells how the call ended: ['calling'] when [makeCall]
    returned, ['failed'] when it threw. *)
Theorem last_status_write_tells_outcome campaignId lead assistantId phoneNumberId w :
  let run := makeCall campaignId lead assistantId phoneNumberId w in
  last (statusWrites run.1.2)
  = Some (Db.id lead,
          match run.2 with Returned _ => "calling" | Thrown _ => "failed" end)
  /\ (forall i s, (i, s) ∈ statusWrites run.1.2 -> i = Db.id lead).
Proof.
  cbv zeta.
  open_call campaignId lead assistantId phoneNumberId w;
    (split; [reflexivity | intros i s Hin; cbn in Hin; members Hin; congruence]).
Qed.



End OneCall.

Lemma dialled_number_starts_with_plus_witness :
  CallRequest.number
    (CallRequest.customer
       (callRequest (Db.mkLeadRow "lead-1" Samples.sampleRecord) (Some "assistant-1") None))
  = "+35699123456".
Proof.
  assert (CreateCall
            (callRequest (Db.mkLeadRow "lead-1" Samples.sampleRecord) (Some "assistant-1") None)
            ∈ (makeCall nat "org-1" answeringService acceptingInsert quietUpdate
                 quietSimulation sampleISO sampleDateNow "campaign-1"
                 (Db.mkLeadRow "lead-1" Samples.sampleRecord) (Some "assistant-1") None 0).1.2)
    as Hin by (vm_compute; apply list_elem_of_here).
  destruct (dialled_number_starts_with_plus "org-1" answeringService acceptingInsert quietUpdate
              quietSimulation sampleISO sampleDateNow "campaign-1"
              (Db.mkLeadRow "lead-1" Samples.sampleRecord) (Some "assistant-1") None 0
              _ Hin) as (_ & Hnumber & _).
  rewrite Hnumber; [reflexivity | discriminate].
Defined.

Section Rounds.

Context {World : Type}.
Variable organizationId : string.
Variable vapiService : option (CallRequest.t -> World -> World * Outcome string).
Variable insertCall : CallRecord.t -> World -> World * Outcome (option string).
Variable updateLead : string -> string -> string -> World -> World * Outcome unit.
Variable simulateCallProgression : string -> string -> World -> World * Outcome unit.
Variable toISOString : World -> string.
Variable dateNow : World -> nat.
Variable selectLeads : Db.LeadsQuery -> World * list Effect -> option (list Db.LeadRow).
Variable selectCampaign : string -> World * list Effect -> option Db.CampaignConfig.

Local Abbreviation loggedCall :=
  (loggedCall World organizationId vapiService insertCall updateLead
     simulateCallProgression toISOString dateNow).
Local Abbreviation callLeads :=
  (callLeads (World * list Effect) VAPICallResult.t loggedCall).
Local Abbreviation processCampaignCalls :=
  (processCampaignCalls (World * list Effect) VAPICallResult.t
     selectLeads selectCampaign loggedCall).

(** What the calls of one round add to the log. *)
Lemma callLeads_log campaignId campaign leads state :
  exists added,
    (callLeads campaignId campaign leads state).1.2 = state.2 ++ added
    /\ (forall lead, lead ∈ leads ->
          exists s, (Db.id lead, s) ∈ statusWrites added /\ (s = "calling" \/ s = "failed"))
    /\ (forall i s, (i, s) ∈ statusWrites added ->
          (s = "calling" \/ s = "failed")
          /\ exists lead, lead ∈ leads /\ Db.id lead = i)
    /\ length (List.filter isInsertCall added) <= length leads
    /\ length (List.filter isCreateCall added) <= length leads.
Proof.
  revert state. induction leads as [|lead rest IH]; intros state.
  { exists []. rewrite app_nil_r. split; [reflexivity|]. split.
    - by intros lead Hin%elem_of_nil.
    - split; [by intros i s Hin%elem_of_nil|]. simpl. lia. }
  cbn [Campaign.callLeads]. unfold Call.loggedCall at 1.
  pose proof (call_summary organizationId vapiService insertCall updateLead
                simulateCallProgression toISOString dateNow campaignId lead
                (Db.assistant_id campaign) (Db.phone_number_id campaign) state.1)
    as (Hwritten & Hown & Hinserts & Hcreates).
  destruct (makeCall World _ _ _ _ _ _ _ campaignId lead _ _ state.1)
    as [[w1 trace] outcome]. cbn [fst snd] in *.
  destruct (IH (w1, state.2 ++ trace))
    as (added & Hlog & Hall & Honly & Hins & Hcre).
  destruct (callLeads campaignId campaign rest (w1, state.2 ++ trace)) as [state2 events].
  cbn [fst snd] in *.
  exists (trace ++ added). split; [by rewrite Hlog, app_assoc|].
  unfold statusWrites in *. rewrite omap_app, !List.filter_app, !List.length_app.
  split; [|split; [|cbn [length]; lia]].
  - intros l [->|Hin]%elem_of_cons.
    + destruct Hwritten as (s & Hs & Hcase). exists s. split; [|exact Hcase].
      apply elem_of_app. by left.
    + destruct (Hall l Hin) as (s & Hs & Hcase). exists s. split; [|exact Hcase].
      apply elem_of_app. by right.
  - intros i s [Hin|Hin]%elem_of_app.
    + destruct (Hown i s Hin) as [-> Hcase]. split; [exact Hcase|].
      exists lead. split; [apply list_elem_of_here | reflexivity].
    + destruct (Honly i s Hin) as (Hcase & l & Hl & Hid). split; [exact Hcase|].
      exists l. split; [by apply list_elem_of_further | exact Hid].
Qed.

(** X14.  In one round of [processCampaignCalls], with [makeCall] as it is:
    every lead the round called has had its status written, to ['calling']
    or to ['failed']; no other lead's status was written; and at most one
    call per called lead was recorded or sent to the calling API. *)
Theorem every_called_lead_gets_status_written campaignId w :
  let run := processCampaignCalls campaignId (w, []) in
  let called := callsOf run.2 in
  let log := run.1.2 in
  (forall lead, lead ∈ called ->
     exists s, (Db.id lead, s) ∈ statusWrites log /\ (s = "calling" \/ s = "failed"))
  /\ (forall i s, (i, s) ∈ statusWrites log ->
        (s = "calling" \/ s = "failed")
        /\ exists lead, lead ∈ called /\ Db.id lead = i)
  /\ length (List.filter isInsertCall log) <= length called
  /\ length (List.filter isCreateCall log) <= length called.
Proof.
  cbv zeta. unfold Campaign.processCampaignCalls.
  assert (forall (nothing : list Event),
            callsOf nothing = [] ->
            (forall lead, lead ∈ callsOf nothing ->
               exists s, (Db.id lead, s) ∈ statusWrites [] /\ (s = "calling" \/ s = "failed"))
            /\ (forall i s, (i, s) ∈ statusWrites [] ->
                  (s = "calling" \/ s = "failed")
                  /\ exists lead, lead ∈ callsOf nothing /\ Db.id lead = i)
            /\ length (List.filter isInsertCall []) <= length (callsOf nothing)
            /\ length (List.filter isCreateCall []) <= length (callsOf nothing)) as Hidle.
  { intros nothing ->. split; [by intros lead Hin%elem_of_nil|].
    split; [by intros i s Hin%elem_of_nil|]. simpl. lia. }
  destruct (selectLeads _ _) as [[|lead rest]|]; [by apply Hidle| |by apply Hidle].
  destruct (selectCampaign _ _) as [campaign|]; [|by apply Hidle].
  rewrite (CampaignFacts.callLeads_calls loggedCall).
  destruct (callLeads_log campaignId campaign (lead :: rest) (w, []))
    as (added & Hlog & Hrest).
  rewrite Hlog. exact Hrest.
Qed.

End Rounds.

End CallFacts.

(** ** From the upload to the call *)

Module IntakeToCallFacts.

Import JS Phone Csv Campaign Call JSFacts PhoneFacts RegExpFacts PhoneMoreFacts
  CsvMoreFacts CallFacts CallSamples.

(** X15.  A lead the row handler accepted is dialled under exactly the phone
    the upload stored for it: [makeCall] formats the stored phone again, and
    that changes nothing.  The call record holds the same number. *)
Theorem uploaded_lead_dialled_as_stored {World : Type} organizationId vapiService insertCall
    updateLead simulateCallProgression toISOString dateNow
    message n row lead uploader clock uploadCampaign i id
    campaignId assistantId phoneNumberId (w : World) :
  handleRow message n row = Pushed lead ->
  let stored := Db.mkLeadRow id (toRecord uploader clock uploadCampaign i lead) in
  let trace :=
    (makeCall World organizationId vapiService insertCall updateLead
       simulateCallProgression toISOString dateNow
       campaignId stored assistantId phoneNumberId w).1.2 in
  (forall request, CreateCall request ∈ trace ->
     CallRequest.number (CallRequest.customer request) = VAPILead.phone lead)
  /\ (forall record, InsertCall record ∈ trace ->
        CallRecord.phone_number record = VAPILead.phone lead).
Proof.
  intros Hpushed stored trace.
  destruct (pushed_inversion _ _ _ _ Hpushed)
    as (first & last & cell & _ & _ & _ & _ & Hre & _ & _ & Hphone & _).
  assert (removeAll isPhoneSeparator cell <> "") as Hclean.
  { apply phoneRegex_spec in Hre as (sign & d & ds & -> & [-> | ->] & _); discriminate. }
  assert (formatPhoneNumber (VAPILead.phone lead) = VAPILead.phone lead) as Hfixed
    by (rewrite Hphone; apply format_again).
  assert (startsWith (VAPILead.phone lead) "+" = true) as Hplus
    by (rewrite Hphone; by apply format_plus).
  split.
  - intros request ->%sent_request.
    cbn [callRequest CallRequest.customer CallRequest.number stored Db.cols
           toRecord LeadRecord.phone].
    unfold vapiPhoneNumber. by rewrite Hfixed, Hplus.
  - intros record (callId & started & ->)%sent_record.
    cbn [callRecord CallRecord.phone_number stored Db.cols toRecord LeadRecord.phone].
    exact Hfixed.
Qed.

Lemma uploaded_lead_dialled_as_stored_witness :
  CallRequest.number
    (CallRequest.customer
       (callRequest
          (Db.mkLeadRow "lead-1"
             (toRecord "org-1" Samples.sampleClock "campaign-1" 0
                {| VAPILead.firstName := "Ada";
                   VAPILead.lastName := "Lovelace King";
                   VAPILead.phone := "+35699123456";
                   VAPILead.email := None;
                   VAPILead.company := None;
                   VAPILead.title := None;
                   VAPILead.status := "pending";
                   VAPILead.callAttempts := 0;
                   VAPILead.customFields := ∅ |}))
          (Some "assistant-1") None))
  = "+35699123456".
Proof.
  apply (proj1 (uploaded_lead_dialled_as_stored "org-1" answeringService acceptingInsert
                  quietUpdate quietSimulation sampleISO sampleDateNow
                  "" 1 Samples.sampleNameRow
                  {| VAPILead.firstName := "Ada";
                     VAPILead.lastName := "Lovelace King";
                     VAPILead.phone := "+35699123456";
                     VAPILead.email := None;
                     VAPILead.company := None;
                     VAPILead.title := None;
                     VAPILead.status := "pending";
                     VAPILead.callAttempts := 0;
                     VAPILead.customFields := ∅ |}
                  "org-1" Samples.sampleClock "campaign-1" 0 "lead-1"
                  "campaign-1" (Some "assistant-1") None 0 eq_refl)).
  vm_compute. apply list_elem_of_here.
Defined.

End IntakeToCallFacts.

(** ** Campaign metrics *)

Module MetricsFacts.

Import JS Metrics Campaign Call CallFacts CallSamples.

Lemma filter_le {A : Type} (f g : A -> bool) (l : list A) :
  (forall x, f x = true -> g x = true) ->
  length (List.filter f l) <= length (List.filter g l).
Proof.
  intros Hfg. induction l as [|x l IH]; [reflexivity|]. simpl.
  destruct (f x) eqn:Hf.
  - rewrite (Hfg x Hf). simpl. lia.
  - destruct (g x); simpl; lia.
Qed.

Lemma filter_apart {A : Type} (f g : A -> bool) (l : list A) :
  (forall x, f x = true -> g x = false) ->
  length (List.filter f l) + length (List.filter g l) <= length l.
Proof.
  intros Hfg. induction l as [|x l IH]; [reflexivity|]. simpl.
  destruct (f x) eqn:Hf.
  - rewrite (Hfg x Hf). simpl. lia.
  - destruct (g x); simpl; lia.
Qed.

Lemma completed_connected call : isCompleted call = true -> isConnected call = true.
Proof.
  unfold isCompleted, isConnected, includes. destruct (CallRow.status call) as [s|]; [|done].
  intros ->%String.eqb_eq. reflexivity.
Qed.

Lemma connected_not_active call : isConnected call = true -> isActive call = false.
Proof.
  unfold isActive, isConnected, includes. destruct (CallRow.status call) as [s|]; [|done].
  cbn [existsb]. rewrite !orb_false_r.
  intros [->%String.eqb_eq | ->%String.eqb_eq]%orb_true_iff; reflexivity.
Qed.

(** X16.  Whatever the tables hold, the counts are ordered: completed calls
    are among the connected ones, connected and active calls are different
    calls and together no more than the calls attempted, and no count passes
    the number of rows it is taken from. *)
Theorem counts_are_ordered now leads calls :
  let m := calculateCampaignMetrics now leads calls in
  callsCompleted m <= callsConnected m
  /\ callsConnected m + activeCalls m <= callsAttempted m
  /\ positiveOutcomes m <= callsAttempted m
  /\ callsToday m <= callsAttempted m
  /\ leadsRemaining m <= totalLeads m.
Proof.
  cbv zeta. unfold calculateCampaignMetrics. cbn [callsCompleted callsConnected activeCalls
    callsAttempted positiveOutcomes callsToday leadsRemaining totalLeads].
  split; [apply filter_le, completed_connected|].
  split; [apply filter_apart, connected_not_active|].
  repeat split; apply List.filter_length_le.
Qed.

(** X17.  A call that [makeCall] has just recorded, read back as it was
    inserted (its status, its [started_at], no outcome), raises
    [callsAttempted] by one, and raises [callsToday] by one exactly when its
    [started_at] begins with the day the metrics are computed on.  It leaves
    every other count as it was: ['initiated'] is neither a connected nor an
    active status. *)
Theorem recorded_call_counts_as_attempted_and_today {World : Type} organizationId vapiService
    insertCall updateLead simulateCallProgression toISOString dateNow
    campaignId lead assistantId phoneNumberId (w : World) record now leads calls call :
  InsertCall record
    ∈ (makeCall World organizationId vapiService insertCall updateLead
         simulateCallProgression toISOString dateNow
         campaignId lead assistantId phoneNumberId w).1.2 ->
  CallRow.status call = Some (CallRecord.status record) ->
  CallRow.started_at call = Some (CallRecord.started_at record) ->
  CallRow.outcome call = None ->
  let before := calculateCampaignMetrics now leads calls in
  let after := calculateCampaignMetrics now leads (call :: calls) in
  callsAttempted after = S (callsAttempted before)
  /\ callsToday after
     = callsToday before
       + (if startsWith (CallRecord.started_at record) (today now) then 1 else 0)
  /\ callsConnected after = callsConnected before
  /\ callsCompleted after = callsCompleted before
  /\ activeCalls after = activeCalls before
  /\ positiveOutcomes after = positiveOutcomes before
  /\ totalLeads after = totalLeads before
  /\ leadsRemaining after = leadsRemaining before.
Proof.
  intros (callId & started & ->)%sent_record Hstatus Hstarted Houtcome. cbv zeta.
  unfold calculateCampaignMetrics. cbn [callsCompleted callsConnected activeCalls
    callsAttempted callsToday positiveOutcomes totalLeads leadsRemaining
    List.filter length].
  unfold isConnected, isCompleted, isActive, isPositive, startedOn.
  rewrite Hstatus, Hstarted, Houtcome.
  cbn [callRecord CallRecord.status CallRecord.started_at includes existsb String.eqb
         Ascii.eqb Bool.eqb orb andb].
  split; [reflexivity|]. split; [|by repeat split].
  destruct (startsWith started (today now)); cbn [length]; lia.
Qed.

Lemma recorded_call_counts_as_attempted_and_today_witness :
  callsToday
    (calculateCampaignMetrics "2024-03-05T23:59:59.000Z" []
       [CallRow.mk (Some "initiated") None (Some "2024-03-05T10:00:01.000Z")]) = 1
  /\ callsToday
       (calculateCampaignMetrics "2024-03-06T00:00:01.000Z" []
          [CallRow.mk (Some "initiated") None (Some "2024-03-05T10:00:01.000Z")]) = 0
  /\ activeCalls
       (calculateCampaignMetrics "2024-03-05T23:59:59.000Z" []
          [CallRow.mk (Some "initiated") None (Some "2024-03-05T10:00:01.000Z")]) = 0.
Proof.
  assert (InsertCall
            (callRecord "org-1" "campaign-1" (Db.mkLeadRow "lead-1" Samples.sampleRecord)
               "call-1" "2024-03-05T10:00:01.000Z")
            ∈ (makeCall nat "org-1" answeringService acceptingInsert quietUpdate
                 quietSimulation morningClock sampleDateNow "campaign-1"
                 (Db.mkLeadRow "lead-1" Samples.sampleRecord) (Some "assistant-1") None
                 0).1.2) as Hin
    by (vm_compute; apply list_elem_of_further, list_elem_of_here).
  pose proof (fun now =>
                recorded_call_counts_as_attempted_and_today "org-1" answeringService
                  acceptingInsert quietUpdate quietSimulation morningClock sampleDateNow
                  "campaign-1" (Db.mkLeadRow "lead-1" Samples.sampleRecord)
                  (Some "assistant-1") None 0 _ now [] []
                  (CallRow.mk (Some "initiated") None (Some "2024-03-05T10:00:01.000Z"))
                  Hin eq_refl eq_refl eq_refl) as Hcounts.
  destruct (Hcounts "2024-03-05T23:59:59.000Z") as (_ & Htoday & _ & _ & Hactive & _).
  destruct (Hcounts "2024-03-06T00:00:01.000Z") as (_ & Hnext & _).
  split; [exact Htoday|]. split; [exact Hnext | exact Hactive].
Defined.

(** X18.  A lead whose status [makeCall] has written is out of the next
    round: neither ['calling'] nor ['failed'] is a status the pending query
    of [processCampaignCalls] asks for, and neither counts as remaining. *)
Theorem called_lead_leaves_the_queue {World : Type} organizationId vapiService
    insertCall updateLead simulateCallProgression toISOString dateNow
    campaignId lead assistantId phoneNumberId (w : World) i s row :
  (i, s) ∈ statusWrites
             (makeCall World organizationId vapiService insertCall updateLead
                simulateCallProgression toISOString dateNow
                campaignId lead assistantId phoneNumberId w).1.2 ->
  LeadRecord.call_status (Db.cols row) = s ->
  forall anyCampaign,
    Db.matchesQuery (pendingQuery anyCampaign) row = false
    /\ isRemaining row = false.
Proof.
  intros Hin Hstatus anyCampaign.
  destruct (call_summary organizationId vapiService insertCall updateLead
              simulateCallProgression toISOString dateNow campaignId lead
              assistantId phoneNumberId w) as (_ & Hown & _).
  destruct (Hown i s Hin) as [_ Hcase].
  unfold Db.matchesQuery, isRemaining, includes. rewrite Hstatus.
  destruct Hcase as [-> | ->]; cbn [pendingQuery Db.call_status_eq]; split;
    first [apply andb_false_r | reflexivity].
Qed.

Lemma called_lead_leaves_the_queue_witness :
  Db.matchesQuery (pendingQuery "camp-1") callingLead = false
  /\ isRemaining callingLead = false.
Proof.
  refine (called_lead_leaves_the_queue "org-1" answeringService acceptingInsert
            quietUpdate quietSimulation sampleISO sampleDateNow "campaign-1"
            (Db.mkLeadRow "lead-1" Samples.sampleRecord) (Some "assistant-1") None 0
            "lead-1" "calling" callingLead _ eq_refl "camp-1").
  vm_compute. apply list_elem_of_here.
Defined.

End MetricsFacts.

(** ** Starting a campaign *)

Module StartFacts.

Import JS Campaign Async Start StartSamples.

Section OneStart.

Context {World : Type}.
Variable organizationId : string.
Variable selectCampaign :
  string -> string -> World -> World * Outcome (Db.Response Db.CampaignConfig).
Variable selectLeads :
  LeadsSelect -> World -> World * Outcome (Db.Response (list Db.LeadRow)).
Variable updateLeads : LeadsUpdate -> World -> World * Outcome (option string).
Variable activateCampaign : string -> string -> World -> World * Outcome unit.
Variable processCampaignCalls : string -> World -> World.
Variable toISOString : World -> string.

Local Abbreviation startCampaign :=
  (startCampaign World organizationId selectCampaign selectLeads updateLeads
     activateCampaign processCampaignCalls toISOString).

Local Abbreviation resetBlock :=
  (resetBlock World selectLeads updateLeads activateCampaign processCampaignCalls
     toISOString).
Local Abbreviation reassignBlock :=
  (reassignBlock World organizationId selectLeads updateLeads activateCampaign
     processCampaignCalls toISOString).
Local Abbreviation activateAndProcess :=
  (activateAndProcess World activateCampaign processCampaignCalls toISOString).

(** An exchange that returned and is neither the activation of the campaign
    nor the start of the calls. *)
Local Abbreviation calm :=
  (fun e : Exchange =>
     isProcessing e = false /\ isActivation e = false /\ thrownBy e = None).

(** A trace that ends with the activation of the campaign and the start of
    the calls, and holds no other of either. *)
Local Abbreviation endsStarted campaignId trace :=
  (exists before now,
     trace = before ++ [CampaignActivated campaignId now (Returned tt);
                        ProcessingStarted campaignId]
     /\ Forall calm before).

Local Ltac members H :=
  repeat (apply elem_of_cons in H as [H|H]); try (by apply elem_of_nil in H).

(** One step of a block: the next request answers, or the next value read
    of an answer is looked at. *)
Local Ltac run_step :=
  match goal with
  | |- context [selectLeads ?q ?w] =>
      destruct (selectLeads q w) as [? [[? ?]|?]]
  | |- context [updateLeads ?u ?w] =>
      destruct (updateLeads u w) as [? [[?|]|?]]
  | |- context [activateCampaign ?c ?n ?w] =>
      destruct (activateCampaign c n w) as [? [[]|?]]
  | |- context [match ?x with _ => _ end] => is_var x; destruct x
  | |- context [match List.filter isResetable ?x with _ => _ end] =>
      destruct (List.filter isResetable x) eqn:?
  end; cbn [fst snd app Db.data Db.error].

Local Ltac run_block :=
  cbv zeta;
  unfold Start.resetBlock, Start.reassignBlock, Start.activateAndProcess,
    readLeads, writeLeads, bind, exchange, read, ret, throw;
  cbn [fst snd app Db.data Db.error];
  repeat run_step.

Local Ltac split_off_last_two :=
  match goal with
  | |- exists before now, ?trace = _ /\ _ =>
      exists (removelast (removelast trace)); eexists; split; [reflexivity|];
      cbn [removelast]
  end.

(** The block that marks the campaign active and starts the calls. *)
Lemma activate_summary campaignId w :
  let run := activateAndProcess campaignId w in
  (forall e, e ∈ run.1.2 -> isWrite e = false)
  /\ match run.2 with
     | Returned _ => endsStarted campaignId run.1.2
     | Thrown message =>
         Forall (fun e => isProcessing e = false) run.1.2
         /\ exists e, last run.1.2 = Some e /\ thrownBy e = Some message
     end.
Proof.
  run_block; (split; [intros e He; members He; by subst|]);
    first [ solve [split_off_last_two; repeat constructor]
          | solve [split; [repeat constructor | eexists; split; reflexivity]] ].
Qed.

(** The block that resets the leads of the campaign. *)
Lemma reset_summary campaignId w :
  let run := resetBlock campaignId w in
  (forall u answer, LeadsWritten u answer ∈ run.1.2 ->
     exists rows ids now,
       LeadsRead (AllOf campaignId) (Returned (Db.mkResponse (Some rows) None)) ∈ run.1.2
       /\ rows <> [] /\ u = ResetToPending ids now
       /\ ids = map Db.id (List.filter isResetable rows) /\ ids <> [])
  /\ match run.2 with
     | Returned true => endsStarted campaignId run.1.2
     | Returned false => Forall calm run.1.2
     | Thrown message =>
         Forall (fun e => isProcessing e = false) run.1.2
         /\ ((exists e, last run.1.2 = Some e /\ thrownBy e = Some message)
             \/ exists data text,
                  last run.1.2
                  = Some (LeadsRead (AllOf campaignId)
                            (Returned (Db.mkResponse data (Some text))))
                  /\ message = "Failed to fetch campaign leads: " +:+ text)
     end.
Proof.
  run_block;
    (split;
     [ intros u answer He; members He; try discriminate He;
       try (injection He as -> ->;
            eexists _, _, _; split; [apply list_elem_of_here|];
            split; [discriminate|]; split; [reflexivity|];
            match goal with H : List.filter isResetable _ = _ |- _ => rewrite H end;
            split; [reflexivity | discriminate])
     | first [ solve [repeat constructor]
             | solve [split_off_last_two; repeat constructor]
             | solve [split; [repeat constructor | left; eexists; split; reflexivity]]
             | solve [split; [repeat constructor
                             | right; eexists _, _; split; reflexivity]] ] ]).
Qed.

(** The block that moves leads of the organisation to the campaign. *)
Lemma reassign_summary campaignId w :
  let run := reassignBlock campaignId w in
  (forall u answer, LeadsWritten u answer ∈ run.1.2 ->
     exists q rows ids now,
       LeadsRead q (Returned (Db.mkResponse (Some rows) None)) ∈ run.1.2
       /\ rows <> [] /\ ids = map Db.id rows
       /\ ((q = UnassignedPending organizationId 10 /\ u = AssignTo campaignId ids now)
           \/ (q = InOtherCampaigns organizationId
                     ["pending"; "failed"; "no_answer"; "busy"] 5
               /\ u = ReassignTo campaignId ids now)))
  /\ match run.2 with
     | Returned true => endsStarted campaignId run.1.2
     | Returned false => Forall calm run.1.2
     | Thrown message =>
         Forall (fun e => isProcessing e = false) run.1.2
         /\ exists e, last run.1.2 = Some e /\ thrownBy e = Some message
     end.
Proof.
  run_block;
    (split;
     [ intros u answer He; members He; try discriminate He;
       try (injection He as -> ->;
            first
              [ solve [eexists _, _, _, _; split; [apply list_elem_of_here|];
                       split; [discriminate|]; split; [reflexivity|];
                       left; split; reflexivity]
              | solve [eexists _, _, _, _;
                       split; [apply list_elem_of_further, list_elem_of_here|];
                       split; [discriminate|]; split; [reflexivity|];
                       right; split; reflexivity] ])
     | first [ solve [repeat constructor]
             | solve [split_off_last_two; repeat constructor]
             | solve [split; [repeat constructor | eexists; split; reflexivity]] ] ]).
Qed.

(** The run of [startCampaign], block by block: the two reads at its head,
    then what the blocks it went into did. *)
Local Ltac open_start campaignId w :=
  cbv zeta;
  unfold Start.startCampaign, readLeads, tryCatch, bind, exchange, throw, ret;
  destruct (selectCampaign campaignId organizationId w)
    as [w1 [[[campaign|] [campaignError|]]|thrown]];
  cbn [fst snd app Db.data Db.error];
  try (destruct (selectLeads (PendingOf campaignId) w1)
         as [w2 [[[[|lead leads]|] [leadsError|]]|thrown]];
       cbn [fst snd app Db.data Db.error]);
  try match goal with
      | |- context [Start.activateAndProcess ?W ?a ?p ?c ?i ?v] =>
          pose proof (activate_summary i v) as [Hquiet Hactivate];
          destruct (Start.activateAndProcess W a p c i v) as [[w3 t] [[]|thrown]];
          cbn [fst snd app] in *
      end;
  try match goal with
      | |- context [Start.resetBlock ?W ?s ?u ?a ?p ?c ?i ?v] =>
          pose proof (reset_summary i v) as [Hwrites1 Hreset];
          destruct (Start.resetBlock W s u a p c i v) as [[w3 t1] [[|]|thrown]];
          cbn [fst snd app] in *
      end;
  try match goal with
      | |- context [Start.reassignBlock ?W ?o ?s ?u ?a ?p ?c ?i ?v] =>
          pose proof (reassign_summary i v) as [Hwrites2 Hreassign];
          destruct (Start.reassignBlock W o s u a p c i v) as [[w4 t2] [[|]|thrown]];
          cbn [fst snd app] in *
      end;
  rewrite ?app_nil_r;
  repeat match goal with H : Forall _ _ /\ _ |- _ => destruct H as [? H] end.

(** X19.  [startCampaign] returns exactly when it has started the calls, and
    it starts them once, as the last thing it does and right after the
    campaign was marked active; when it throws, no calls were started. *)
Theorem start_returns_iff_calls_started campaignId w :
  let run := startCampaign campaignId w in
  match run.2 with
  | Returned _ =>
      exists before now,
        run.1.2 = before ++ [CampaignActivated campaignId now (Returned tt);
                             ProcessingStarted campaignId]
        /\ Forall (fun e => isProcessing e = false /\ isActivation e = false) before
  | Thrown _ => Forall (fun e => isProcessing e = false) run.1.2
  end.
Proof.
  assert (forall head trace,
            Forall calm head -> endsStarted campaignId trace ->
            exists before now,
              head ++ trace
              = before ++ [CampaignActivated campaignId now (Returned tt);
                           ProcessingStarted campaignId]
              /\ Forall (fun e => isProcessing e = false /\ isActivation e = false) before)
    as Hstarted.
  { intros head trace Hhead (before & now & -> & Hbefore).
    exists (head ++ before), now. split; [by rewrite app_assoc|].
    apply Forall_app. split; eapply Forall_impl; eauto; cbn; tauto. }
  assert (forall trace, Forall calm trace -> Forall (fun e => isProcessing e = false) trace)
    as Hcalm by (intros trace H; eapply Forall_impl; eauto; cbn; tauto).
  open_start campaignId w;
    lazymatch goal with
    | |- exists _ _, _ :: _ :: ?t1 ++ ?t2 = _ /\ _ =>
        apply (Hstarted ([_; _] ++ t1) t2);
        [apply Forall_app; split; [repeat constructor | assumption] | assumption]
    | |- exists _ _, _ :: _ :: ?t = _ /\ _ =>
        apply (Hstarted [_; _] t); [repeat constructor | assumption]
    | |- Forall _ _ =>
        repeat (constructor; [reflexivity|]); rewrite ?Forall_app; repeat split;
        first [assumption | apply Hcalm; assumption | constructor]
    end.
Qed.

(** X20.  When the campaign is not found for this organisation (the lookup
    answers with an error or without a row), [startCampaign] stops there:
    it throws ['Campaign not found'] and touches nothing. *)
Theorem start_stops_at_missing_campaign campaignId w w1 answer :
  selectCampaign campaignId organizationId w = (w1, Returned answer) ->
  is_Some (Db.error answer) \/ Db.data answer = None ->
  startCampaign campaignId w
  = (w1, [CampaignRead campaignId organizationId (Returned answer)],
     Thrown "Campaign not found").
Proof.
  intros Hread Hmissing.
  unfold Start.startCampaign, tryCatch, bind, exchange, throw. rewrite Hread.
  destruct answer as [data error]. cbn [Db.data Db.error] in *.
  destruct Hmissing as [[text ->] | ->]; [|by destruct error].
  reflexivity.
Qed.

(** X21.  Leads are rewritten only when the read of the pending leads of the
    campaign came back empty, and only leads that an earlier read of the same
    run returned: the leads of the campaign in a status that can be reset,
    or the leads of the organisation-wide reads, which are moved to this
    campaign. *)
Theorem only_leads_read_are_rewritten campaignId w u answer :
  let trace := (startCampaign campaignId w).1.2 in
  LeadsWritten u answer ∈ trace ->
  (exists pending,
     trace !! 1 = Some (LeadsRead (PendingOf campaignId) (Returned pending))
     /\ Db.error pending = None
     /\ (Db.data pending = None \/ Db.data pending = Some []))
  /\ exists q rows,
       LeadsRead q (Returned (Db.mkResponse (Some rows) None)) ∈ trace
       /\ rows <> []
       /\ match u with
          | ResetToPending ids _ =>
              q = AllOf campaignId
              /\ ids = map Db.id (List.filter isResetable rows) /\ ids <> []
          | AssignTo target ids _ =>
              q = UnassignedPending organizationId 10
              /\ target = campaignId /\ ids = map Db.id rows
          | ReassignTo target ids _ =>
              q = InOtherCampaigns organizationId
                    ["pending"; "failed"; "no_answer"; "busy"] 5
              /\ target = campaignId /\ ids = map Db.id rows
          end.
Proof.
  assert (forall (head t1 t2 : list Exchange),
            (forall u answer, LeadsWritten u answer ∈ t1 ->
               exists rows ids now,
                 LeadsRead (AllOf campaignId) (Returned (Db.mkResponse (Some rows) None)) ∈ t1
                 /\ rows <> [] /\ u = ResetToPending ids now
                 /\ ids = map Db.id (List.filter isResetable rows) /\ ids <> []) ->
            (forall u answer, LeadsWritten u answer ∈ t2 ->
               exists q rows ids now,
                 LeadsRead q (Returned (Db.mkResponse (Some rows) None)) ∈ t2
                 /\ rows <> [] /\ ids = map Db.id rows
                 /\ ((q = UnassignedPending organizationId 10
                      /\ u = AssignTo campaignId ids now)
                     \/ (q = InOtherCampaigns organizationId
                               ["pending"; "failed"; "no_answer"; "busy"] 5
                         /\ u = ReassignTo campaignId ids now))) ->
            LeadsWritten u answer ∈ t1 ++ t2 ->
            exists q rows,
              LeadsRead q (Returned (Db.mkResponse (Some rows) None)) ∈ head ++ t1 ++ t2
              /\ rows <> []
              /\ match u with
                 | ResetToPending ids _ =>
                     q = AllOf campaignId
                     /\ ids = map Db.id (List.filter isResetable rows) /\ ids <> []
                 | AssignTo target ids _ =>
                     q = UnassignedPending organizationId 10
                     /\ target = campaignId /\ ids = map Db.id rows
                 | ReassignTo target ids _ =>
                     q = InOtherCampaigns organizationId
                           ["pending"; "failed"; "no_answer"; "busy"] 5
                     /\ target = campaignId /\ ids = map Db.id rows
                 end) as Hblocks.
  { intros head t1 t2 H1 H2 [Hin|Hin]%elem_of_app.
    - destruct (H1 _ _ Hin) as (rows & ids & now & Hread & Hrows & -> & Hids & Hsome).
      exists (AllOf campaignId), rows. split; [|by repeat split].
      apply elem_of_app. right. apply elem_of_app. by left.
    - destruct (H2 _ _ Hin) as (q & rows & ids & now & Hread & Hrows & Hids & Hcase).
      exists q, rows. split; [apply elem_of_app; right; apply elem_of_app; by right|].
      split; [exact Hrows|].
      by destruct Hcase as [[-> ->] | [-> ->]]. }
  assert (forall t : list Exchange, (forall e, e ∈ t -> isWrite e = false) ->
            LeadsWritten u answer ∈ t -> False) as Hnone.
  { intros t Hquiet Hin. by specialize (Hquiet _ Hin). }
  open_start campaignId w; intros Hin;
    repeat (apply elem_of_cons in Hin as [Hin|Hin]; [discriminate Hin|]);
    try (by apply elem_of_nil in Hin);
    try (by exfalso; eapply Hnone; eauto);
    (split; [eexists; split; [reflexivity|]; split; [reflexivity|]; auto|]);
    lazymatch goal with
    | |- context [_ :: _ :: ?t1 ++ ?t2] =>
        apply (Hblocks [_; _] t1 t2 Hwrites1 Hwrites2 Hin)
    | |- context [_ :: _ :: ?t1] =>
        rewrite <- (app_nil_r t1) in Hin |- *;
        apply (Hblocks [_; _] t1 [] Hwrites1); [|exact Hin];
        by intros ? ? ?%elem_of_nil
    end.
Qed.

(** X22.  What [startCampaign] throws is the error of the exchange that
    threw, or one of four messages of its own: the campaign was not found,
    the read of the pending leads or of the campaign's leads answered with
    an error, or no leads were found.  Errors answered by the writes and by
    the organisation-wide reads never surface as such. *)
Theorem start_error_messages campaignId w :
  let run := startCampaign campaignId w in
  match run.2 with
  | Returned _ => True
  | Thrown message =>
      (exists e, last run.1.2 = Some e /\ thrownBy e = Some message)
      \/ message = "Campaign not found"
      \/ (exists data text,
            last run.1.2
            = Some (LeadsRead (PendingOf campaignId)
                      (Returned (Db.mkResponse data (Some text))))
            /\ message = "Failed to fetch leads: " +:+ text)
      \/ (exists data text,
            last run.1.2
            = Some (LeadsRead (AllOf campaignId)
                      (Returned (Db.mkResponse data (Some text))))
            /\ message = "Failed to fetch campaign leads: " +:+ text)
      \/ (message = "No leads found for campaign. Please upload leads first."
          /\ Forall (fun e => thrownBy e = None /\ isActivation e = false) run.1.2)
  end.
Proof.
  assert (forall (head : list Exchange) t e, last t = Some e -> last (head ++ t) = Some e)
    as Hlast by (intros head t e H; by rewrite last_app, H).
  assert (forall trace, Forall calm trace ->
            Forall (fun e => thrownBy e = None /\ isActivation e = false) trace)
    as Hcalm by (intros trace H; eapply Forall_impl; eauto; cbn; tauto).
  open_start campaignId w; try exact I;
    try solve [left; eexists; split; reflexivity];
    try solve [right; left; reflexivity];
    try solve [right; right; left; eexists _, _; split; reflexivity];
    repeat match goal with
           | H : _ \/ _ |- _ => destruct H as [H|H]
           | H : exists _, _ |- _ => destruct H as [? H]
           | H : _ /\ _ |- _ => destruct H as [? H]
           end;
    subst;
    first
      [ solve [left; eexists; split;
                 [repeat first [eassumption | apply (Hlast [_; _]) | apply Hlast]
                 | eassumption]]
      | solve [right; right; right; left; eexists _, _; split;
                 [repeat first [eassumption | apply (Hlast [_; _]) | apply Hlast]
                 | reflexivity]]
      | solve [right; right; right; right; split; [reflexivity|];
               repeat (constructor; [by split|]); rewrite ?Forall_app; repeat split;
               apply Hcalm; assumption] ].
Qed.

End OneStart.

Lemma start_stops_at_missing_campaign_witness :
  startCampaign nat "org-1" unknownCampaign noLeads quietWrite quietActivation
    laterProcessing CallSamples.sampleISO "camp-9" 0
  = (1,
     [CampaignRead "camp-9" "org-1" (Returned (Db.mkResponse None (Some "no rows")))],
     Thrown "Campaign not found").
Proof.
  apply (start_stops_at_missing_campaign "org-1" unknownCampaign noLeads quietWrite
           quietActivation laterProcessing CallSamples.sampleISO "camp-9" 0 1
           (Db.mkResponse None (Some "no rows")));
    [reflexivity | left; by exists "no rows"].
Defined.

Lemma only_leads_read_are_rewritten_witness :
  exists q rows,
    LeadsRead q (Returned (Db.mkResponse (Some rows) None))
      ∈ (startCampaign nat "org-1" knownCampaign oneUnassignedLead quietWrite
           quietActivation laterProcessing CallSamples.sampleISO "camp-1" 0).1.2
    /\ rows <> []
    /\ q = UnassignedPending "org-1" 10
    /\ "camp-1" = "camp-1" /\ ["lead-7"] = map Db.id rows.
Proof.
  refine (proj2 (only_leads_read_are_rewritten "org-1" knownCampaign oneUnassignedLead
                   quietWrite quietActivation laterProcessing CallSamples.sampleISO
                   "camp-1" 0 (AssignTo "camp-1" ["lead-7"] "T+4") (Returned None) _)).
  vm_compute. repeat first [apply list_elem_of_here | apply list_elem_of_further].
Defined.

End StartFacts.

(** ** Creating a campaign *)

Module CreateFacts.

Import JS Campaign Async Create CreateSamples JSFacts.

Lemma orElse_fallback v fallback : fallback <> "" -> orElse v fallback <> "".
Proof.
  intros Hne. destruct v as [[|c s]|]; [exact Hne | discriminate | exact Hne].
Qed.

Lemma orElse_truthy v fallback :
  Csv.truthy v = true -> Some (orElse v fallback) = v /\ orElse v fallback <> "".
Proof. destruct v as [[|c s]|]; [discriminate | by split | discriminate]. Qed.

Section OneCreate.

Context {World : Type}.
Variable organizationId : string.
Variable vapiService : option (World -> World * Outcome unit).
Variable insertCampaign :
  CampaignInsert.t -> World -> World * Outcome (Db.Response CampaignRow.t).
Variable uploadLeadsFromCSV : string -> string -> World -> World * Outcome UploadResult.t.
Variable startCampaign : string -> World -> World * Outcome unit.
Variable clock : World -> World * string.
Variable nullIdMessage : string.

Local Abbreviation createCampaign :=
  (createCampaign World organizationId vapiService insertCampaign uploadLeadsFromCSV
     startCampaign clock nullIdMessage).

Local Ltac members H :=
  repeat (apply elem_of_cons in H as [H|H]); try (by apply elem_of_nil in H).

Local Ltac run_step :=
  match goal with
  | |- context [if Csv.truthy ?v then _ else _] => destruct (Csv.truthy v) eqn:?
  | |- context [if negb (Csv.truthy ?v) then _ else _] => destruct (Csv.truthy v) eqn:?
  | |- context [if Csv.truthy ?v || _ then _ else _] => destruct (Csv.truthy v) eqn:?
  | |- context [clock ?w] => destruct (clock w) as [? ?]
  | |- context [insertCampaign ?r ?w] =>
      destruct (insertCampaign r w) as [? [[[?|] [?|]]|?]]
  | |- context [uploadLeadsFromCSV ?c ?d ?w] =>
      destruct (uploadLeadsFromCSV c d w) as [? [?|?]]
  | |- context [startCampaign ?c ?w] =>
      destruct (startCampaign c w) as [? [[]|?]]
  | listAssistants : World -> World * Outcome unit |- context [?f ?w] =>
      constr_eq f listAssistants; destruct (listAssistants w) as [? [[]|?]]
  | |- context [Csv.truthy ?v] => destruct (Csv.truthy v) eqn:?
  | |- context [bool_decide (?a = ?b)] => destruct (bool_decide_reflect (a = b))
  end; cbn [fst snd app negb andb orb Db.data Db.error].

Local Ltac run_create :=
  cbv zeta;
  unfold Create.createCampaign, now, hasVAPICredentials, hasRealVAPIData,
    tryCatch, bind, exchange, read, ret, throw;
  destruct vapiService as [listAssistants|];
  [ rewrite ?bool_decide_eq_true_2 by eauto
  | rewrite ?bool_decide_eq_false_2 by (intros [? ?]; discriminate) ];
  cbn [fst snd app negb andb orb Db.data Db.error];
  repeat run_step.

(** X23.  [createCampaign] throws only while the campaign does not exist
    yet: for a missing name, before anything is sent, or when the insert of
    the campaign throws, answers with an error or answers with no row.  Once
    the row is there it returns, whatever the listing of the assistants, the
    upload of the leads and the start of the campaign did; and what it
    returns reports no leads, also right after an upload. *)
Theorem create_throws_only_before_campaign_exists data w :
  let run := createCampaign data w in
  match run.2 with
  | Thrown message =>
      Forall (fun e => isUpload e = false /\ isStart e = false) run.1.2
      /\ ((message = "Campaign name is required" /\ run.1.2 = [])
          \/ exists row answer,
               last run.1.2 = Some (CampaignInserted row answer)
               /\ (answer = Thrown message
                   \/ (exists campaign text,
                         answer = Returned (Db.mkResponse campaign (Some text))
                         /\ message = "Failed to create campaign: " +:+ text)
                   \/ (answer = Returned (Db.mkResponse None None)
                       /\ message = nullIdMessage)))
  | Returned result =>
      exists row campaign,
        CampaignInserted row (Returned (Db.mkResponse (Some campaign) None)) ∈ run.1.2
        /\ CreatedCampaign.id result = CampaignRow.id campaign
        /\ CreatedCampaign.leads result = []
        /\ Metrics.totalLeads (CreatedCampaign.metrics result) = 0
  end.
Proof.
  run_create;
    first
      [ solve [split; [repeat constructor | left; by split]]
      | solve [split; [repeat constructor|]; right; eexists _, _;
               split; [reflexivity|]; left; reflexivity]
      | solve [split; [repeat constructor|]; right; eexists _, _;
               split; [reflexivity|]; right; left; eexists _, _; split; reflexivity]
      | solve [split; [repeat constructor|]; right; eexists _, _;
               split; [reflexivity|]; right; right; split; reflexivity]
      | solve [eexists _, _; split;
               [ first [ apply list_elem_of_here
                       | apply list_elem_of_further, list_elem_of_here ]
               | by repeat split ]] ].
Qed.

(** X24.  The campaign is started from [createCampaign] only for
    [sendTiming] ['now'], with a calling service and with an assistant and a
    phone given; the start is the last thing sent, it is for the campaign
    just inserted, and [createCampaign] returns whatever the start did. *)
Theorem auto_start_only_when_ready data w campaignId answer :
  let run := createCampaign data w in
  CampaignStarted campaignId answer ∈ run.1.2 ->
  CampaignData.sendTiming data = Some "now"
  /\ is_Some vapiService
  /\ Csv.truthy (CampaignData.assistantId data) = true
  /\ (Csv.truthy (CampaignData.phoneNumberId data) = true
      \/ Csv.truthy (CampaignData.phoneNumber data) = true)
  /\ last run.1.2 = Some (CampaignStarted campaignId answer)
  /\ (exists row campaign,
        CampaignInserted row (Returned (Db.mkResponse (Some campaign) None)) ∈ run.1.2
        /\ campaignId = CampaignRow.id campaign)
  /\ exists result, run.2 = Returned result.
Proof.
  run_create; intros Hin; members Hin; try discriminate Hin;
    try (injection Hin as -> ->;
         split; [assumption|]; split; [by eexists|]; split; [reflexivity|];
         split; [auto|]; split; [reflexivity|];
         split; [|by eexists];
         eexists _, _; split;
           [ first [ apply list_elem_of_here
                   | apply list_elem_of_further, list_elem_of_here ]
           | reflexivity ]).
Qed.

(** X25.  The row [createCampaign] inserts is never short of a column it
    fills: it belongs to this organisation, carries the name given, which is
    not empty, and has a status, an assistant, a phone number and a creator,
    the defaults standing in for what is missing or empty. *)
Theorem inserted_campaign_is_complete data w row answer :
  CampaignInserted row answer ∈ (createCampaign data w).1.2 ->
  CampaignInsert.organization_id row = organizationId
  /\ Some (CampaignInsert.name row) = CampaignData.name data
  /\ CampaignInsert.name row <> ""
  /\ CampaignInsert.type row = "outbound"
  /\ CampaignInsert.status row <> ""
  /\ CampaignInsert.assistant_id row <> ""
  /\ CampaignInsert.phone_number_id row <> ""
  /\ CampaignInsert.created_by row <> "".
Proof.
  assert (forall createdAt updatedAt,
            Csv.truthy (CampaignData.name data) = true ->
            row = newRow organizationId data createdAt updatedAt ->
            CampaignInsert.organization_id row = organizationId
            /\ Some (CampaignInsert.name row) = CampaignData.name data
            /\ CampaignInsert.name row <> ""
            /\ CampaignInsert.type row = "outbound"
            /\ CampaignInsert.status row <> ""
            /\ CampaignInsert.assistant_id row <> ""
            /\ CampaignInsert.phone_number_id row <> ""
            /\ CampaignInsert.created_by row <> "") as Hrow.
  { intros createdAt updatedAt Hname ->. cbn.
    destruct (orElse_truthy _ "" Hname) as [Hsame Hne].
    repeat split; auto; by apply orElse_fallback. }
  run_create; intros Hin; members Hin; try discriminate Hin;
    injection Hin as Hin _; eapply Hrow; eauto.
Qed.

End OneCreate.

Lemma auto_start_only_when_ready_witness :
  last (createCampaign nat "org-1" listingService storingInsert quietUpload failingStart
          tickingClock "Cannot read properties of null" readyData 0).1.2
  = Some (CampaignStarted "camp-1"
            (Thrown "No leads found for campaign. Please upload leads first."))
  /\ exists result,
       (createCampaign nat "org-1" listingService storingInsert quietUpload failingStart
          tickingClock "Cannot read properties of null" readyData 0).2
       = Returned result.
Proof.
  assert (CampaignStarted "camp-1"
            (Thrown "No leads found for campaign. Please upload leads first.")
            ∈ (createCampaign nat "org-1" listingService storingInsert quietUpload
                 failingStart tickingClock "Cannot read properties of null"
                 readyData 0).1.2) as Hin
    by (vm_compute; repeat first [apply list_elem_of_here | apply list_elem_of_further]).
  destruct (auto_start_only_when_ready "org-1" listingService storingInsert quietUpload
              failingStart tickingClock "Cannot read properties of null" readyData 0
              _ _ Hin) as (_ & _ & _ & _ & Hlast & _ & Hreturned).
  split; [exact Hlast | exact Hreturned].
Defined.

Lemma inserted_campaign_is_complete_witness :
  CampaignInsert.status
    (newRow "org-1" readyData (CallSamples.sampleISO 1) (CallSamples.sampleISO 2)) <> ""
  /\ CampaignInsert.created_by
       (newRow "org-1" readyData (CallSamples.sampleISO 1) (CallSamples.sampleISO 2)) <> "".
Proof.
  assert (CampaignInserted
            (newRow "org-1" readyData (CallSamples.sampleISO 1) (CallSamples.sampleISO 2))
            (storingInsert
               (newRow "org-1" readyData (CallSamples.sampleISO 1) (CallSamples.sampleISO 2))
               3).2
            ∈ (createCampaign nat "org-1" listingService storingInsert quietUpload
                 failingStart tickingClock "Cannot read properties of null"
                 readyData 0).1.2) as Hin
    by (vm_compute; repeat first [apply list_elem_of_here | apply list_elem_of_further]).
  destruct (inserted_campaign_is_complete "org-1" listingService storingInsert quietUpload
              failingStart tickingClock "Cannot read properties of null" readyData 0
              _ _ Hin) as (_ & _ & _ & _ & Hstatus & _ & _ & Hcreator).
  split; [exact Hstatus | exact Hcreator].
Defined.

End CreateFacts.

(** ** The dashboard of a campaign *)

Module DashboardFacts.

Import JS Csv Campaign Async Dashboard JSFacts CsvFacts CsvMoreFacts.

(** X26.  A lead the row handler built and the upload stored is shown by
    the dashboard exactly as it was built, under the id the database gave
    it: every field of the record survives the way through the table. *)
Theorem uploaded_lead_shown_as_built message n row lead organizationId clock campaignId i id :
  handleRow message n row = Pushed lead ->
  transformLead (Db.mkLeadRow id (toRecord organizationId clock campaignId i lead))
  = (id, lead).
Proof.
  intros Hpushed. unfold transformLead, toRecord. cbn. f_equal.
  unfold handleRow in Hpushed. destruct (resolveNames row) as [firstName lastName].
  destruct firstName as [first|]; [|discriminate].
  destruct (phoneField row) as [cell|]; [|discriminate].
  destruct (isEmpty first || isEmpty cell); [discriminate|].
  destruct (negb _); [discriminate|].
  destruct lastName as [last|]; [|discriminate].
  by injection Hpushed as <-.
Qed.

Lemma uploaded_lead_shown_as_built_witness :
  (transformLead
     (Db.mkLeadRow "lead-1"
        (toRecord "org-1" Samples.sampleClock "camp-1" 0
           {| VAPILead.firstName := "Ada";
              VAPILead.lastName := "Lovelace King";
              VAPILead.phone := "+35699123456";
              VAPILead.email := None;
              VAPILead.company := None;
              VAPILead.title := None;
              VAPILead.status := "pending";
              VAPILead.callAttempts := 0;
              VAPILead.customFields := ∅ |}))).1
  = "lead-1".
Proof.
  exact (f_equal fst
           (uploaded_lead_shown_as_built "" 1 Samples.sampleNameRow
              {| VAPILead.firstName := "Ada";
                 VAPILead.lastName := "Lovelace King";
                 VAPILead.phone := "+35699123456";
                 VAPILead.email := None;
                 VAPILead.company := None;
                 VAPILead.title := None;
                 VAPILead.status := "pending";
                 VAPILead.callAttempts := 0;
                 VAPILead.customFields := ∅ |}
              "org-1" Samples.sampleClock "camp-1" 0 "lead-1" eq_refl)).
Defined.

Section OneDashboard.

Context {World : Type}.
Variable organizationId : string.
Variable selectCampaign :
  string -> string -> World -> World * Outcome (Db.Response CampaignRow.t).
Variable selectLeads : string -> World -> World * Outcome (Db.Response (list Db.LeadRow)).
Variable selectCalls : string -> World -> World * Outcome (Db.Response (list CallRow.t)).
Variable toISOString : World -> string.

Local Abbreviation getCampaignDashboard :=
  (getCampaignDashboard World organizationId selectCampaign selectLeads selectCalls
     toISOString).

Local Ltac run_dashboard campaignId w :=
  cbv zeta;
  unfold Dashboard.getCampaignDashboard, tryCatch, bind, exchange, read, ret, throw;
  destruct (selectCampaign campaignId organizationId w)
    as [w1 [[[campaign|] [campaignError|]]|thrown]];
  cbn [fst snd app Db.data Db.error];
  try match goal with
      | |- context [selectLeads ?c ?v] =>
          destruct (selectLeads c v) as [w2 [[leads [leadsError|]]|thrown]];
          cbn [fst snd app Db.data Db.error]
      end;
  try match goal with
      | |- context [selectCalls ?c ?v] =>
          destruct (selectCalls c v) as [w3 [[calls [callsError|]]|thrown]];
          cbn [fst snd app Db.data Db.error]
      end.

Lemma shown_remaining rows :
  length (List.filter shownRemaining (map transformLead rows))
  = length (List.filter Metrics.isRemaining rows).
Proof.
  induction rows as [|row rows IH]; [reflexivity|]. cbn [map List.filter].
  change (shownRemaining (transformLead row)) with (Metrics.isRemaining row).
  destruct (Metrics.isRemaining row); cbn [length]; by rewrite IH.
Qed.

(** X27.  What the dashboard returns is consistent with itself: it shows
    one lead per row read, in the order read and under the status of the
    [call_status] column; [totalLeads] is the number of leads shown and
    [leadsRemaining] the number of leads shown as pending, no_answer or busy;
    the calls counted are the rows read of [calls]. *)
Theorem dashboard_counts_match_leads_shown campaignId w :
  let run := getCampaignDashboard campaignId w in
  match run.2 with
  | Returned result =>
      exists leads calls,
        run.1.2
        = [CampaignRead campaignId organizationId
             (selectCampaign campaignId organizationId w).2;
           LeadsRead campaignId (Returned leads);
           CallsRead campaignId (Returned calls)]
        /\ DashboardCampaign.leads result = map transformLead (default [] (Db.data leads))
        /\ Metrics.totalLeads (DashboardCampaign.metrics result)
           = length (DashboardCampaign.leads result)
        /\ Metrics.leadsRemaining (DashboardCampaign.metrics result)
           = length (List.filter shownRemaining (DashboardCampaign.leads result))
        /\ Metrics.callsAttempted (DashboardCampaign.metrics result)
           = length (default [] (Db.data calls))
  | Thrown _ => True
  end.
Proof.
  run_dashboard campaignId w; try exact I.
  eexists _, _. split; [reflexivity|].
  cbn [DashboardCampaign.leads DashboardCampaign.metrics Metrics.calculateCampaignMetrics
         Metrics.totalLeads Metrics.leadsRemaining Metrics.callsAttempted].
  split; [reflexivity|]. split; [by rewrite length_map|].
  split; [by rewrite shown_remaining | reflexivity].
Qed.


End OneDashboard.

End DashboardFacts.
